(** * FinAPIU: soft delete and audit history of tasks and articles

    A shallow embedding of the request handlers of [src/task/routes.py] and
    [src/article/routes.py] over the tables of [src/db/models.py], and the
    properties of the lifecycle operations (create, update, delete, restore,
    reassign) that the specification states.  Further parts embed the read
    routes of the two files, the routes on the table of users ([src/auth],
    [src/user/routes.py], [src/admin/routes.py]) and [get_image] of
    [src/images/routes.py], with the properties that the code itself shows.

    Conventions of the embedding.
    - A table with a primary key is a finite map from the key to the row, and
      the key column ([Task.id], [Article.id]) is not repeated in the row;
      the history and image tables are lists in insertion order.
    - Only the columns that a handler reads or writes are kept.  The columns
      filled by the server ([created_at], [updated_at], [changed_at]) and the
      keys of the history and image rows are left out.
    - A handler is a computation over a unit of work: the store as committed
      and the store as the open transaction sees it.  [HTTPException] is the
      only exception the handlers raise themselves, and the only one modelled
      for them; the routes on the table of users can also end in the
      [MultipleResultsFound] of a query.
    - Time is in microseconds; a naive timestamp is a [Z]. *)

From Stdlib Require Import Ascii.
From stdpp Require Import gmap strings list pretty.

Local Open Scope Z_scope.

(** ** Values *)

(** [datetime]: the reading of the wall clock and, for an aware value, the
    offset of its time zone from UTC. *)
Record datetime := {
  wall : Z;
  utcoffset : option Z
}.

Definition timedelta (days : Z) : Z := days * 86400000000.

(** [d.astimezone(timezone.utc).replace(tzinfo=None)]; a naive [d] is read in
    the local zone of the server, whose offset is [local]. *)
Definition astimezone_utc_naive (local : Z) (d : datetime) : datetime :=
  {| wall := wall d - default local (utcoffset d); utcoffset := None |}.

(** The values stored in the JSON column [TaskHistory.changes].  A dict keeps
    its keys in insertion order.  [JDatetime d] is the datetime object [d]
    as [task_data] holds it, [JIsoformat d] the string [d.isoformat()]. *)
#[local] Unset Elimination Schemes.
Inductive json :=
| JNull
| JInt (n : Z)
| JStr (s : string)
| JDatetime (d : datetime)
| JIsoformat (d : datetime)
| JList (l : list string)
| JDict (kv : list (string * json)).
#[local] Set Elimination Schemes.

Definition dict := list (string * json).

(** [d[k] = v] *)
Fixpoint dict_set (k : string) (v : json) (d : dict) : dict :=
  match d with
  | [] => [(k, v)]
  | (k', v') :: r =>
      if String.eqb k k' then (k, v) :: r else (k', v') :: dict_set k v r
  end.

Definition keys (d : dict) : list string := d.*1.

Definition json_of_option_str (o : option string) : json :=
  match o with Some s => JStr s | None => JNull end.

(** ** Exceptions *)

Record HTTPException := {
  status_code : Z;
  detail : string
}.

(** [str(e)] of an [HTTPException]. *)
Definition str_exc (e : HTTPException) : string :=
  pretty (status_code e) +:+ ": " +:+ detail e.

(** The error kinds of the specification, read off the status code. *)
Inductive ErrorKind :=
| NotFound | Forbidden | ValidationError | InternalError | OtherError.

Definition error_kind (e : HTTPException) : ErrorKind :=
  if status_code e =? 404 then NotFound
  else if status_code e =? 403 then Forbidden
  else if (status_code e =? 400) || (status_code e =? 422) then ValidationError
  else if status_code e =? 500 then InternalError
  else OtherError.

Inductive outcome (A : Type) :=
| Return (a : A)
| Raise (e : HTTPException).
Arguments Return {A} a.
Arguments Raise {A} e.

Definition is_return {A} (o : outcome A) : bool :=
  match o with Return _ => true | Raise _ => false end.

Definition raised {A} (o : outcome A) : option HTTPException :=
  match o with Return _ => None | Raise e => Some e end.

(** ** The tables of [src/db/models.py] *)

Module User.
Record t := {
  user_id : Z;
  role_id : Z;
  is_deleted : bool
}.
End User.

(** Modelled from the spec: [src/task/enums.py] is not among the sources.
    The handlers use a member of [TaskStatus] or [TaskPriority] only through
    its [.value], so a member is represented by that value. *)
Record TaskStatus := { status_value : string }.
Record TaskPriority := { priority_value : string }.

Module Task.
Record t := {
  title : string;
  description : option string;
  status : TaskStatus;
  priority : TaskPriority;
  due_date : option datetime;
  author_id : Z;
  assignee_id : Z;
  image_paths : option (list string);
  is_deleted : bool;
  deleted_at : option Z
}.

Definition set_title (v : string) (x : t) : t :=
  {| title := v; description := description x;
     status := status x; priority := priority x; due_date := due_date x;
     author_id := author_id x; assignee_id := assignee_id x;
     image_paths := image_paths x; is_deleted := is_deleted x;
     deleted_at := deleted_at x |}.
Definition set_description (v : option string) (x : t) : t :=
  {| title := title x; description := v;
     status := status x; priority := priority x; due_date := due_date x;
     author_id := author_id x; assignee_id := assignee_id x;
     image_paths := image_paths x; is_deleted := is_deleted x;
     deleted_at := deleted_at x |}.
Definition set_status (v : TaskStatus) (x : t) : t :=
  {| title := title x; description := description x;
     status := v; priority := priority x; due_date := due_date x;
     author_id := author_id x; assignee_id := assignee_id x;
     image_paths := image_paths x; is_deleted := is_deleted x;
     deleted_at := deleted_at x |}.
Definition set_priority (v : TaskPriority) (x : t) : t :=
  {| title := title x; description := description x;
     status := status x; priority := v; due_date := due_date x;
     author_id := author_id x; assignee_id := assignee_id x;
     image_paths := image_paths x; is_deleted := is_deleted x;
     deleted_at := deleted_at x |}.
Definition set_due_date (v : option datetime) (x : t) : t :=
  {| title := title x; description := description x;
     status := status x; priority := priority x; due_date := v;
     author_id := author_id x; assignee_id := assignee_id x;
     image_paths := image_paths x; is_deleted := is_deleted x;
     deleted_at := deleted_at x |}.
Definition set_assignee_id (v : Z) (x : t) : t :=
  {| title := title x; description := description x;
     status := status x; priority := priority x; due_date := due_date x;
     author_id := author_id x; assignee_id := v;
     image_paths := image_paths x; is_deleted := is_deleted x;
     deleted_at := deleted_at x |}.
Definition set_image_paths (v : option (list string)) (x : t) : t :=
  {| title := title x; description := description x;
     status := status x; priority := priority x; due_date := due_date x;
     author_id := author_id x; assignee_id := assignee_id x;
     image_paths := v; is_deleted := is_deleted x;
     deleted_at := deleted_at x |}.
Definition set_is_deleted (v : bool) (x : t) : t :=
  {| title := title x; description := description x;
     status := status x; priority := priority x; due_date := due_date x;
     author_id := author_id x; assignee_id := assignee_id x;
     image_paths := image_paths x; is_deleted := v;
     deleted_at := deleted_at x |}.
Definition set_deleted_at (v : option Z) (x : t) : t :=
  {| title := title x; description := description x;
     status := status x; priority := priority x; due_date := due_date x;
     author_id := author_id x; assignee_id := assignee_id x;
     image_paths := image_paths x; is_deleted := is_deleted x;
     deleted_at := v |}.
End Task.

Module TaskHistory.
Record t := {
  task_id : Z;
  user_id : Z;
  event : string;
  comment : option string;
  changes : option dict
}.
End TaskHistory.

Module Article.
Record t := {
  title : string;
  content : string;
  author_id : Z;
  is_deleted : bool;
  deleted_at : option Z
}.

Definition set_title (v : string) (x : t) : t :=
  {| title := v; content := content x;
     author_id := author_id x; is_deleted := is_deleted x;
     deleted_at := deleted_at x |}.
Definition set_content (v : string) (x : t) : t :=
  {| title := title x; content := v;
     author_id := author_id x; is_deleted := is_deleted x;
     deleted_at := deleted_at x |}.
Definition set_is_deleted (v : bool) (x : t) : t :=
  {| title := title x; content := content x;
     author_id := author_id x; is_deleted := v;
     deleted_at := deleted_at x |}.
Definition set_deleted_at (v : option Z) (x : t) : t :=
  {| title := title x; content := content x;
     author_id := author_id x; is_deleted := is_deleted x;
     deleted_at := v |}.
End Article.

Module ArticleImage.
Record t := {
  article_id : Z;
  image_path : string
}.
End ArticleImage.

Module ArticleHistory.
Record t := {
  article_id : Z;
  user_id : Z;
  event : string;
  old_title : option string;
  new_title : option string;
  old_content : option string;
  new_content : option string
}.
End ArticleHistory.

(** ** The store and the unit of work *)

Record DB := {
  users : gmap Z User.t;
  tasks : gmap Z Task.t;
  task_history : list TaskHistory.t;
  articles : gmap Z Article.t;
  article_images : list ArticleImage.t;
  article_history : list ArticleHistory.t
}.

Definition with_tasks (f : gmap Z Task.t → gmap Z Task.t) (d : DB) : DB :=
  {| users := users d; tasks := f (tasks d); task_history := task_history d;
     articles := articles d; article_images := article_images d;
     article_history := article_history d |}.
Definition with_task_history
    (f : list TaskHistory.t → list TaskHistory.t) (d : DB) : DB :=
  {| users := users d; tasks := tasks d; task_history := f (task_history d);
     articles := articles d; article_images := article_images d;
     article_history := article_history d |}.
Definition with_articles
    (f : gmap Z Article.t → gmap Z Article.t) (d : DB) : DB :=
  {| users := users d; tasks := tasks d; task_history := task_history d;
     articles := f (articles d); article_images := article_images d;
     article_history := article_history d |}.
Definition with_article_images
    (f : list ArticleImage.t → list ArticleImage.t) (d : DB) : DB :=
  {| users := users d; tasks := tasks d; task_history := task_history d;
     articles := articles d; article_images := f (article_images d);
     article_history := article_history d |}.
Definition with_article_history
    (f : list ArticleHistory.t → list ArticleHistory.t) (d : DB) : DB :=
  {| users := users d; tasks := tasks d; task_history := task_history d;
     articles := articles d; article_images := article_images d;
     article_history := f (article_history d) |}.

(** The key the store gives to a new row: one past the largest key in use. *)
Definition next_id {V} (tbl : gmap Z V) : Z :=
  1 + map_fold (λ k _ acc, Z.max k acc) 0 tbl.

(** The session of a request: the store as committed, and the store as the
    open transaction sees it. *)
Record Sess := {
  committed : DB;
  pending : DB
}.

Definition Session (A : Type) : Type := Sess → outcome A * Sess.

#[global] Instance session_ret : MRet Session :=
  λ A a s, (Return a, s).
#[global] Instance session_bind : MBind Session :=
  λ A B f m s,
    match m s with
    | (Return a, s') => f a s'
    | (Raise e, s') => (Raise e, s')
    end.

Definition raise {A} (e : HTTPException) : Session A :=
  λ s, (Raise e, s).

(** [try: body / except Exception as e: handler e] *)
Definition try_except {A} (body : Session A)
    (handler : HTTPException → Session A) : Session A :=
  λ s,
    match body s with
    | (Return a, s') => (Return a, s')
    | (Raise e, s') => handler e s'
    end.

Definition query {A} (f : DB → A) : Session A :=
  λ s, (Return (f (pending s)), s).
Definition modify (f : DB → DB) : Session unit :=
  λ s, (Return (), {| committed := committed s; pending := f (pending s) |}).

(** [await db.commit()] and [await db.rollback()] *)
Definition commit : Session unit :=
  λ s, (Return (), {| committed := pending s; pending := pending s |}).
Definition rollback : Session unit :=
  λ s, (Return (), {| committed := committed s; pending := committed s |}).

(** Modelled from the spec: [get_db] of [src/db/database.py] is not among the
    sources.  A request is one unit of work; what it has not committed when
    it ends is discarded with its session. *)
Definition run {A} (h : Session A) (db : DB) : outcome A * DB :=
  let '(o, s) := h {| committed := db; pending := db |} in (o, committed s).

(** ** The environment of a request *)

(** What a handler takes from outside the store: the clock, the local zone
    of the server, the random hexadecimal tokens it draws ([uuid4().hex],
    [token_hex(4)]), the [i]-th draw of the request being [rand_hex i], and
    [str.lower] of the Python runtime, which lowers the cased letters of all
    of Unicode. *)
Record Env := {
  utcnow : Z;
  local_utcoffset : Z;
  rand_hex : nat → string;
  str_lower : string → string
}.

(** An uploaded file; the handlers read its name (and write its bytes to
    the upload directory, which is outside the store). *)
Record UploadFile := { filename : string }.

(** [os.path.splitext(p)[1]]: the text from the last dot of the last path
    component on, unless only dots come before it in that component. *)
Definition basename (p : list ascii) : list ascii :=
  fold_left (λ acc c, if Ascii.eqb c "/"%char then [] else acc ++ [c]) p [].

Fixpoint split_last_dot (l : list ascii) : option (list ascii * list ascii) :=
  match l with
  | [] => None
  | c :: r =>
      match split_last_dot r with
      | Some (stem, ext) => Some (c :: stem, ext)
      | None => if Ascii.eqb c "."%char then Some ([], c :: r) else None
      end
  end.

Definition splitext_ext (p : string) : string :=
  match split_last_dot (basename (String.list_ascii_of_string p)) with
  | Some (stem, ext) =>
      if forallb (λ c, Ascii.eqb c "."%char) stem then ""
      else String.string_of_list_ascii ext
  | None => ""
  end.

(** [s.lower()] on ASCII text: the letters [A] to [Z] are lowered and every
    other character is kept.  The handlers take [str.lower] from their
    environment; this is the instance of the concrete cases, whose file names
    are ASCII. *)
Definition lower_ascii (c : ascii) : ascii :=
  let n := Ascii.N_of_ascii c in
  if ((65 <=? n) && (n <=? 90))%N then Ascii.ascii_of_N (n + 32) else c.

Definition ascii_lower (s : string) : string :=
  String.string_of_list_ascii (lower_ascii <$> String.list_ascii_of_string s).

(** Python's truth value of a list: [if images:] *)
Definition nonempty {A} (l : list A) : bool :=
  match l with [] => false | _ :: _ => true end.

(** The role that passes every ownership check ([ADMIN_ROLE_ID = 2] in the
    task routes, the literal [2] in the article routes). *)
Definition ADMIN_ROLE_ID : Z := 2.

(** The [where] clause of [restore_task] and [restore_article]: the row is
    deleted and its [deleted_at] is not older than seven days.  A null
    [deleted_at] fails the comparison, as in SQL. *)
Definition restorable (now : Z) (is_deleted : bool) (deleted_at : option Z)
  : bool :=
  is_deleted &&
  match deleted_at with
  | Some d => now - timedelta 7 <=? d
  | None => false
  end.

(** ** [src/task/routes.py] *)

Module TaskRoutes.

(** [task.attr = v]: the object of the session changes and the open
    transaction sees the change. *)
Definition setattr (task_id : Z) (f : Task.t → Task.t) (task : Task.t)
  : Session Task.t :=
  modify (with_tasks <[task_id := f task]>);; mret (f task).

(** [db.add(TaskHistory(...))] *)
Definition add_history (h : TaskHistory.t) : Session unit :=
  modify (with_task_history (λ l, l ++ [h])).

(** [db.add(task); await db.flush()]: the row gets its key. *)
Definition add_task (task : Task.t) : Session Z :=
  task_id ← query (λ d, next_id (tasks d));
  modify (with_tasks <[task_id := task]>);;
  mret task_id.

Definition save_uploaded_file (lower : string → string) (hex : string)
    (file : UploadFile) (task_id : Z) : string :=
  let file_ext := lower (splitext_ext (filename file)) in
  "task_" +:+ pretty task_id +:+ "_" +:+ hex +:+ file_ext.

Definition verify_assignee (assignee_id : Z) : Session User.t :=
  user ← query (λ d,
    match users d !! assignee_id with
    | Some u => if User.is_deleted u then None else Some u
    | None => None
    end);
  match user with
  | None => raise {| status_code := 404; detail := "Исполнитель не найден" |}
  | Some user => mret user
  end.

(** The loop [for image in images:] of [create_task] and [update_task]; [i]
    counts the tokens drawn so far. *)
Fixpoint add_images (env : Env) (task_id : Z) (current_user : User.t)
    (i : nat) (images : list UploadFile) (image_paths : list string)
  : Session (list string) :=
  match images with
  | [] => mret image_paths
  | image :: rest =>
      let file_name :=
        save_uploaded_file (str_lower env) (rand_hex env i) image task_id in
      let image_paths := image_paths ++ [file_name] in
      add_history
        {| TaskHistory.task_id := task_id;
           TaskHistory.user_id := User.user_id current_user;
           TaskHistory.event := "IMAGE_ADDED";
           TaskHistory.comment := None;
           TaskHistory.changes := Some [("image_path"%string, JStr file_name)] |};;
      add_images env task_id current_user (S i) rest image_paths
  end.

Definition json_of_due_date (d : option datetime) : json :=
  match d with Some d => JDatetime d | None => JNull end.

Definition create_task (env : Env) (title : string)
    (description : option string) (assignee_id : Z)
    (due_date : option datetime) (status : TaskStatus)
    (priority : TaskPriority) (images : list UploadFile)
    (current_user : User.t) : Session (Z * Task.t) :=
  let due_date := astimezone_utc_naive (local_utcoffset env) <$> due_date in
  try_except
    (verify_assignee assignee_id;;
     let task_data : dict :=
       [("title"%string, JStr title);
        ("description"%string, json_of_option_str description);
        ("assignee_id"%string, JInt assignee_id);
        ("due_date"%string, json_of_due_date due_date);
        ("author_id"%string, JInt (User.user_id current_user));
        ("status"%string, JStr (status_value status));
        ("priority"%string, JStr (priority_value priority));
        ("image_paths"%string, JList [])] in
     let task :=
       {| Task.title := title; Task.description := description;
          Task.status := status; Task.priority := priority;
          Task.due_date := due_date;
          Task.author_id := User.user_id current_user;
          Task.assignee_id := assignee_id;
          Task.image_paths := Some [];
          Task.is_deleted := false; Task.deleted_at := None |} in
     task_id ← add_task task;
     task ← (if nonempty images then
               image_paths ← add_images env task_id current_user 0 images [];
               setattr task_id (Task.set_image_paths (Some image_paths)) task
             else mret task);
     let history_task_data :=
       match due_date with
       | Some d => dict_set "due_date" (JIsoformat d) task_data
       | None => task_data
       end in
     add_history
       {| TaskHistory.task_id := task_id;
          TaskHistory.user_id := User.user_id current_user;
          TaskHistory.event := "TASK_CREATED";
          TaskHistory.comment := None;
          TaskHistory.changes := Some history_task_data |};;
     commit;;
     mret (task_id, task))
    (λ e,
       rollback;;
       raise {| status_code := 500;
                detail := "Ошибка при создании задачи: " +:+ str_exc e |}).

(** The dict [changes] of [update_task]. *)
Definition update_changes (title description : option string)
    (assignee_id : option Z) (due_date : option datetime)
    (status : option TaskStatus) (priority : option TaskPriority)
    (images : list UploadFile) (task : Task.t) : dict :=
  let changes : dict := [] in
  let changes :=
    match title with
    | Some v => dict_set "title" (JStr v) changes | None => changes end in
  let changes :=
    match description with
    | Some v => dict_set "description" (JStr v) changes | None => changes end in
  let changes :=
    match assignee_id with
    | Some v => dict_set "assignee_id" (JInt v) changes | None => changes end in
  let changes :=
    match due_date with
    | Some v => dict_set "due_date" (JIsoformat v) changes | None => changes end in
  let changes :=
    match status with
    | Some v => dict_set "status" (JStr (status_value v)) changes
    | None => changes end in
  let changes :=
    match priority with
    | Some v => dict_set "priority" (JStr (priority_value v)) changes
    | None => changes end in
  if nonempty images
  then dict_set "image_paths" (JList (default [] (Task.image_paths task))) changes
  else changes.

(** [update_task].  The images: [image_paths = task.image_paths if
    task.image_paths else []] is the list of the row itself when that list
    is not empty, and a new list otherwise.  [image_paths.append] then
    changes the list of the row in place, which the unit of work does not
    see ([image_paths] is a plain [JSON] column), and [task.image_paths =
    image_paths] assigns to the attribute the object it already holds, which
    is no change either: the names reach the object, and through it the
    [TASK_UPDATED] record, but not the row.  A new list is a new value, and
    is written.  The handler ends with [db.refresh(task)] and returns the
    row as stored. *)
Definition update_task (env : Env) (task_id : Z)
    (title description : option string) (assignee_id : option Z)
    (due_date : option datetime) (status : option TaskStatus)
    (priority : option TaskPriority) (images : list UploadFile)
    (current_user : User.t) : Session Task.t :=
  task ← query (λ d, tasks d !! task_id);
  match task with
  | None => raise {| status_code := 404; detail := "Task not found" |}
  | Some task =>
      task ← match title with
             | Some v => setattr task_id (Task.set_title v) task
             | None => mret task
             end;
      task ← match description with
             | Some v => setattr task_id (Task.set_description (Some v)) task
             | None => mret task
             end;
      task ← match assignee_id with
             | Some v =>
                 verify_assignee v;;
                 setattr task_id (Task.set_assignee_id v) task
             | None => mret task
             end;
      task ← match due_date with
             | Some v =>
                 setattr task_id
                   (Task.set_due_date
                      (Some (astimezone_utc_naive (local_utcoffset env) v)))
                   task
             | None => mret task
             end;
      task ← match status with
             | Some v => setattr task_id (Task.set_status v) task
             | None => mret task
             end;
      task ← match priority with
             | Some v => setattr task_id (Task.set_priority v) task
             | None => mret task
             end;
      task ← (if nonempty images then
                match Task.image_paths task with
                | Some (p :: ps) =>
                    image_paths ←
                      add_images env task_id current_user 0 images (p :: ps);
                    mret (Task.set_image_paths (Some image_paths) task)
                | _ =>
                    image_paths ←
                      add_images env task_id current_user 0 images [];
                    setattr task_id (Task.set_image_paths (Some image_paths))
                      task
                end
              else mret task);
      let changes :=
        update_changes title description assignee_id due_date status
          priority images task in
      (if nonempty changes then
         add_history
           {| TaskHistory.task_id := task_id;
              TaskHistory.user_id := User.user_id current_user;
              TaskHistory.event := "TASK_UPDATED";
              TaskHistory.comment := None;
              TaskHistory.changes := Some changes |}
       else mret ());;
      commit;;
      query (λ d, default task (tasks d !! task_id))
  end.

(** The ownership check of [delete_task], [reassign_task], [restore_task]
    and [get_task_history]: true when the request is refused. *)
Definition lacks_rights (current_user : User.t) (task : Task.t) : bool :=
  negb (User.role_id current_user =? ADMIN_ROLE_ID)
  && negb (Task.author_id task =? User.user_id current_user).

Definition title_description (task : Task.t) : dict :=
  [("title"%string, JStr (Task.title task));
   ("description"%string, json_of_option_str (Task.description task))].

Definition delete_task (env : Env) (task_id : Z) (current_user : User.t)
  : Session string :=
  try_except
    (task ← query (λ d,
       match tasks d !! task_id with
       | Some t => if Task.is_deleted t then None else Some t
       | None => None
       end);
     match task with
     | None => raise {| status_code := 404; detail := "Задача не найдена" |}
     | Some task =>
         if lacks_rights current_user task
         then raise {| status_code := 403; detail := "Недостаточно прав" |}
         else
           task ← setattr task_id (Task.set_is_deleted true) task;
           task ← setattr task_id (Task.set_deleted_at (Some (utcnow env))) task;
           add_history
             {| TaskHistory.task_id := task_id;
                TaskHistory.user_id := User.user_id current_user;
                TaskHistory.event := "TASK_DELETED";
                TaskHistory.comment := None;
                TaskHistory.changes := Some (title_description task) |};;
           commit;;
           mret "Задача успешно удалена"%string
     end)
    (λ e,
       rollback;;
       raise {| status_code := 500;
                detail := "Ошибка при удалении задачи: " +:+ str_exc e |}).

Record ReassignTaskRequest := {
  new_assignee_id : Z;
  comment : option string
}.

Definition reassign_task (request : ReassignTaskRequest) (task_id : Z)
    (current_user : User.t) : Session Task.t :=
  task ← query (λ d,
    match tasks d !! task_id with
    | Some t => if Task.is_deleted t then None else Some t
    | None => None
    end);
  match task with
  | None => raise {| status_code := 404; detail := "Задача не найдена" |}
  | Some task =>
      if lacks_rights current_user task
      then raise {| status_code := 403; detail := "Недостаточно прав" |}
      else
        verify_assignee (new_assignee_id request);;
        let changes : dict :=
          [("assignee_id"%string,
            JDict [("old"%string, JInt (Task.assignee_id task));
                   ("new"%string, JInt (new_assignee_id request))])] in
        task ← setattr task_id
                 (Task.set_assignee_id (new_assignee_id request)) task;
        add_history
          {| TaskHistory.task_id := task_id;
             TaskHistory.user_id := User.user_id current_user;
             TaskHistory.event := "TASK_REASSIGNED";
             TaskHistory.comment := comment request;
             TaskHistory.changes := Some changes |};;
        commit;;
        mret task
  end.

Definition restore_task (env : Env) (task_id : Z) (current_user : User.t)
  : Session Task.t :=
  try_except
    (task ← query (λ d,
       match tasks d !! task_id with
       | Some t =>
           if restorable (utcnow env) (Task.is_deleted t) (Task.deleted_at t)
           then Some t else None
       | None => None
       end);
     match task with
     | None =>
         raise {| status_code := 404;
                  detail := "Задача не найдена или срок восстановления истек" |}
     | Some task =>
         if lacks_rights current_user task
         then raise {| status_code := 403; detail := "Недостаточно прав" |}
         else
           task ← setattr task_id (Task.set_is_deleted false) task;
           task ← setattr task_id (Task.set_deleted_at None) task;
           add_history
             {| TaskHistory.task_id := task_id;
                TaskHistory.user_id := User.user_id current_user;
                TaskHistory.event := "TASK_RESTORED";
                TaskHistory.comment := None;
                TaskHistory.changes := Some (title_description task) |};;
           commit;;
           mret task
     end)
    (λ e,
       rollback;;
       raise {| status_code := 500;
                detail := "Ошибка при восстановлении задачи: " +:+ str_exc e |}).

End TaskRoutes.

(** ** [src/article/routes.py] *)

Module ArticleRoutes.

Definition setattr (article_id : Z) (f : Article.t → Article.t)
    (article : Article.t) : Session Article.t :=
  modify (with_articles <[article_id := f article]>);; mret (f article).

(** [db.add(ArticleHistory(...))] and [db.add(ArticleImage(...))] *)
Definition add_history (h : ArticleHistory.t) : Session unit :=
  modify (with_article_history (λ l, l ++ [h])).
Definition add_image (i : ArticleImage.t) : Session unit :=
  modify (with_article_images (λ l, l ++ [i])).

(** [db.add(article); await db.flush()] *)
Definition add_article (article : Article.t) : Session Z :=
  article_id ← query (λ d, next_id (articles d));
  modify (with_articles <[article_id := article]>);;
  mret article_id.

Definition allowed_extensions : list string :=
  [".png"; ".jpg"; ".jpeg"; ".gif"; ".webp"]%string.

Definition save_uploaded_file (lower : string → string) (hex : string)
    (file : UploadFile) : Session string :=
  let file_ext := lower (splitext_ext (filename file)) in
  if bool_decide (file_ext ∈ allowed_extensions)
  then mret ("article_" +:+ hex +:+ file_ext)
  else raise {| status_code := 400; detail := "Unsupported file format" |}.

(** The loop [for image in images:] of [create_article] and
    [update_article]. *)
Fixpoint add_images (env : Env) (article_id : Z) (i : nat)
    (images : list UploadFile) : Session unit :=
  match images with
  | [] => mret ()
  | image :: rest =>
      filename ← save_uploaded_file (str_lower env) (rand_hex env i) image;
      add_image {| ArticleImage.article_id := article_id;
                   ArticleImage.image_path := filename |};;
      add_images env article_id (S i) rest
  end.

Definition create_article (env : Env) (title content : string)
    (images : list UploadFile) (current_user : User.t)
  : Session (Z * Article.t) :=
  try_except
    (let article :=
       {| Article.title := title; Article.content := content;
          Article.author_id := User.user_id current_user;
          Article.is_deleted := false; Article.deleted_at := None |} in
     article_id ← add_article article;
     (if nonempty images then add_images env article_id 0 images
      else mret ());;
     add_history
       {| ArticleHistory.article_id := article_id;
          ArticleHistory.user_id := User.user_id current_user;
          ArticleHistory.event := "CREATE";
          ArticleHistory.old_title := None;
          ArticleHistory.new_title := Some title;
          ArticleHistory.old_content := None;
          ArticleHistory.new_content := Some content |};;
     commit;;
     mret (article_id, article))
    (λ e,
       rollback;;
       raise {| status_code := 500;
                detail := "Ошибка при создании статьи: " +:+ str_exc e |}).

(** The ownership check of the article routes: true when the request is
    refused. *)
Definition lacks_rights (current_user : User.t) (article : Article.t) : bool :=
  negb (Article.author_id article =? User.user_id current_user)
  && negb (User.role_id current_user =? 2).

(** [title is not None and title != old] *)
Definition differs (new : option string) (old : string) : bool :=
  match new with
  | Some v => negb (String.eqb v old)
  | None => false
  end.

(** The [try] block of [update_article]. *)
Definition update_article_try (env : Env) (article_id : Z)
    (title content : option string) (images : list UploadFile)
    (current_user : User.t) : Session Article.t :=
  article ← query (λ d,
    match articles d !! article_id with
    | Some a => if Article.is_deleted a then None else Some a
    | None => None
    end);
  match article with
  | None => raise {| status_code := 404; detail := "Статья не найдена" |}
  | Some article =>
      if lacks_rights current_user article
      then raise {| status_code := 403; detail := "Доступ запрещен" |}
      else
        let changes_made := false in
        let old_title := Article.title article in
        let old_content := Article.content article in
        '(article, changes_made) ←
          match title with
          | Some v =>
              if negb (String.eqb v (Article.title article)) then
                article ← setattr article_id (Article.set_title v) article;
                mret (article, true)
              else mret (article, changes_made)
          | None => mret (article, changes_made)
          end;
        '(article, changes_made) ←
          match content with
          | Some v =>
              if negb (String.eqb v (Article.content article)) then
                article ← setattr article_id (Article.set_content v) article;
                mret (article, true)
              else mret (article, changes_made)
          | None => mret (article, changes_made)
          end;
        changes_made ←
          (if nonempty images then
             add_images env article_id 0 images;; mret true
           else mret changes_made);
        (if changes_made : bool then
           add_history
             {| ArticleHistory.article_id := article_id;
                ArticleHistory.user_id := User.user_id current_user;
                ArticleHistory.event := "UPDATE";
                ArticleHistory.old_title :=
                  if differs title old_title then Some old_title else None;
                ArticleHistory.new_title :=
                  if differs title old_title then title else None;
                ArticleHistory.old_content :=
                  if differs content old_content then Some old_content
                  else None;
                ArticleHistory.new_content :=
                  if differs content old_content then content else None |}
         else mret ());;
        commit;;
        mret article
  end.

Definition update_article (env : Env) (article_id : Z)
    (title content : option string) (images : list UploadFile)
    (current_user : User.t) : Session Article.t :=
  try_except
    (update_article_try env article_id title content images current_user)
    (λ e,
       rollback;;
       raise {| status_code := 500;
                detail := "Ошибка при обновлении статьи: " +:+ str_exc e |}).

Definition delete_article (env : Env) (article_id : Z)
    (current_user : User.t) : Session string :=
  try_except
    (article ← query (λ d,
       match articles d !! article_id with
       | Some a => if Article.is_deleted a then None else Some a
       | None => None
       end);
     match article with
     | None => raise {| status_code := 404; detail := "Статья не найдена" |}
     | Some article =>
         if lacks_rights current_user article
         then raise {| status_code := 403; detail := "Доступ запрещен" |}
         else
           article ← setattr article_id (Article.set_is_deleted true) article;
           article ← setattr article_id
                       (Article.set_deleted_at (Some (utcnow env))) article;
           add_history
             {| ArticleHistory.article_id := article_id;
                ArticleHistory.user_id := User.user_id current_user;
                ArticleHistory.event := "DELETE";
                ArticleHistory.old_title := Some (Article.title article);
                ArticleHistory.new_title := None;
                ArticleHistory.old_content := Some (Article.content article);
                ArticleHistory.new_content := None |};;
           commit;;
           mret "Статья успешно удалена"%string
     end)
    (λ e,
       rollback;;
       raise {| status_code := 500;
                detail := "Ошибка при удалении статьи: " +:+ str_exc e |}).

Definition restore_article (env : Env) (article_id : Z)
    (current_user : User.t) : Session Article.t :=
  try_except
    (article ← query (λ d,
       match articles d !! article_id with
       | Some a =>
           if restorable (utcnow env) (Article.is_deleted a)
                (Article.deleted_at a)
           then Some a else None
       | None => None
       end);
     match article with
     | None =>
         raise {| status_code := 404;
                  detail := "Статья не найдена или срок восстановления истек" |}
     | Some article =>
         if lacks_rights current_user article
         then raise {| status_code := 403; detail := "Доступ запрещен" |}
         else
           article ← setattr article_id (Article.set_is_deleted false) article;
           article ← setattr article_id (Article.set_deleted_at None) article;
           add_history
             {| ArticleHistory.article_id := article_id;
                ArticleHistory.user_id := User.user_id current_user;
                ArticleHistory.event := "RESTORE";
                ArticleHistory.old_title := None;
                ArticleHistory.new_title := Some (Article.title article);
                ArticleHistory.old_content := None;
                ArticleHistory.new_content := Some (Article.content article) |};;
           commit;;
           mret article
     end)
    (λ e,
       rollback;;
       raise {| status_code := 500;
                detail := "Ошибка при восстановлении статьи: " +:+ str_exc e |}).

End ArticleRoutes.

(** ** Requests *)

(** The lifecycle operations as one request type; [handle] gives what the
    caller sees (the exception, if any) and the store after the request. *)
Inductive Request :=
| CreateTask (title : string) (description : option string) (assignee_id : Z)
    (due_date : option datetime) (status : TaskStatus)
    (priority : TaskPriority) (images : list UploadFile)
| UpdateTask (task_id : Z) (title description : option string)
    (assignee_id : option Z) (due_date : option datetime)
    (status : option TaskStatus) (priority : option TaskPriority)
    (images : list UploadFile)
| DeleteTask (task_id : Z)
| ReassignTask (request : TaskRoutes.ReassignTaskRequest) (task_id : Z)
| RestoreTask (task_id : Z)
| CreateArticle (title content : string) (images : list UploadFile)
| UpdateArticle (article_id : Z) (title content : option string)
    (images : list UploadFile)
| DeleteArticle (article_id : Z)
| RestoreArticle (article_id : Z).

Definition response {A} (r : outcome A * DB) : option HTTPException * DB :=
  (raised r.1, r.2).

Definition handle (env : Env) (current_user : User.t) (r : Request) (db : DB)
  : option HTTPException * DB :=
  match r with
  | CreateTask title description assignee_id due_date status priority images =>
      response (run (TaskRoutes.create_task env title description assignee_id
                       due_date status priority images current_user) db)
  | UpdateTask task_id title description assignee_id due_date status priority
      images =>
      response (run (TaskRoutes.update_task env task_id title description
                       assignee_id due_date status priority images
                       current_user) db)
  | DeleteTask task_id =>
      response (run (TaskRoutes.delete_task env task_id current_user) db)
  | ReassignTask request task_id =>
      response (run (TaskRoutes.reassign_task request task_id current_user) db)
  | RestoreTask task_id =>
      response (run (TaskRoutes.restore_task env task_id current_user) db)
  | CreateArticle title content images =>
      response (run (ArticleRoutes.create_article env title content images
                       current_user) db)
  | UpdateArticle article_id title content images =>
      response (run (ArticleRoutes.update_article env article_id title content
                       images current_user) db)
  | DeleteArticle article_id =>
      response (run (ArticleRoutes.delete_article env article_id current_user) db)
  | RestoreArticle article_id =>
      response (run (ArticleRoutes.restore_article env article_id current_user)
                  db)
  end.

(** ** Vocabulary of the properties *)

(** The invariant of the data model: the flag is set exactly when the
    timestamp is. *)
Definition soft_delete_consistent (is_deleted : bool) (deleted_at : option Z)
  : Prop :=
  is_deleted = true ↔ deleted_at ≠ None.

Definition db_consistent (db : DB) : Prop :=
  map_Forall (λ _ t,
    soft_delete_consistent (Task.is_deleted t) (Task.deleted_at t)) (tasks db)
  ∧ map_Forall (λ _ a,
    soft_delete_consistent (Article.is_deleted a) (Article.deleted_at a))
    (articles db).

Definition empty_db : DB :=
  {| users := ∅; tasks := ∅; task_history := []; articles := ∅;
     article_images := []; article_history := [] |}.


(** The assignee named by an update exists and is not deleted. *)
Definition assignee_active (db : DB) (assignee_id : Z) : bool :=
  match users db !! assignee_id with
  | Some u => negb (User.is_deleted u)
  | None => false
  end.

(** The names under which the images of a task request are saved, the first
    of them with the [i]-th token. *)
Fixpoint task_file_names (env : Env) (task_id : Z) (i : nat)
    (images : list UploadFile) : list string :=
  match images with
  | [] => []
  | image :: rest =>
      TaskRoutes.save_uploaded_file (str_lower env) (rand_hex env i) image
        task_id
      :: task_file_names env task_id (S i) rest
  end.

Definition image_added (task_id user_id : Z) (file_name : string)
  : TaskHistory.t :=
  {| TaskHistory.task_id := task_id;
     TaskHistory.user_id := user_id;
     TaskHistory.event := "IMAGE_ADDED";
     TaskHistory.comment := None;
     TaskHistory.changes := Some [("image_path"%string, JStr file_name)] |}.

(** The image list a task has when no file is attached yet, as the loop of
    [update_task] reads it. *)
Definition current_paths (task : Task.t) : list string :=
  default [] (Task.image_paths task).

Definition apply_opt {A T} (f : A → T → T) (o : option A) (x : T) : T :=
  match o with Some v => f v x | None => x end.

(** The row of the task as [update_task] leaves it.  The names of the files
    are stored when the image list of the row was null or empty, and not
    when it held a name (see [TaskRoutes.update_task]). *)
Definition task_after (env : Env) (task_id : Z)
    (title description : option string) (assignee_id : option Z)
    (due_date : option datetime) (status : option TaskStatus)
    (priority : option TaskPriority) (images : list UploadFile)
    (task : Task.t) : Task.t :=
  let task := apply_opt Task.set_title title task in
  let task := apply_opt (λ v, Task.set_description (Some v)) description task in
  let task := apply_opt Task.set_assignee_id assignee_id task in
  let task :=
    apply_opt
      (λ v, Task.set_due_date
              (Some (astimezone_utc_naive (local_utcoffset env) v)))
      due_date task in
  let task := apply_opt Task.set_status status task in
  let task := apply_opt Task.set_priority priority task in
  if nonempty images
  then match Task.image_paths task with
       | Some (_ :: _) => task
       | _ => Task.set_image_paths
                (Some (task_file_names env task_id 0 images)) task
       end
  else task.

(** The new value of every field that the request supplies, in the order of
    the handler. *)
Definition supplied_fields (title description : option string)
    (assignee_id : option Z) (due_date : option datetime)
    (status : option TaskStatus) (priority : option TaskPriority) : dict :=
  option_list (pair "title"%string ∘ JStr <$> title)
  ++ option_list (pair "description"%string ∘ JStr <$> description)
  ++ option_list (pair "assignee_id"%string ∘ JInt <$> assignee_id)
  ++ option_list (pair "due_date"%string ∘ JIsoformat <$> due_date)
  ++ option_list (pair "status"%string ∘ JStr ∘ status_value <$> status)
  ++ option_list (pair "priority"%string ∘ JStr ∘ priority_value <$> priority).

Definition task_updated (task_id user_id : Z) (changes : dict)
  : TaskHistory.t :=
  {| TaskHistory.task_id := task_id;
     TaskHistory.user_id := user_id;
     TaskHistory.event := "TASK_UPDATED";
     TaskHistory.comment := None;
     TaskHistory.changes := Some changes |}.

(** What [update_task] appends to the history of the task. *)
Definition update_task_records (env : Env) (task_id user_id : Z)
    (title description : option string) (assignee_id : option Z)
    (due_date : option datetime) (status : option TaskStatus)
    (priority : option TaskPriority) (images : list UploadFile)
    (task : Task.t) : list TaskHistory.t :=
  let fields :=
    supplied_fields title description assignee_id due_date status priority in
  let names := task_file_names env task_id 0 images in
  (image_added task_id user_id <$> names)
  ++ (if nonempty images
      then [task_updated task_id user_id
              (fields ++ [("image_paths"%string,
                           JList (current_paths task ++ names))])]
      else if nonempty fields then [task_updated task_id user_id fields]
      else []).

(** The response of a handler whose [except Exception] clause caught [e]. *)
Definition internal_error (prefix : string) (e : HTTPException)
  : HTTPException :=
  {| status_code := 500; detail := prefix +:+ str_exc e |}.

Definition task_not_found : HTTPException :=
  {| status_code := 404; detail := "Задача не найдена" |}.
Definition task_not_restorable : HTTPException :=
  {| status_code := 404;
     detail := "Задача не найдена или срок восстановления истек" |}.
Definition task_forbidden : HTTPException :=
  {| status_code := 403; detail := "Недостаточно прав" |}.
Definition assignee_not_found : HTTPException :=
  {| status_code := 404; detail := "Исполнитель не найден" |}.
Definition article_not_found : HTTPException :=
  {| status_code := 404; detail := "Статья не найдена" |}.
Definition article_not_restorable : HTTPException :=
  {| status_code := 404;
     detail := "Статья не найдена или срок восстановления истек" |}.
Definition article_forbidden : HTTPException :=
  {| status_code := 403; detail := "Доступ запрещен" |}.
Definition unsupported_format : HTTPException :=
  {| status_code := 400; detail := "Unsupported file format" |}.

(** The history records of the task handlers. *)
Definition task_event (event : string) (task_id user_id : Z)
    (comment : option string) (changes : dict) : TaskHistory.t :=
  {| TaskHistory.task_id := task_id;
     TaskHistory.user_id := user_id;
     TaskHistory.event := event;
     TaskHistory.comment := comment;
     TaskHistory.changes := Some changes |}.

(** The task that [create_task] stores and the snapshot in its record. *)
Definition created_task (env : Env) (task_id : Z) (title : string)
    (description : option string) (assignee_id : Z)
    (due_date : option datetime) (status : TaskStatus)
    (priority : TaskPriority) (images : list UploadFile)
    (current_user : User.t) : Task.t :=
  {| Task.title := title; Task.description := description;
     Task.status := status; Task.priority := priority;
     Task.due_date := astimezone_utc_naive (local_utcoffset env) <$> due_date;
     Task.author_id := User.user_id current_user;
     Task.assignee_id := assignee_id;
     Task.image_paths := Some (task_file_names env task_id 0 images);
     Task.is_deleted := false; Task.deleted_at := None |}.

Definition created_snapshot (env : Env) (title : string)
    (description : option string) (assignee_id : Z)
    (due_date : option datetime) (status : TaskStatus)
    (priority : TaskPriority) (current_user : User.t) : dict :=
  [("title"%string, JStr title);
   ("description"%string, json_of_option_str description);
   ("assignee_id"%string, JInt assignee_id);
   ("due_date"%string,
    match due_date with
    | Some d => JIsoformat (astimezone_utc_naive (local_utcoffset env) d)
    | None => JNull
    end);
   ("author_id"%string, JInt (User.user_id current_user));
   ("status"%string, JStr (status_value status));
   ("priority"%string, JStr (priority_value priority));
   ("image_paths"%string, JList [])].

Definition deleted_task (env : Env) (task : Task.t) : Task.t :=
  Task.set_deleted_at (Some (utcnow env)) (Task.set_is_deleted true task).
Definition restored_task (task : Task.t) : Task.t :=
  Task.set_deleted_at None (Task.set_is_deleted false task).

(** The article side. *)
Definition allowed (env : Env) (file : UploadFile) : bool :=
  bool_decide (str_lower env (splitext_ext (filename file))
               ∈ ArticleRoutes.allowed_extensions).

Fixpoint image_rows (env : Env) (article_id : Z) (i : nat)
    (images : list UploadFile) : list ArticleImage.t :=
  match images with
  | [] => []
  | image :: rest =>
      {| ArticleImage.article_id := article_id;
         ArticleImage.image_path :=
           "article_" +:+ rand_hex env i
           +:+ str_lower env (splitext_ext (filename image)) |}
      :: image_rows env article_id (S i) rest
  end.

Definition article_event (event : string) (article_id user_id : Z)
    (old_title new_title old_content new_content : option string)
  : ArticleHistory.t :=
  {| ArticleHistory.article_id := article_id;
     ArticleHistory.user_id := user_id;
     ArticleHistory.event := event;
     ArticleHistory.old_title := old_title;
     ArticleHistory.new_title := new_title;
     ArticleHistory.old_content := old_content;
     ArticleHistory.new_content := new_content |}.

Definition created_article (title content : string) (current_user : User.t)
  : Article.t :=
  {| Article.title := title; Article.content := content;
     Article.author_id := User.user_id current_user;
     Article.is_deleted := false; Article.deleted_at := None |}.

(** The article as [update_article] leaves it: a field changes when the
    request supplies a value that differs from the current one. *)
Definition article_after (title content : option string) (a : Article.t)
  : Article.t :=
  let a :=
    if ArticleRoutes.differs title (Article.title a)
    then apply_opt Article.set_title title a else a in
  if ArticleRoutes.differs content (Article.content a)
  then apply_opt Article.set_content content a else a.

Definition article_updated (article_id user_id : Z)
    (title content : option string) (a : Article.t) : ArticleHistory.t :=
  let dt := ArticleRoutes.differs title (Article.title a) in
  let dc := ArticleRoutes.differs content (Article.content a) in
  article_event "UPDATE" article_id user_id
    (if dt then Some (Article.title a) else None)
    (if dt then title else None)
    (if dc then Some (Article.content a) else None)
    (if dc then content else None).

Definition update_article_records (article_id user_id : Z)
    (title content : option string) (images : list UploadFile)
    (a : Article.t) : list ArticleHistory.t :=
  if ArticleRoutes.differs title (Article.title a)
     || ArticleRoutes.differs content (Article.content a)
     || nonempty images
  then [article_updated article_id user_id title content a]
  else [].

Definition deleted_article (env : Env) (a : Article.t) : Article.t :=
  Article.set_deleted_at (Some (utcnow env)) (Article.set_is_deleted true a).
Definition restored_article (a : Article.t) : Article.t :=
  Article.set_deleted_at None (Article.set_is_deleted false a).

(** The number of records of a history that carry a given event tag. *)
Definition count_task_events (event : string) (l : list TaskHistory.t) : nat :=
  length (filter (λ h, TaskHistory.event h = event) l).
Definition count_article_events (event : string) (l : list ArticleHistory.t)
  : nat :=
  length (filter (λ h, ArticleHistory.event h = event) l).

(** ** A small store for the concrete cases

    Three users (an author, another standard user, an administrator), one
    task and one article of the author, each with its creation record. *)
Definition author : User.t :=
  {| User.user_id := 10; User.role_id := 1; User.is_deleted := false |}.
Definition stranger : User.t :=
  {| User.user_id := 20; User.role_id := 1; User.is_deleted := false |}.
Definition admin : User.t :=
  {| User.user_id := 30; User.role_id := 2; User.is_deleted := false |}.

Definition day : Z := timedelta 1.

Definition env0 : Env :=
  {| utcnow := 100 * day; local_utcoffset := 0;
     rand_hex := λ i, "c0ffee" +:+ pretty i;
     str_lower := ascii_lower |}.

Definition pump : Task.t :=
  {| Task.title := "Fix pump"; Task.description := Some "Hall 2";
     Task.status := {| status_value := "active" |};
     Task.priority := {| priority_value := "medium" |};
     Task.due_date := None; Task.author_id := 10; Task.assignee_id := 20;
     Task.image_paths := Some []; Task.is_deleted := false;
     Task.deleted_at := None |}.

Definition note : Article.t :=
  {| Article.title := "Pump manual"; Article.content := "Open the valve.";
     Article.author_id := 10; Article.is_deleted := false;
     Article.deleted_at := None |}.

Definition db0 : DB :=
  {| users := {[ 10 := author; 20 := stranger; 30 := admin ]};
     tasks := {[ 1 := pump ]};
     task_history :=
       [task_event "TASK_CREATED" 1 10 None
          (created_snapshot env0 "Fix pump" (Some "Hall 2"%string) 20 None
             {| status_value := "active" |}
             {| priority_value := "medium" |} author)];
     articles := {[ 1 := note ]};
     article_images := [];
     article_history :=
       [article_event "CREATE" 1 10 None (Some "Pump manual"%string) None
          (Some "Open the valve."%string)] |}.

(** The same store with the task and the article deleted at [deleted_at]. *)
Definition db_deleted (deleted_at : Z) : DB :=
  with_articles
    <[1 := Article.set_deleted_at (Some deleted_at)
             (Article.set_is_deleted true note)]>
    (with_tasks
       <[1 := Task.set_deleted_at (Some deleted_at)
                (Task.set_is_deleted true pump)]> db0).

(** A store in which task 1 has an image. *)
Definition db_with_image : DB :=
  with_tasks <[1 := Task.set_image_paths (Some ["task_1_old.png"%string]) pump]>
    db0.



(** The session of a task request in flight: nothing committed yet, the row
    of the task and the history of the tasks as the open transaction has
    them. *)
Definition task_txn (db : DB) (id : Z) (task : Task.t)
    (hist : list TaskHistory.t) : Sess :=
  {| committed := db;
     pending := with_task_history (λ _, hist) (with_tasks <[id := task]> db) |}.

(** ** Vocabulary of the further properties *)

(** The row a request works on: the key it names, or for a creation the key
    the store is about to give. *)
Definition touched_task (db : DB) (r : Request) : option Z :=
  match r with
  | CreateTask _ _ _ _ _ _ _ => Some (next_id (tasks db))
  | UpdateTask task_id _ _ _ _ _ _ _ => Some task_id
  | DeleteTask task_id => Some task_id
  | ReassignTask _ task_id => Some task_id
  | RestoreTask task_id => Some task_id
  | _ => None
  end.

Definition touched_article (db : DB) (r : Request) : option Z :=
  match r with
  | CreateArticle _ _ _ => Some (next_id (articles db))
  | UpdateArticle article_id _ _ _ => Some article_id
  | DeleteArticle article_id => Some article_id
  | RestoreArticle article_id => Some article_id
  | _ => None
  end.

(** [d.get(k)] *)
Fixpoint dict_get (k : string) (d : dict) : option json :=
  match d with
  | [] => None
  | (k', v) :: r => if String.eqb k k' then Some v else dict_get k r
  end.

(** ** The read routes of [src/task/routes.py] and [src/article/routes.py]

    The rows of a [select] come in an order that the store decides: the one
    of [order_by] where there is one, with ties and null values placed as the
    database places them, and any order where there is none.  A read route
    takes that ordering as its first argument, a function that permutes the
    rows it is given.  The class of [TaskStatus] and [TaskPriority] decides
    the truth value of a member in [if status_filter:] (always true for a
    plain [Enum], that of the value for one mixed with [str]); the class is
    not among the sources, so the routes take that truth value, a function
    of the value of the member, as an argument.  [offset] and [limit] are natural numbers: the task
    routes have them validated ([ge=0], [ge=1]), and what the database does
    with a negative value in the article routes is not modelled. *)

(** [.offset(offset).limit(limit)] *)
Definition page {A} (offset limit : nat) (rows : list A) : list A :=
  take limit (drop offset rows).

(** The truth value of a string: true when not empty. *)
Definition truthy (s : string) : bool := negb (String.eqb s "").

Definition get_task_history
    (order_by_changed_at_desc : list TaskHistory.t → list TaskHistory.t)
    (task_id : Z) (offset limit : nat) (current_user : User.t)
  : Session (list TaskHistory.t) :=
  try_except
    (task ← query (λ d, tasks d !! task_id);
     match task with
     | None => raise {| status_code := 404; detail := "Задача не найдена" |}
     | Some task =>
         if TaskRoutes.lacks_rights current_user task
         then raise {| status_code := 403; detail := "Недостаточно прав" |}
         else
           query (λ d,
             page offset limit
               (order_by_changed_at_desc
                  (filter (λ h, TaskHistory.task_id h = task_id)
                     (task_history d))))
     end)
    (λ e,
       raise {| status_code := 500;
                detail := "Ошибка при получении истории задачи: "
                          +:+ str_exc e |}).

Definition get_my_tasks (member_truth : string → bool)
    (order_by_due_date : list (Z * Task.t) → list (Z * Task.t))
    (status_filter : option TaskStatus) (priority : option TaskPriority)
    (current_user : User.t) : Session (list (Z * Task.t)) :=
  let me := User.user_id current_user in
  let where_ : Z * Task.t → bool := λ row,
    negb (Task.is_deleted row.2)
    && ((Task.author_id row.2 =? me) || (Task.assignee_id row.2 =? me)) in
  let where_ : Z * Task.t → bool :=
    match status_filter with
    | Some s =>
        if member_truth (status_value s)
        then λ row, where_ row
                    && String.eqb (status_value (Task.status row.2))
                         (status_value s)
        else where_
    | None => where_
    end in
  let where_ : Z * Task.t → bool :=
    match priority with
    | Some p =>
        if member_truth (priority_value p)
        then λ row, where_ row
                    && String.eqb (priority_value (Task.priority row.2))
                         (priority_value p)
        else where_
    | None => where_
    end in
  query (λ d,
    order_by_due_date (filter (λ row, where_ row = true)
                         (map_to_list (tasks d)))).

Definition get_articles (ilike : string → string → bool)
    (any_order : list (Z * Article.t) → list (Z * Article.t))
    (title : option string) (author_id : option Z) (offset limit : nat)
    (current_user : User.t) : Session (list (Z * Article.t)) :=
  let where_ : Z * Article.t → bool := λ row,
    negb (Article.is_deleted row.2) in
  let where_ : Z * Article.t → bool :=
    match title with
    | Some t =>
        if truthy t
        then λ row, where_ row
                    && ilike (Article.title row.2) ("%" +:+ t +:+ "%")
        else where_
    | None => where_
    end in
  let where_ : Z * Article.t → bool :=
    match author_id with
    | Some a =>
        if negb (a =? 0)
        then λ row, where_ row && (Article.author_id row.2 =? a)
        else where_
    | None => where_
    end in
  query (λ d,
    page offset limit
      (any_order (filter (λ row, where_ row = true)
                    (map_to_list (articles d))))).

Definition get_article_history
    (order_by_changed_at_desc : list ArticleHistory.t → list ArticleHistory.t)
    (article_id : Z) (offset limit : nat) (current_user : User.t)
  : Session (list ArticleHistory.t) :=
  try_except
    (article ← query (λ d, articles d !! article_id);
     match article with
     | None => raise {| status_code := 404; detail := "Статья не найдена" |}
     | Some article =>
         if ArticleRoutes.lacks_rights current_user article
         then raise {| status_code := 403; detail := "Доступ запрещен" |}
         else
           query (λ d,
             page offset limit
               (order_by_changed_at_desc
                  (filter (λ h, ArticleHistory.article_id h = article_id)
                     (article_history d))))
     end)
    (λ e,
       raise {| status_code := 500;
                detail := "Ошибка при получении истории статьи: "
                          +:+ str_exc e |}).

(** The condition of the query of [get_my_tasks], spelled out. *)
Definition status_matches (member_truth : string → bool)
    (status_filter : option TaskStatus) (t : Task.t) : Prop :=
  ∀ s, status_filter = Some s → member_truth (status_value s) = true →
       status_value (Task.status t) = status_value s.
Definition priority_matches (member_truth : string → bool)
    (priority : option TaskPriority) (t : Task.t) : Prop :=
  ∀ p, priority = Some p → member_truth (priority_value p) = true →
       priority_value (Task.priority t) = priority_value p.

(** A row is on the list that [get_my_tasks] gives to [who]. *)
Definition listed_in_my_tasks (member_truth : string → bool)
    (order : list (Z * Task.t) → list (Z * Task.t)) (who : User.t)
    (status_filter : option TaskStatus) (priority : option TaskPriority)
    (db : DB) (row : Z * Task.t) : Prop :=
  ∃ rows,
    (run (get_my_tasks member_truth order status_filter priority who) db).1 = Return rows
    ∧ row ∈ rows.

(** A row is on a page that [get_articles] gives to [who]. *)
Definition listed_in_articles (ilike : string → string → bool)
    (order : list (Z * Article.t) → list (Z * Article.t)) (who : User.t)
    (title : option string) (author_id : option Z) (offset limit : nat)
    (db : DB) (row : Z * Article.t) : Prop :=
  ∃ rows,
    (run (get_articles ilike order title author_id offset limit who) db).1
    = Return rows
    ∧ row ∈ rows.

(** ** The accounts: [src/auth], [src/user/routes.py], [src/admin/routes.py]

    These routes work on the table of users alone, and on more of its
    columns than the task and article routes read.  A row of the table is an
    [Account.t] under its [user_id]; [user_of] is what the task and article
    routes see of it.  The columns that no route writes ([registered_at] and
    the three counters) are left out. *)

Module Account.
Record t := {
  username : string;
  full_name : string;
  email : string;
  hashed_password : string;
  role_id : Z;
  avatar_url : option string;
  is_deleted : bool;
  deleted_at : option Z;
  shift : string
}.

Definition set_username (v : string) (a : t) : t :=
  {| username := v; full_name := full_name a; email := email a;
     hashed_password := hashed_password a; role_id := role_id a;
     avatar_url := avatar_url a; is_deleted := is_deleted a;
     deleted_at := deleted_at a; shift := shift a |}.
Definition set_full_name (v : string) (a : t) : t :=
  {| username := username a; full_name := v; email := email a;
     hashed_password := hashed_password a; role_id := role_id a;
     avatar_url := avatar_url a; is_deleted := is_deleted a;
     deleted_at := deleted_at a; shift := shift a |}.
Definition set_email (v : string) (a : t) : t :=
  {| username := username a; full_name := full_name a; email := v;
     hashed_password := hashed_password a; role_id := role_id a;
     avatar_url := avatar_url a; is_deleted := is_deleted a;
     deleted_at := deleted_at a; shift := shift a |}.
Definition set_hashed_password (v : string) (a : t) : t :=
  {| username := username a; full_name := full_name a; email := email a;
     hashed_password := v; role_id := role_id a;
     avatar_url := avatar_url a; is_deleted := is_deleted a;
     deleted_at := deleted_at a; shift := shift a |}.
Definition set_avatar_url (v : option string) (a : t) : t :=
  {| username := username a; full_name := full_name a; email := email a;
     hashed_password := hashed_password a; role_id := role_id a;
     avatar_url := v; is_deleted := is_deleted a;
     deleted_at := deleted_at a; shift := shift a |}.
Definition set_is_deleted (v : bool) (a : t) : t :=
  {| username := username a; full_name := full_name a; email := email a;
     hashed_password := hashed_password a; role_id := role_id a;
     avatar_url := avatar_url a; is_deleted := v;
     deleted_at := deleted_at a; shift := shift a |}.
Definition set_deleted_at (v : option Z) (a : t) : t :=
  {| username := username a; full_name := full_name a; email := email a;
     hashed_password := hashed_password a; role_id := role_id a;
     avatar_url := avatar_url a; is_deleted := is_deleted a;
     deleted_at := v; shift := shift a |}.
Definition set_shift (v : string) (a : t) : t :=
  {| username := username a; full_name := full_name a; email := email a;
     hashed_password := hashed_password a; role_id := role_id a;
     avatar_url := avatar_url a; is_deleted := is_deleted a;
     deleted_at := deleted_at a; shift := v |}.
End Account.

Abbreviation Accounts := (gmap Z Account.t).

(** An object of class [User] as a route holds it: the key and the row. *)
Abbreviation UserObject := (Z * Account.t)%type.

Definition user_of (u : UserObject) : User.t :=
  {| User.user_id := u.1; User.role_id := Account.role_id u.2;
     User.is_deleted := Account.is_deleted u.2 |}.

(** What a route of this part can raise: an [HTTPException], or the
    [MultipleResultsFound] of [scalar_one_or_none], which no route catches
    by name. *)
Inductive Exception :=
| HTTP (e : HTTPException)
| MultipleResultsFound.

Inductive result (A : Type) :=
| Ok (a : A)
| Err (e : Exception).
Arguments Ok {A} a.
Arguments Err {A} e.

Definition is_ok {A} (r : result A) : bool :=
  match r with Ok _ => true | Err _ => false end.

(** The session of a request on the table of users, as [Sess] is for the
    other tables: the rows as committed, and as the open transaction has
    them. *)
Record AccountSess := {
  stored : Accounts;
  loaded : Accounts
}.

Definition Work (A : Type) : Type := AccountSess → result A * AccountSess.

#[global] Instance work_ret : MRet Work :=
  λ A a s, (Ok a, s).
#[global] Instance work_bind : MBind Work :=
  λ A B f m s,
    match m s with
    | (Ok a, s') => f a s'
    | (Err e, s') => (Err e, s')
    end.

Definition throw {A} (e : Exception) : Work A :=
  λ s, (Err e, s).
Definition http_error {A} (status : Z) (message : string) : Work A :=
  throw (HTTP {| status_code := status; detail := message |}).

(** [try: body / except Exception: handler] *)
Definition try_except_work {A} (body : Work A)
    (handler : Exception → Work A) : Work A :=
  λ s,
    match body s with
    | (Ok a, s') => (Ok a, s')
    | (Err e, s') => handler e s'
    end.

Definition select {A} (f : Accounts → A) : Work A :=
  λ s, (Ok (f (loaded s)), s).
Definition write (f : Accounts → Accounts) : Work unit :=
  λ s, (Ok (), {| stored := stored s; loaded := f (loaded s) |}).
Definition commit_work : Work unit :=
  λ s, (Ok (), {| stored := loaded s; loaded := loaded s |}).

(** A request is one unit of work, as in [run]. *)
Definition run_work {A} (h : Work A) (tbl : Accounts) : result A * Accounts :=
  let '(o, s) := h {| stored := tbl; loaded := tbl |} in (o, stored s).

(** [select(User).where(...)]: the rows that satisfy the condition. *)
Definition rows_where (cond : UserObject → bool) (tbl : Accounts)
  : list UserObject :=
  filter (λ row, cond row = true) (map_to_list tbl).

(** [result.scalar_one_or_none()] *)
Definition scalar_one_or_none {A} (rows : list A) : Work (option A) :=
  match rows with
  | [] => mret None
  | [row] => mret (Some row)
  | _ => throw MultipleResultsFound
  end.

(** [user.attr = v] on an object of the session. *)
Definition setattr_user (user : UserObject) (f : Account.t → Account.t)
  : Work UserObject :=
  write <[user.1 := f user.2]>;;
  mret (user.1, f user.2).

(** The libraries behind [src/auth/auth.py]: [bcrypt] ([hash_password]
    draws a salt, so it is the hashing of one request; a hash that [bcrypt]
    refuses to check counts as no match, which [login] answers alike) and
    [jose].  [jwt_sub token] is [jwt.decode(token, ...).get("sub")]: [None]
    when [decode] raises [JWTError], [Some None] when the payload has no
    subject. *)
Record AuthLib := {
  hash_password : string → string;
  verify_password : string → string → bool;
  create_access_token : string → string;
  jwt_sub : string → option (option string)
}.

(** Modelled from the spec: [src/auth/schemas.py] is not among the sources.
    [UserCreate] and [UserLogin] have the fields that [register] and
    [login] read. *)
Module UserCreate.
Record t := {
  username : string;
  full_name : string;
  email : string;
  password : string;
  shift : string
}.
End UserCreate.

Module UserLogin.
Record t := {
  username : string;
  password : string
}.
End UserLogin.

(** [UserUpdate] of [src/user/schemas.py] *)
Module UserUpdate.
Record t := {
  username : option string;
  full_name : option string;
  email : option string;
  shift : option string
}.
End UserUpdate.

Module AuthRoutes.

Definition credentials_exception : HTTPException :=
  {| status_code := 401; detail := "Could not validate credentials" |}.

(** [get_current_user]; [token] is the cookie [access_token]. *)
Definition get_current_user (lib : AuthLib) (token : option string)
  : Work UserObject :=
  match token with
  | None => throw (HTTP credentials_exception)
  | Some token =>
      if truthy token then
        match jwt_sub lib token with
        | Some (Some username) =>
            rows ← select (rows_where (λ row,
                     String.eqb (Account.username row.2) username));
            user ← scalar_one_or_none rows;
            match user with
            | None => throw (HTTP credentials_exception)
            | Some user => mret user
            end
        | Some None => throw (HTTP credentials_exception)
        | None => throw (HTTP credentials_exception)
        end
      else throw (HTTP credentials_exception)
  end.

Definition new_user (lib : AuthLib) (user : UserCreate.t) : Account.t :=
  {| Account.username := UserCreate.username user;
     Account.full_name := UserCreate.full_name user;
     Account.email := UserCreate.email user;
     Account.hashed_password := hash_password lib (UserCreate.password user);
     Account.role_id := 1;
     Account.avatar_url := None;
     Account.is_deleted := false;
     Account.deleted_at := None;
     Account.shift := UserCreate.shift user |}.

Definition register (lib : AuthLib) (user : UserCreate.t) : Work UserObject :=
  rows ← select (rows_where (λ row,
           String.eqb (Account.email row.2) (UserCreate.email user)
           || String.eqb (Account.username row.2) (UserCreate.username user)));
  existing ← scalar_one_or_none rows;
  match existing with
  | Some _ =>
      http_error 400
        "Электронная почта или имя пользователя уже зарегистрированы"
  | None =>
      user_id ← select next_id;
      write <[user_id := new_user lib user]>;;
      commit_work;;
      mret (user_id, new_user lib user)
  end.

(** [login]; the value returned is the cookie that the response sets. *)
Definition login (lib : AuthLib) (user : UserLogin.t) : Work string :=
  try_except_work
    (rows ← select (rows_where (λ row,
              String.eqb (Account.username row.2) (UserLogin.username user)));
     db_user ← scalar_one_or_none rows;
     match db_user with
     | Some db_user =>
         if verify_password lib (UserLogin.password user)
              (Account.hashed_password db_user.2)
         then mret (create_access_token lib (UserLogin.username user))
         else http_error 401 "Неверные учетные данные"
     | None => http_error 401 "Неверные учетные данные"
     end)
    (λ _, http_error 500 "Ошибка сервера при входе").

End AuthRoutes.

(** A route behind [Depends(get_current_user)]: the dependency and the
    route share the session of the request. *)
Definition authenticated {A} (lib : AuthLib) (token : option string)
    (route : UserObject → Work A) : Work A :=
  current_user ← AuthRoutes.get_current_user lib token;
  route current_user.

(** The photo of a profile form: the file, and the number of bytes that
    [photo.read()] gives.  The writing of the file is outside the store. *)
Abbreviation Photo := (UploadFile * Z)%type.

Definition avatar_extensions : list string :=
  [".jpg"; ".jpeg"; ".png"; ".gif"]%string.
Definition MAX_PHOTO_SIZE : Z := 5 * 1024 * 1024.

Module UserRoutes.

(** [get_profile] *)
Definition get_profile (current_user : UserObject) : Work UserObject :=
  mret current_user.

Definition update_profile (lower : string → string) (uuid4 : string)
    (user_update : UserUpdate.t)
    (photo : option Photo) (current_user : UserObject) : Work UserObject :=
  current_user ←
    match UserUpdate.username user_update with
    | Some username =>
        if truthy username
           && negb (String.eqb username (Account.username current_user.2))
        then
          rows ← select (rows_where (λ row,
                   String.eqb (Account.username row.2) username));
          existing_user ← scalar_one_or_none rows;
          match existing_user with
          | Some _ => http_error 400 "Логин уже занято"
          | None => setattr_user current_user (Account.set_username username)
          end
        else mret current_user
    | None => mret current_user
    end;
  current_user ←
    match UserUpdate.email user_update with
    | Some email =>
        if truthy email
           && negb (String.eqb email (Account.email current_user.2))
        then
          rows ← select (rows_where (λ row,
                   String.eqb (Account.email row.2) email));
          existing_user ← scalar_one_or_none rows;
          match existing_user with
          | Some _ => http_error 400 "Почта уже занято"
          | None => setattr_user current_user (Account.set_email email)
          end
        else mret current_user
    | None => mret current_user
    end;
  current_user ←
    match UserUpdate.full_name user_update with
    | Some full_name =>
        setattr_user current_user (Account.set_full_name full_name)
    | None => mret current_user
    end;
  current_user ←
    match UserUpdate.shift user_update with
    | Some shift => setattr_user current_user (Account.set_shift shift)
    | None => mret current_user
    end;
  current_user ←
    match photo with
    | Some (photo, size) =>
        let file_ext := lower (splitext_ext (filename photo)) in
        if bool_decide (file_ext ∈ avatar_extensions) then
          let filename :=
            "avatar_" +:+ pretty current_user.1 +:+ "_" +:+ uuid4
            +:+ file_ext in
          try_except_work
            (if MAX_PHOTO_SIZE <? size
             then http_error 400
                    "Файл слишком большой. Максимальный размер: 5 МБ"
             else mret ())
            (λ _, http_error 500 "Не удалось загрузить файл");;
          setattr_user current_user (Account.set_avatar_url (Some filename))
        else
          http_error 400
            "Неподдерживаемый формат файла. Разрешено: jpg, jpeg, png, gif"
    | None => mret current_user
    end;
  commit_work;;
  mret current_user.

(** [if x: query = query.where(column.ilike(f"%{x}%"))] *)
Definition and_ilike (ilike : string → string → bool)
    (column : Account.t → string) (x : option string)
    (where_ : UserObject → bool) : UserObject → bool :=
  match x with
  | Some x =>
      if truthy x
      then λ row, where_ row && ilike (column row.2) ("%" +:+ x +:+ "%")
      else where_
  | None => where_
  end.

(** [if role: query = query.where(User.role_id == role)] *)
Definition and_role (role : option Z) (where_ : UserObject → bool)
  : UserObject → bool :=
  match role with
  | Some role =>
      if negb (role =? 0)
      then λ row, where_ row && (Account.role_id row.2 =? role)
      else where_
  | None => where_
  end.

Definition search_users (ilike : string → string → bool)
    (order_by_username : list UserObject → list UserObject)
    (username full_name email : option string) (role_id : option Z)
    (limit : nat) (current_user : UserObject) : Work (list UserObject) :=
  let where_ : UserObject → bool := λ row, negb (Account.is_deleted row.2) in
  let where_ := and_ilike ilike Account.username username where_ in
  let where_ := and_ilike ilike Account.full_name full_name where_ in
  let where_ := and_ilike ilike Account.email email where_ in
  let where_ := and_role role_id where_ in
  select (λ tbl, take limit (order_by_username (rows_where where_ tbl))).

Definition get_user_profile (user_id : Z) (current_user : UserObject)
  : Work UserObject :=
  user ← select (λ tbl,
           match tbl !! user_id with
           | Some a =>
               if Account.is_deleted a then None else Some (user_id, a)
           | None => None
           end);
  match user with
  | None => http_error 404 "User not found"
  | Some user => mret user
  end.

End UserRoutes.

Module AdminRoutes.

(** [select(User).where(User.user_id == user_id, User.is_deleted == False)]
    and [scalar_one_or_none()], on the primary key. *)
Definition active_user (user_id : Z) : Work (option UserObject) :=
  rows ← select (rows_where (λ row,
           (row.1 =? user_id) && negb (Account.is_deleted row.2)));
  scalar_one_or_none rows.

Definition get_users (any_order : list UserObject → list UserObject)
    (role : option Z) (limit : nat) (current_user : UserObject)
  : Work (list UserObject) :=
  if negb (Account.role_id current_user.2 =? 2)
  then http_error 403 "Не авторизовано"
  else
    let where_ : UserObject → bool :=
      λ row, negb (Account.is_deleted row.2) in
    let where_ := UserRoutes.and_role role where_ in
    select (λ tbl, take limit (any_order (rows_where where_ tbl))).

Definition update_user_password (lib : AuthLib) (user_id : Z)
    (new_password : string) (current_user : UserObject) : Work string :=
  if negb (Account.role_id current_user.2 =? 2)
  then http_error 403 "Не авторизовано"
  else
    user ← active_user user_id;
    match user with
    | None => http_error 404 "Пользователь не найден"
    | Some user =>
        setattr_user user
          (Account.set_hashed_password (hash_password lib new_password));;
        commit_work;;
        mret "Пароль обновлен"%string
    end.

(** [delete_user]; [now] is the clock of the database ([func.now()]). *)
Definition delete_user (now : Z) (user_id : Z) (current_user : UserObject)
  : Work string :=
  if negb (Account.role_id current_user.2 =? 2)
  then http_error 403 "Не авторизовано"
  else
    user ← active_user user_id;
    match user with
    | None => http_error 404 "Пользователь не найден"
    | Some user =>
        user ← setattr_user user (Account.set_is_deleted true);
        setattr_user user (Account.set_deleted_at (Some now));;
        commit_work;;
        mret "Пользователь помечен как удаленный"%string
    end.

Definition admin_update_user (lower : string → string) (uuid4 : string)
    (user_id : Z)
    (username full_name email shift : option string) (photo : option Photo)
    (current_user : UserObject) : Work UserObject :=
  if negb (Account.role_id current_user.2 =? 2)
  then http_error 403 "Forbidden: Admin rights required"
  else
    target_user ← select (λ tbl, tbl !! user_id);
    match target_user with
    | None => http_error 404 "User not found"
    | Some target_user =>
        let target_user : UserObject := (user_id, target_user) in
        target_user ←
          match username with
          | Some username =>
              if truthy username
                 && negb (String.eqb username
                            (Account.username target_user.2))
              then
                existing ← select (rows_where (λ row,
                             String.eqb (Account.username row.2) username
                             && negb (row.1 =? user_id)));
                if nonempty existing
                then http_error 400 "Username занят"
                else setattr_user target_user (Account.set_username username)
              else mret target_user
          | None => mret target_user
          end;
        target_user ←
          match email with
          | Some email =>
              if truthy email
                 && negb (String.eqb email (Account.email target_user.2))
              then
                existing ← select (rows_where (λ row,
                             String.eqb (Account.email row.2) email
                             && negb (row.1 =? user_id)));
                if nonempty existing
                then http_error 400 "Email занят"
                else setattr_user target_user (Account.set_email email)
              else mret target_user
          | None => mret target_user
          end;
        target_user ←
          match full_name with
          | Some full_name =>
              setattr_user target_user (Account.set_full_name full_name)
          | None => mret target_user
          end;
        target_user ←
          match shift with
          | Some shift => setattr_user target_user (Account.set_shift shift)
          | None => mret target_user
          end;
        target_user ←
          match photo with
          | Some (photo, size) =>
              let file_ext := lower (splitext_ext (filename photo)) in
              if bool_decide (file_ext ∈ avatar_extensions) then
                let filename :=
                  "avatar_" +:+ pretty target_user.1 +:+ "_" +:+ uuid4
                  +:+ file_ext in
                try_except_work
                  (if MAX_PHOTO_SIZE <? size
                   then http_error 400 "File too large. Max size: 5MB"
                   else mret ())
                  (λ _, http_error 500 "Failed to upload file");;
                setattr_user target_user
                  (Account.set_avatar_url (Some ("/uploads/" +:+ filename)))
              else
                http_error 400
                  "Unsupported file format. Allowed: jpg, jpeg, png, gif"
          | None => mret target_user
          end;
        commit_work;;
        mret target_user
    end.

End AdminRoutes.

(** [get_shift_tasks] of [src/task/routes.py] reads the shift of the caller
    and joins the tasks with the rows of their assignees, so it takes the
    table of accounts as well.  [COMPLETED] is [TaskStatus.COMPLETED], and
    the ordering is that of [order_by(Task.priority.desc(),
    Task.due_date.asc())]. *)
Definition get_shift_tasks (COMPLETED : TaskStatus)
    (order_by_priority_due_date : list (Z * Task.t) → list (Z * Task.t))
    (accounts : Accounts) (shift : string) (current_user : User.t)
  : Session (list (Z * Task.t)) :=
  let user_shift :=
    Account.shift <$> accounts !! User.user_id current_user in
  if from_option truthy false user_shift then
    query (λ d,
      order_by_priority_due_date
        (filter (λ row : Z * Task.t,
           match accounts !! Task.assignee_id row.2 with
           | Some user =>
               negb (Task.is_deleted row.2)
               && String.eqb (Account.shift user) shift
               && negb (String.eqb (status_value (Task.status row.2))
                          (status_value COMPLETED))
           | None => false
           end = true)
           (map_to_list (tasks d))))
  else
    raise {| status_code := 400;
             detail := "Смена пользователя не определена" |}.

(** ** Requests on the accounts *)

(** The requests that write the table of users.  Those behind
    [Depends(get_current_user)] carry the cookie of the caller. *)
Inductive AccountRequest :=
| Register (user : UserCreate.t)
| UpdateProfile (token : option string) (uuid4 : string)
    (user_update : UserUpdate.t) (photo : option Photo)
| UpdateUserPassword (token : option string) (user_id : Z)
    (new_password : string)
| DeleteUser (token : option string) (user_id : Z)
| AdminUpdateUser (token : option string) (uuid4 : string) (user_id : Z)
    (username full_name email shift : option string) (photo : option Photo).

Definition answer {A} (r : result A * Accounts) : option Exception * Accounts :=
  (match r.1 with Ok _ => None | Err e => Some e end, r.2).

Definition handle_account (lib : AuthLib) (lower : string → string) (now : Z)
    (r : AccountRequest)
    (tbl : Accounts) : option Exception * Accounts :=
  match r with
  | Register user => answer (run_work (AuthRoutes.register lib user) tbl)
  | UpdateProfile token uuid4 user_update photo =>
      answer (run_work
                (authenticated lib token
                   (UserRoutes.update_profile lower uuid4 user_update photo)) tbl)
  | UpdateUserPassword token user_id new_password =>
      answer (run_work
                (authenticated lib token
                   (AdminRoutes.update_user_password lib user_id new_password))
                tbl)
  | DeleteUser token user_id =>
      answer (run_work
                (authenticated lib token (AdminRoutes.delete_user now user_id))
                tbl)
  | AdminUpdateUser token uuid4 user_id username full_name email shift photo =>
      answer (run_work
                (authenticated lib token
                   (AdminRoutes.admin_update_user lower uuid4 user_id username
                      full_name email shift photo)) tbl)
  end.

(** No two rows share a user name, and no two share an address: the two
    [unique] columns of the table. *)
Definition unique_names (tbl : Accounts) : Prop :=
  ∀ i j a b,
    tbl !! i = Some a → tbl !! j = Some b →
    Account.username a = Account.username b
    ∨ Account.email a = Account.email b →
    i = j.

(** What an update may do to the row [user_id]: the role stays, and a name
    or an address either stays or becomes one that no other row has. *)
Definition keeps_identity (tbl : Accounts) (user_id : Z) (a a' : Account.t)
  : Prop :=
  Account.role_id a' = Account.role_id a
  ∧ (Account.username a' = Account.username a
     ∨ ∀ j b, j ≠ user_id → tbl !! j = Some b →
              Account.username b ≠ Account.username a')
  ∧ (Account.email a' = Account.email a
     ∨ ∀ j b, j ≠ user_id → tbl !! j = Some b →
              Account.email b ≠ Account.email a').

(** What a profile form may do to a row: as above, and the password hash
    and the deletion mark stay. *)
Definition profile_update (tbl : Accounts) (user_id : Z) (a a' : Account.t)
  : Prop :=
  keeps_identity tbl user_id a a'
  ∧ Account.hashed_password a' = Account.hashed_password a
  ∧ Account.is_deleted a' = Account.is_deleted a
  ∧ Account.deleted_at a' = Account.deleted_at a.

(** A step of a route on the object [(user_id, a)], in a session that has
    written nothing but that row: the step raises and leaves the session as
    it was, or it returns the object with its row rewritten to some [a'],
    where [R a a']. *)
Definition row_step (tbl : Accounts) (user_id : Z)
    (R : Account.t → Account.t → Prop) (a : Account.t)
    (m : Work UserObject) : Prop :=
  let s := {| stored := tbl; loaded := <[user_id := a]> tbl |} in
  (∃ e, m s = (Err e, s))
  ∨ (∃ a', m s = (Ok (user_id, a'),
                  {| stored := tbl; loaded := <[user_id := a']> tbl |})
           ∧ R a a').

(** The same for the rest of a route, commit included, seen from outside:
    an error with nothing stored, or the object with its row stored. *)
Definition row_route (tbl : Accounts) (user_id : Z)
    (R : Account.t → Account.t → Prop) (a : Account.t)
    (m : Work UserObject) : Prop :=
  let s := {| stored := tbl; loaded := <[user_id := a]> tbl |} in
  (∃ e, (m s).1 = Err e ∧ stored (m s).2 = tbl)
  ∨ (∃ a', (m s).1 = Ok (user_id, a')
           ∧ stored (m s).2 = <[user_id := a']> tbl ∧ R a a').

(** The only refusal of [login]. *)
Definition server_error_at_login : Exception :=
  HTTP {| status_code := 500; detail := "Ошибка сервера при входе" |}.

(** The row of a user after [delete_user]. *)
Definition deleted_account (now : Z) (a : Account.t) : Account.t :=
  Account.set_deleted_at (Some now) (Account.set_is_deleted true a).

(** The caller of a request: the object that [get_current_user] gives for
    its cookie, if it gives one; [register] has no caller. *)
Definition token_of (r : AccountRequest) : option (option string) :=
  match r with
  | Register _ => None
  | UpdateProfile token _ _ _ => Some token
  | UpdateUserPassword token _ _ => Some token
  | DeleteUser token _ => Some token
  | AdminUpdateUser token _ _ _ _ _ _ _ => Some token
  end.

Definition caller (lib : AuthLib) (r : AccountRequest) (tbl : Accounts)
  : option UserObject :=
  match token_of r with
  | Some token =>
      match (run_work (AuthRoutes.get_current_user lib token) tbl).1 with
      | Ok u => Some u
      | Err _ => None
      end
  | None => None
  end.

(** The table of users as the task and article routes read it. *)
Definition users_of (tbl : Accounts) : gmap Z User.t :=
  map_imap (λ user_id a, Some (user_of (user_id, a))) tbl.

(** The store of the task and article routes, over a table of accounts. *)
Definition with_accounts (tbl : Accounts) (d : DB) : DB :=
  {| users := users_of tbl; tasks := tasks d; task_history := task_history d;
     articles := articles d; article_images := article_images d;
     article_history := article_history d |}.

(** A row has the address or the user name of a registration. *)
Definition taken (user : UserCreate.t) (a : Account.t) : Prop :=
  Account.email a = UserCreate.email user
  ∨ Account.username a = UserCreate.username user.

(** Fixtures. *)
Definition lib0 : AuthLib :=
  {| hash_password := λ p, ("bcrypt:" +:+ p)%string;
     verify_password := λ p h, String.eqb h ("bcrypt:" +:+ p);
     create_access_token := λ sub, ("jwt:" +:+ sub)%string;
     jwt_sub := λ token,
       if String.prefix "jwt:" token
       then Some (Some (String.substring 4 (String.length token - 4) token))
       else None |}.

Definition anna : Account.t :=
  {| Account.username := "anna"; Account.full_name := "Анна";
     Account.email := "anna@example.org";
     Account.hashed_password := "bcrypt:secret"; Account.role_id := 1;
     Account.avatar_url := None; Account.is_deleted := false;
     Account.deleted_at := None; Account.shift := "day" |}.
Definition boris : Account.t :=
  {| Account.username := "boris"; Account.full_name := "Борис";
     Account.email := "boris@example.org";
     Account.hashed_password := "bcrypt:hunter2"; Account.role_id := 1;
     Account.avatar_url := None; Account.is_deleted := false;
     Account.deleted_at := None; Account.shift := "night" |}.
Definition root : Account.t :=
  {| Account.username := "root"; Account.full_name := "Админ";
     Account.email := "root@example.org";
     Account.hashed_password := "bcrypt:toor"; Account.role_id := 2;
     Account.avatar_url := None; Account.is_deleted := false;
     Account.deleted_at := None; Account.shift := "day" |}.

Definition accounts0 : Accounts := {[ 10 := anna; 20 := boris; 30 := root ]}.

(** The same table after [boris] is deleted. *)
Definition accounts1 : Accounts := <[20 := deleted_account 7 boris]> accounts0.

(** ** Serving an image: [get_image] of [src/images/routes.py]

    Paths are those of a POSIX system: [os.sep] is ["/"] and [os.altsep] is
    [None], so that [.lstrip(os.altsep or '')] strips nothing.  [str.strip]
    and [os.path.normpath] are arguments of the route; what it does with
    their result is modelled. *)

(** [sub in s] *)
Fixpoint contains (sub s : string) : bool :=
  String.prefix sub s
  || match s with
     | EmptyString => false
     | String _ r => contains sub r
     end.

(** [s.lstrip(c)] for a one-character [c] *)
Fixpoint lstrip (c : ascii) (s : string) : string :=
  match s with
  | EmptyString => EmptyString
  | String c' r => if Ascii.eqb c' c then lstrip c r else s
  end.

(** [s.replace("//", "/")] *)
Fixpoint replace_sep_sep (s : string) : string :=
  match s with
  | EmptyString => EmptyString
  | String c r =>
      match r with
      | EmptyString => s
      | String c' r' =>
          if Ascii.eqb c "/" && Ascii.eqb c' "/"
          then String "/" (replace_sep_sep r')
          else String c (replace_sep_sep r)
      end
  end.

(** [s[n:]] *)
Fixpoint string_drop (n : nat) (s : string) : string :=
  match n, s with
  | S n, String _ r => string_drop n r
  | _, _ => s
  end.

(** [os.path.isabs(p)] *)
Definition isabs (p : string) : bool := String.prefix "/" p.

Fixpoint endswith_sep (s : string) : bool :=
  match s with
  | EmptyString => false
  | String c EmptyString => Ascii.eqb c "/"
  | String _ r => endswith_sep r
  end.

(** [os.path.join(a, b)] *)
Definition join (a b : string) : string :=
  if isabs b then b
  else if String.eqb a "" || endswith_sep a then a +:+ b
  else a +:+ "/" +:+ b.

(** The file system as the route sees it. *)
Record FileSystem := {
  path_exists : string → bool;
  isfile : string → bool
}.

(** [get_image]; the value returned is the path of the [FileResponse]. *)
Definition get_image (strip normpath : string → string) (fs : FileSystem)
    (UPLOAD_DIR : string) (file : string) : outcome string :=
  let cleaned_file := replace_sep_sep (normpath (strip file)) in
  let cleaned_file := lstrip "/" cleaned_file in
  if contains ".." cleaned_file || isabs cleaned_file
  then Raise {| status_code := 400; detail := "Invalid file path" |}
  else
    let cleaned_file :=
      if String.prefix "uploads/" cleaned_file
      then lstrip "/" (string_drop (String.length "uploads/") cleaned_file)
      else cleaned_file in
    let image_path := join UPLOAD_DIR cleaned_file in
    if negb (path_exists fs image_path) || negb (isfile fs image_path)
    then Raise {| status_code := 404;
                  detail := "Image not found at " +:+ image_path |}
    else Return image_path.

(** * Properties *)

(** ** Small checks of the helpers *)

Example str_exc_404 :
  str_exc {| status_code := 404; detail := "Task not found" |}
  = "404: Task not found"%string.
Proof. reflexivity. Qed.

Example splitext_photo :
  ascii_lower (splitext_ext "dir.d/Photo.tar.PNG") = ".png"%string.
Proof. reflexivity. Qed.
Example splitext_hidden : splitext_ext "uploads/.bashrc" = ""%string.
Proof. reflexivity. Qed.

(** ** The handlers as equations

    Each handler is run on an arbitrary store and its response and the store
    it leaves are written out; the properties below are read off these
    equations. *)

Ltac session_step :=
  unfold run, try_except, mbind, session_bind, mret, session_ret, query,
    modify, raise, commit, rollback; cbn.

Lemma task_add_images_run env id u images : ∀ i paths s,
  TaskRoutes.add_images env id u i images paths s =
  (Return (paths ++ task_file_names env id i images),
   {| committed := committed s;
      pending := with_task_history
        (λ l, l ++ (image_added id (User.user_id u)
                      <$> task_file_names env id i images))
        (pending s) |}).
Proof.
  induction images as [|image rest IH]; intros i paths s.
  - cbn. unfold mret, session_ret. rewrite app_nil_r.
    destruct s as [c p]; destruct p; unfold with_task_history; cbn.
    by rewrite app_nil_r.
  - cbn [TaskRoutes.add_images task_file_names].
    unfold TaskRoutes.add_history. session_step. rewrite IH. cbn.
    rewrite <- app_assoc. cbn. f_equal. f_equal.
    unfold with_task_history; cbn. f_equal. by rewrite <- app_assoc.
Qed.

Lemma update_changes_eq title description assignee_id due_date status
    priority images task :
  TaskRoutes.update_changes title description assignee_id due_date status
    priority images task =
  supplied_fields title description assignee_id due_date status priority
  ++ (if nonempty images
      then [("image_paths"%string, JList (current_paths task))]
      else []).
Proof.
  unfold TaskRoutes.update_changes, supplied_fields, current_paths.
  destruct title, description, assignee_id, due_date, status, priority,
    (nonempty images); reflexivity.
Qed.

Lemma task_txn_start db id t :
  tasks db !! id = Some t →
  {| committed := db; pending := db |} = task_txn db id t (task_history db).
Proof.
  intros Ht. unfold task_txn, with_task_history, with_tasks. cbn.
  rewrite (insert_id _ _ _ Ht). by destruct db.
Qed.

Lemma task_txn_setattr {A} (o : option A) (f : A → Task.t → Task.t) db id task
    hist :
  match o with
  | Some v => TaskRoutes.setattr id (f v) task
  | None => mret task
  end (task_txn db id task hist)
  = (Return (apply_opt f o task), task_txn db id (apply_opt f o task) hist).
Proof.
  destruct o as [v|]; [|reflexivity].
  unfold TaskRoutes.setattr, task_txn, with_task_history, with_tasks.
  session_step. by rewrite insert_insert_eq.
Qed.

Lemma task_txn_verify_assignee a db id task hist :
  TaskRoutes.verify_assignee a (task_txn db id task hist)
  = (if assignee_active db a
     then from_option Return (Raise assignee_not_found) (users db !! a)
     else Raise assignee_not_found,
     task_txn db id task hist).
Proof.
  unfold TaskRoutes.verify_assignee, assignee_active. session_step.
  destruct (users db !! a) as [ua|]; [|reflexivity].
  by destruct (User.is_deleted ua).
Qed.

Lemma task_txn_add_images env id u images i paths db task hist :
  TaskRoutes.add_images env id u i images paths (task_txn db id task hist)
  = (Return (paths ++ task_file_names env id i images),
     task_txn db id task
       (hist ++ (image_added id (User.user_id u)
                   <$> task_file_names env id i images))).
Proof. by rewrite task_add_images_run. Qed.

Lemma task_txn_assignee (o : option Z) db id task hist :
  match o with
  | Some v =>
      TaskRoutes.verify_assignee v;;
      TaskRoutes.setattr id (Task.set_assignee_id v) task
  | None => mret task
  end (task_txn db id task hist)
  = if from_option (assignee_active db) true o
    then (Return (apply_opt Task.set_assignee_id o task),
          task_txn db id (apply_opt Task.set_assignee_id o task) hist)
    else (Raise assignee_not_found, task_txn db id task hist).
Proof.
  destruct o as [v|]; [|reflexivity].
  unfold mbind, session_bind. rewrite task_txn_verify_assignee.
  cbn [from_option apply_opt]. unfold assignee_active.
  destruct (users db !! v) as [ua|]; [|reflexivity].
  destruct (User.is_deleted ua); [reflexivity|].
  cbn [negb from_option].
  apply (task_txn_setattr (Some v) Task.set_assignee_id).
Qed.

Lemma task_txn_images env id u images db task hist :
  (if nonempty images then
     match Task.image_paths task with
     | Some (p :: ps) =>
         image_paths ← TaskRoutes.add_images env id u 0 images (p :: ps);
         mret (Task.set_image_paths (Some image_paths) task)
     | _ =>
         image_paths ← TaskRoutes.add_images env id u 0 images [];
         TaskRoutes.setattr id (Task.set_image_paths (Some image_paths)) task
     end
   else mret task) (task_txn db id task hist)
  = let names := task_file_names env id 0 images in
    let object :=
      if nonempty images
      then Task.set_image_paths (Some (current_paths task ++ names)) task
      else task in
    let row :=
      if nonempty images
      then match Task.image_paths task with
           | Some (_ :: _) => task
           | _ => Task.set_image_paths (Some names) task
           end
      else task in
    (Return object,
     task_txn db id row (hist ++ (image_added id (User.user_id u) <$> names))).
Proof.
  destruct images as [|image rest].
  - cbn. by rewrite app_nil_r.
  - cbn [nonempty]. unfold current_paths.
    destruct (Task.image_paths task) as [[|p ps]|] eqn:Hp;
      unfold mbind, session_bind; rewrite task_txn_add_images; cbn [default].
    + apply (task_txn_setattr (Some (task_file_names env id 0 (image :: rest)))
               (λ v, Task.set_image_paths (Some v))).
    + reflexivity.
    + apply (task_txn_setattr (Some (task_file_names env id 0 (image :: rest)))
               (λ v, Task.set_image_paths (Some v))).
Qed.

Lemma nonempty_app_r {A} (l k : list A) :
  nonempty k = true → nonempty (l ++ k) = true.
Proof. destruct l; [done|]. done. Qed.

Lemma current_paths_fields env title description assignee_id due_date status
    priority t :
  current_paths
    (apply_opt Task.set_priority priority
       (apply_opt Task.set_status status
          (apply_opt
             (λ v, Task.set_due_date
                     (Some (astimezone_utc_naive (local_utcoffset env) v)))
             due_date
             (apply_opt Task.set_assignee_id assignee_id
                (apply_opt (λ v, Task.set_description (Some v)) description
                   (apply_opt Task.set_title title t))))))
  = current_paths t.
Proof.
  by destruct title, description, assignee_id, due_date, status, priority.
Qed.

Lemma run_update_task env id title description assignee_id due_date status
    priority images u db :
  run (TaskRoutes.update_task env id title description assignee_id due_date
         status priority images u) db =
  match tasks db !! id with
  | None => (Raise {| status_code := 404; detail := "Task not found" |}, db)
  | Some t =>
      if from_option (assignee_active db) true assignee_id then
        let t' := task_after env id title description assignee_id due_date
                    status priority images t in
        (Return t',
         with_task_history
           (λ l, l ++ update_task_records env id (User.user_id u) title
                        description assignee_id due_date status priority
                        images t)
           (with_tasks <[id := t']> db))
      else (Raise assignee_not_found, db)
  end.
Proof.
  unfold TaskRoutes.update_task, run.
  unfold mbind at 1, session_bind at 1, query at 1. cbn [pending].
  destruct (tasks db !! id) as [t|] eqn:Ht; [|reflexivity].
  rewrite (task_txn_start db id t Ht).
  unfold task_after, update_task_records.
  rewrite <- (current_paths_fields env title description assignee_id due_date
                status priority t).
  set (t1 := apply_opt Task.set_title title t).
  set (t2 := apply_opt (λ v, Task.set_description (Some v)) description t1).
  set (t3 := apply_opt Task.set_assignee_id assignee_id t2).
  set (t4 := apply_opt _ due_date t3).
  set (t5 := apply_opt Task.set_status status t4).
  set (t6 := apply_opt Task.set_priority priority t5).
  unfold mbind at 1, session_bind at 1.
  rewrite (task_txn_setattr title Task.set_title). fold t1.
  unfold mbind at 1, session_bind at 1.
  rewrite (task_txn_setattr description (λ v, Task.set_description (Some v))).
  fold t2.
  unfold mbind at 1, session_bind at 1.
  rewrite task_txn_assignee.
  destruct (from_option (assignee_active db) true assignee_id); [|reflexivity].
  fold t3.
  unfold mbind at 1, session_bind at 1.
  rewrite (task_txn_setattr due_date
             (λ v, Task.set_due_date
                     (Some (astimezone_utc_naive (local_utcoffset env) v)))).
  fold t4.
  unfold mbind at 1, session_bind at 1.
  rewrite (task_txn_setattr status Task.set_status). fold t5.
  unfold mbind at 1, session_bind at 1.
  rewrite (task_txn_setattr priority Task.set_priority). fold t6.
  unfold mbind at 1, session_bind at 1.
  rewrite task_txn_images. cbv beta iota zeta.
  rewrite update_changes_eq.
  set (names := task_file_names env id 0 images).
  set (fields := supplied_fields title description assignee_id due_date
                   status priority).
  assert (Hend : ∀ (changes : dict) (object row : Task.t) hist,
    nonempty changes = true →
    (let '(o, s) :=
       ((if nonempty changes
         then TaskRoutes.add_history
                (task_updated id (User.user_id u) changes)
         else mret ());;
        commit;;
        query (λ d, default object (tasks d !! id)))
         (task_txn db id row hist)
     in (o, committed s))
    = (Return row,
       with_task_history (λ _, hist ++ [task_updated id (User.user_id u)
                                          changes])
         (with_tasks <[id := row]> db))).
  { intros changes object row hist ->.
    unfold task_txn, TaskRoutes.add_history. session_step.
    by rewrite lookup_insert_eq. }
  destruct (nonempty images) eqn:Hne.
  - rewrite Hend by (by apply nonempty_app_r).
    unfold with_task_history, with_tasks. cbn.
    rewrite <- app_assoc. unfold current_paths. cbn.
    by destruct (Task.image_paths t6) as [[|p ps]|].
  - rewrite !app_nil_r. destruct fields as [|f fs] eqn:Hf.
    + unfold task_txn, with_task_history, with_tasks. session_step.
      by rewrite lookup_insert_eq, app_nil_r.
    + rewrite Hend by done.
      unfold with_task_history, with_tasks. cbn. by rewrite <- app_assoc.
Qed.

Lemma run_delete_task env id u db :
  run (TaskRoutes.delete_task env id u) db =
  match tasks db !! id with
  | Some t =>
      if Task.is_deleted t then
        (Raise (internal_error "Ошибка при удалении задачи: " task_not_found),
         db)
      else if TaskRoutes.lacks_rights u t then
        (Raise (internal_error "Ошибка при удалении задачи: " task_forbidden),
         db)
      else
        (Return "Задача успешно удалена"%string,
         with_task_history
           (λ l, l ++ [task_event "TASK_DELETED" id (User.user_id u) None
                         (TaskRoutes.title_description t)])
           (with_tasks <[id := deleted_task env t]> db))
  | None =>
      (Raise (internal_error "Ошибка при удалении задачи: " task_not_found), db)
  end.
Proof.
  unfold TaskRoutes.delete_task, TaskRoutes.setattr, TaskRoutes.add_history.
  session_step.
  destruct (tasks db !! id) as [t|] eqn:Ht; cbn; [|reflexivity].
  destruct (Task.is_deleted t) eqn:Hd; cbn; [reflexivity|].
  destruct (TaskRoutes.lacks_rights u t) eqn:Hr; cbn; [reflexivity|].
  unfold with_task_history, with_tasks; cbn.
  by rewrite insert_insert_eq.
Qed.

Lemma run_restore_task env id u db :
  run (TaskRoutes.restore_task env id u) db =
  match tasks db !! id with
  | Some t =>
      if restorable (utcnow env) (Task.is_deleted t) (Task.deleted_at t) then
        if TaskRoutes.lacks_rights u t then
          (Raise (internal_error "Ошибка при восстановлении задачи: "
                    task_forbidden), db)
        else
          (Return (restored_task t),
           with_task_history
             (λ l, l ++ [task_event "TASK_RESTORED" id (User.user_id u) None
                           (TaskRoutes.title_description t)])
             (with_tasks <[id := restored_task t]> db))
      else
        (Raise (internal_error "Ошибка при восстановлении задачи: "
                  task_not_restorable), db)
  | None =>
      (Raise (internal_error "Ошибка при восстановлении задачи: "
                task_not_restorable), db)
  end.
Proof.
  unfold TaskRoutes.restore_task, TaskRoutes.setattr, TaskRoutes.add_history.
  session_step.
  destruct (tasks db !! id) as [t|] eqn:Ht; cbn; [|reflexivity].
  destruct (restorable _ _ _) eqn:Hd; cbn; [|reflexivity].
  destruct (TaskRoutes.lacks_rights u t) eqn:Hr; cbn; [reflexivity|].
  unfold with_task_history, with_tasks; cbn.
  by rewrite insert_insert_eq.
Qed.

Lemma run_reassign_task request id u db :
  run (TaskRoutes.reassign_task request id u) db =
  match tasks db !! id with
  | Some t =>
      if Task.is_deleted t then (Raise task_not_found, db)
      else if TaskRoutes.lacks_rights u t then (Raise task_forbidden, db)
      else if assignee_active db (TaskRoutes.new_assignee_id request) then
        (Return (Task.set_assignee_id (TaskRoutes.new_assignee_id request) t),
         with_task_history
           (λ l, l ++ [task_event "TASK_REASSIGNED" id (User.user_id u)
                         (TaskRoutes.comment request)
                         [("assignee_id"%string,
                           JDict [("old"%string, JInt (Task.assignee_id t));
                                  ("new"%string,
                                   JInt (TaskRoutes.new_assignee_id request))])]])
           (with_tasks
              <[id := Task.set_assignee_id
                        (TaskRoutes.new_assignee_id request) t]> db))
      else (Raise assignee_not_found, db)
  | None => (Raise task_not_found, db)
  end.
Proof.
  unfold TaskRoutes.reassign_task, TaskRoutes.setattr, TaskRoutes.add_history,
    TaskRoutes.verify_assignee, assignee_active.
  session_step.
  destruct (tasks db !! id) as [t|] eqn:Ht; cbn; [|reflexivity].
  destruct (Task.is_deleted t) eqn:Hd; cbn; [reflexivity|].
  destruct (TaskRoutes.lacks_rights u t) eqn:Hr; cbn; [reflexivity|].
  destruct (users db !! _) as [ua|] eqn:Hu; cbn; [|reflexivity].
  destruct (User.is_deleted ua); cbn; reflexivity.
Qed.

Lemma run_create_task env title description assignee_id due_date status
    priority images u db :
  run (TaskRoutes.create_task env title description assignee_id due_date
         status priority images u) db =
  if assignee_active db assignee_id then
    let task_id := next_id (tasks db) in
    let t := created_task env task_id title description assignee_id due_date
               status priority images u in
    (Return (task_id, t),
     with_task_history
       (λ l, l ++ (image_added task_id (User.user_id u)
                     <$> task_file_names env task_id 0 images)
               ++ [task_event "TASK_CREATED" task_id (User.user_id u) None
                     (created_snapshot env title description assignee_id
                        due_date status priority u)])
       (with_tasks <[task_id := t]> db))
  else
    (Raise (internal_error "Ошибка при создании задачи: " assignee_not_found),
     db).
Proof.
  unfold TaskRoutes.create_task, TaskRoutes.setattr, TaskRoutes.add_history,
    TaskRoutes.add_task, TaskRoutes.verify_assignee, assignee_active.
  session_step.
  destruct (users db !! _) as [ua|] eqn:Hu; cbn; [|reflexivity].
  destruct (User.is_deleted ua); cbn; [reflexivity|].
  assert (Hcase: images = [] ∨ nonempty images = true)
    by (destruct images; auto).
  destruct Hcase as [-> | Hne]; [cbn | rewrite !Hne; cbn].
  - destruct due_date; reflexivity.
  - rewrite task_add_images_run. cbn.
    unfold with_task_history, with_tasks, created_task, created_snapshot; cbn.
    rewrite insert_insert_eq, <- app_assoc.
    destruct due_date; reflexivity.
Qed.


Lemma article_add_images_ok env id images : ∀ i s,
  forallb (allowed env) images = true →
  ArticleRoutes.add_images env id i images s =
  (Return (),
   {| committed := committed s;
      pending := with_article_images (λ l, l ++ image_rows env id i images)
                   (pending s) |}).
Proof.
  induction images as [|image rest IH]; intros i s Hall.
  - cbn. unfold mret, session_ret.
    destruct s as [c p]; destruct p; unfold with_article_images; cbn.
    by rewrite app_nil_r.
  - cbn in Hall. apply andb_prop in Hall as [Ha Hrest].
    cbn [ArticleRoutes.add_images image_rows].
    unfold ArticleRoutes.save_uploaded_file, ArticleRoutes.add_image.
    unfold allowed in Ha. rewrite Ha.
    session_step. rewrite (IH _ _ Hrest). cbn.
    unfold with_article_images; cbn. by rewrite <- app_assoc.
Qed.

Lemma article_add_images_fail env id images : ∀ i s,
  forallb (allowed env) images = false →
  ∃ s', ArticleRoutes.add_images env id i images s
        = (Raise unsupported_format, s')
        ∧ committed s' = committed s.
Proof.
  induction images as [|image rest IH]; intros i s Hall; [done|].
  cbn in Hall. cbn [ArticleRoutes.add_images].
  unfold ArticleRoutes.save_uploaded_file, ArticleRoutes.add_image.
  destruct (allowed env image) eqn:Ha; unfold allowed in Ha; rewrite Ha.
  - cbn in Hall. session_step.
    edestruct (IH (S i)) as (s' & -> & Hc); [exact Hall|].
    eexists; split; [reflexivity|]. by rewrite Hc.
  - session_step. by eexists.
Qed.

Lemma run_create_article env title content images u db :
  run (ArticleRoutes.create_article env title content images u) db =
  if forallb (allowed env) images then
    let article_id := next_id (articles db) in
    (Return (article_id, created_article title content u),
     with_article_history
       (λ l, l ++ [article_event "CREATE" article_id (User.user_id u)
                     None (Some title) None (Some content)])
       (with_article_images (λ l, l ++ image_rows env article_id 0 images)
          (with_articles <[article_id := created_article title content u]>
             db)))
  else
    (Raise (internal_error "Ошибка при создании статьи: " unsupported_format),
     db).
Proof.
  unfold ArticleRoutes.create_article, ArticleRoutes.add_history,
    ArticleRoutes.add_article.
  session_step.
  destruct (forallb (allowed env) images) eqn:Hall.
  - assert (Hcase: images = [] ∨ nonempty images = true)
      by (destruct images; auto).
    destruct Hcase as [-> | Hne]; [cbn | rewrite !Hne; cbn].
    + unfold with_article_history, with_article_images, with_articles; cbn.
      by rewrite app_nil_r.
    + by rewrite (article_add_images_ok _ _ _ _ _ Hall).
  - assert (Hne: nonempty images = true) by (by destruct images).
    rewrite Hne.
    edestruct (article_add_images_fail env (next_id (articles db)) images 0)
      as (s' & -> & Hc); [exact Hall|].
    cbn. by rewrite Hc.
Qed.

Lemma run_update_article_try env id title content images u db :
  ∃ s,
  ArticleRoutes.update_article_try env id title content images u
    {| committed := db; pending := db |} =
  (match articles db !! id with
   | Some a =>
       if Article.is_deleted a then Raise article_not_found
       else if ArticleRoutes.lacks_rights u a then Raise article_forbidden
       else if forallb (allowed env) images then Return (article_after title content a)
       else Raise unsupported_format
   | None => Raise article_not_found
   end, s)
  ∧ committed s =
    match articles db !! id with
    | Some a =>
        if Article.is_deleted a then db
        else if ArticleRoutes.lacks_rights u a then db
        else if forallb (allowed env) images then
          with_article_history
            (λ l, l ++ update_article_records id (User.user_id u) title
                         content images a)
            (with_article_images (λ l, l ++ image_rows env id 0 images)
               (with_articles <[id := article_after title content a]> db))
        else db
    | None => db
    end.
Proof.
  unfold ArticleRoutes.update_article_try, ArticleRoutes.add_history,
    ArticleRoutes.setattr.
  session_step.
  destruct (articles db !! id) as [a|] eqn:Ha; cbn; [|by eexists].
  destruct (Article.is_deleted a) eqn:Hd; cbn; [by eexists|].
  destruct (ArticleRoutes.lacks_rights u a) eqn:Hr; cbn; [by eexists|].
  destruct db as [us ts th ar ai ah]. cbn in Ha.
  assert (Hid: ∀ x y, <[id:=x]> (<[id:=y]> ar) = <[id:=x]> ar).
  { intros; apply insert_insert_eq. }
  unfold article_after, update_article_records, article_updated, article_event,
    ArticleRoutes.differs, apply_opt.
  destruct (forallb (allowed env) images) eqn:Hall.
  - assert (Hcase: images = [] ∨ nonempty images = true)
      by (destruct images; auto).
    destruct title as [ti|], content as [co|]; cbn.
    all: repeat match goal with
         | |- context [String.eqb ?x ?y] => destruct (String.eqb x y) eqn:?; cbn
         end.
    all: destruct Hcase as [-> | Hne]; [cbn | rewrite !Hne; cbn].
    all: rewrite ?(article_add_images_ok _ _ _ _ _ Hall); cbn.
    all: eexists; split; [reflexivity|].
    all: unfold with_article_history, with_article_images, with_articles; cbn;
      rewrite ?Hid, ?app_nil_r, ?(insert_id _ _ _ Ha), ?orb_true_r;
      reflexivity.
  - assert (Hne: nonempty images = true) by (by destruct images).
    destruct title as [ti|], content as [co|]; cbn.
    all: repeat match goal with
         | |- context [String.eqb ?x ?y] => destruct (String.eqb x y) eqn:?; cbn
         end.
    all: rewrite !Hne.
    all: match goal with
         | |- context [ArticleRoutes.add_images ?e ?k 0 ?im ?s] =>
             edestruct (article_add_images_fail e k im 0 s)
               as (s' & -> & Hc); [exact Hall|]
         end.
    all: cbn; eexists; split; [reflexivity|]; by rewrite Hc.
Qed.

Lemma run_update_article env id title content images u db :
  run (ArticleRoutes.update_article env id title content images u) db =
  match articles db !! id with
  | Some a =>
      if Article.is_deleted a then
        (Raise (internal_error "Ошибка при обновлении статьи: "
                  article_not_found), db)
      else if ArticleRoutes.lacks_rights u a then
        (Raise (internal_error "Ошибка при обновлении статьи: "
                  article_forbidden), db)
      else if forallb (allowed env) images then
        (Return (article_after title content a),
         with_article_history
           (λ l, l ++ update_article_records id (User.user_id u) title
                        content images a)
           (with_article_images (λ l, l ++ image_rows env id 0 images)
              (with_articles <[id := article_after title content a]> db)))
      else
        (Raise (internal_error "Ошибка при обновлении статьи: "
                  unsupported_format), db)
  | None =>
      (Raise (internal_error "Ошибка при обновлении статьи: "
                article_not_found), db)
  end.
Proof.
  destruct (run_update_article_try env id title content images u db)
    as (s & Hrun & Hs).
  unfold ArticleRoutes.update_article, run, try_except. rewrite Hrun.
  destruct (articles db !! id) as [a|]; [|by rewrite <- Hs].
  destruct (Article.is_deleted a); [by rewrite <- Hs|].
  destruct (ArticleRoutes.lacks_rights u a); [by rewrite <- Hs|].
  destruct (forallb (allowed env) images); by rewrite <- Hs.
Qed.

Lemma run_delete_article env id u db :
  run (ArticleRoutes.delete_article env id u) db =
  match articles db !! id with
  | Some a =>
      if Article.is_deleted a then
        (Raise (internal_error "Ошибка при удалении статьи: "
                  article_not_found), db)
      else if ArticleRoutes.lacks_rights u a then
        (Raise (internal_error "Ошибка при удалении статьи: "
                  article_forbidden), db)
      else
        (Return "Статья успешно удалена"%string,
         with_article_history
           (λ l, l ++ [article_event "DELETE" id (User.user_id u)
                         (Some (Article.title a)) None
                         (Some (Article.content a)) None])
           (with_articles <[id := deleted_article env a]> db))
  | None =>
      (Raise (internal_error "Ошибка при удалении статьи: " article_not_found),
       db)
  end.
Proof.
  unfold ArticleRoutes.delete_article, ArticleRoutes.setattr,
    ArticleRoutes.add_history.
  session_step.
  destruct (articles db !! id) as [a|] eqn:Ha; cbn; [|reflexivity].
  destruct (Article.is_deleted a) eqn:Hd; cbn; [reflexivity|].
  destruct (ArticleRoutes.lacks_rights u a) eqn:Hr; cbn; [reflexivity|].
  unfold with_article_history, with_articles; cbn.
  by rewrite insert_insert_eq.
Qed.

Lemma run_restore_article env id u db :
  run (ArticleRoutes.restore_article env id u) db =
  match articles db !! id with
  | Some a =>
      if restorable (utcnow env) (Article.is_deleted a) (Article.deleted_at a)
      then
        if ArticleRoutes.lacks_rights u a then
          (Raise (internal_error "Ошибка при восстановлении статьи: "
                    article_forbidden), db)
        else
          (Return (restored_article a),
           with_article_history
             (λ l, l ++ [article_event "RESTORE" id (User.user_id u)
                           None (Some (Article.title a))
                           None (Some (Article.content a))])
             (with_articles <[id := restored_article a]> db))
      else
        (Raise (internal_error "Ошибка при восстановлении статьи: "
                  article_not_restorable), db)
  | None =>
      (Raise (internal_error "Ошибка при восстановлении статьи: "
                article_not_restorable), db)
  end.
Proof.
  unfold ArticleRoutes.restore_article, ArticleRoutes.setattr,
    ArticleRoutes.add_history.
  session_step.
  destruct (articles db !! id) as [a|] eqn:Ha; cbn; [|reflexivity].
  destruct (restorable _ _ _) eqn:Hd; cbn; [|reflexivity].
  destruct (ArticleRoutes.lacks_rights u a) eqn:Hr; cbn; [reflexivity|].
  unfold with_article_history, with_articles; cbn.
  by rewrite insert_insert_eq.
Qed.


(** ** Creation *)

Lemma next_id_above {V} (m : gmap Z V) k :
  is_Some (m !! k) → k < next_id m.
Proof.
  unfold next_id.
  apply (map_fold_weak_ind
           (λ r m, is_Some (m !! k) → k < 1 + r)).
  - by intros [? ?].
  - intros i x m' r Hi IH [y Hy].
    destruct (decide (i = k)) as [->|Hne]; [lia|].
    rewrite lookup_insert_ne in Hy by done.
    specialize (IH (ex_intro _ y Hy)). lia.
Qed.

(** The key of a new row is not in use. *)
Lemma next_id_fresh {V} (m : gmap Z V) : m !! next_id m = None.
Proof.
  destruct (m !! next_id m) as [v|] eqn:Hm; [|done].
  pose proof (next_id_above m (next_id m) (ex_intro _ v Hm)). lia.
Qed.

(** What [create_task] commits when the assignee exists and is active: a new
    task of the actor, neither deleted nor stamped, and after the records of
    its images one [TASK_CREATED] record with the snapshot of the fields. *)
Lemma create_task_commits env db u title description assignee_id due_date
    status priority images :
  assignee_active db assignee_id = true →
  ∃ task_id t db',
    run (TaskRoutes.create_task env title description assignee_id due_date
           status priority images u) db = (Return (task_id, t), db')
    ∧ tasks db !! task_id = None
    ∧ tasks db' !! task_id = Some t
    ∧ Task.author_id t = User.user_id u
    ∧ Task.is_deleted t = false ∧ Task.deleted_at t = None
    ∧ last (task_history db')
      = Some (task_event "TASK_CREATED" task_id (User.user_id u) None
                (created_snapshot env title description assignee_id due_date
                   status priority u)).
Proof.
  intros Has. rewrite run_create_task, Has.
  do 3 eexists. split; [reflexivity|].
  split; [apply next_id_fresh|]. cbn.
  rewrite lookup_insert_eq, !app_assoc, last_snoc. done.
Qed.

Lemma create_article_commits env db u title content images :
  forallb (allowed env) images = true →
  ∃ article_id a db',
    run (ArticleRoutes.create_article env title content images u) db
    = (Return (article_id, a), db')
    ∧ articles db !! article_id = None
    ∧ articles db' !! article_id = Some a
    ∧ Article.author_id a = User.user_id u
    ∧ Article.is_deleted a = false ∧ Article.deleted_at a = None
    ∧ article_history db'
      = article_history db
        ++ [article_event "CREATE" article_id (User.user_id u) None
              (Some title) None (Some content)].
Proof.
  intros Hall. rewrite run_create_article, Hall.
  do 3 eexists. split; [reflexivity|].
  split; [apply next_id_fresh|]. cbn.
  by rewrite lookup_insert_eq.
Qed.

(** The scenario of the specification, on the store [db0]: the author
    deletes the task, restores it, and deletes it again; the history gains
    [TASK_DELETED], [TASK_RESTORED], [TASK_DELETED] in that order. *)
Example delete_restore_delete :
  let db1 := (handle env0 author (DeleteTask 1) db0).2 in
  let db2 := (handle env0 author (RestoreTask 1) db1).2 in
  let db3 := (handle env0 author (DeleteTask 1) db2).2 in
  TaskHistory.event <$> task_history db3
  = ["TASK_CREATED"; "TASK_DELETED"; "TASK_RESTORED"; "TASK_DELETED"]%string.
Proof. by vm_compute. Qed.

(** ** Updates *)

(** The rows and the response of [update_task] do not depend on who asks:
    the acting user only signs the history records. *)
Lemma update_task_any_actor env id title description assignee_id due_date
    status priority images u1 u2 db :
  (run (TaskRoutes.update_task env id title description assignee_id due_date
          status priority images u1) db).1
  = (run (TaskRoutes.update_task env id title description assignee_id due_date
            status priority images u2) db).1
  ∧ tasks (run (TaskRoutes.update_task env id title description assignee_id
                  due_date status priority images u1) db).2
    = tasks (run (TaskRoutes.update_task env id title description assignee_id
                    due_date status priority images u2) db).2.
Proof.
  rewrite !run_update_task.
  destruct (tasks db !! id); [|done].
  by destruct (from_option _ _ _).
Qed.

(** C1 (the code departs from the claim).  A standard user who is not the
    author updates the task of somebody else: [update_task] has no ownership
    check, the request succeeds and the new title is committed.  On the
    article side the check is there and the article is left unchanged, but
    the 403 it raises is caught by the handler's own [except Exception] and
    reaches the caller as a 500. *)
Theorem C1_update_by_stranger :
  TaskRoutes.lacks_rights stranger pump = true
  ∧ (∃ t' db',
       run (TaskRoutes.update_task env0 1 (Some "Taken over"%string) None None
              None None None [] stranger) db0 = (Return t', db')
       ∧ tasks db' !! 1 = Some t'
       ∧ Task.title t' = "Taken over"%string
       ∧ task_history db'
         = task_history db0
           ++ [task_updated 1 20 [("title"%string, JStr "Taken over")]])
  ∧ ArticleRoutes.lacks_rights stranger note = true
  ∧ (∃ e,
       run (ArticleRoutes.update_article env0 1 (Some "Taken over"%string)
              None [] stranger) db0 = (Raise e, db0)
       ∧ status_code e = 500
       ∧ error_kind e = InternalError).
Proof.
  split; [reflexivity|]. split.
  - rewrite run_update_task. do 2 eexists.
    split; [reflexivity|]. by vm_compute.
  - split; [reflexivity|]. rewrite run_update_article.
    eexists. split; [reflexivity|]. by vm_compute.
Qed.

(** C2, counterexample.  The author updates the task with the title it
    already has; no supplied field differs, and yet the history of the task
    grows by a [TASK_UPDATED] record. *)
Lemma C2_same_title_is_recorded :
  tasks db0 !! 1 = Some pump
  ∧ Task.title pump = "Fix pump"%string
  ∧ ∃ t' db',
      run (TaskRoutes.update_task env0 1 (Some "Fix pump"%string) None None None
             None None [] author) db0 = (Return t', db')
      ∧ t' = pump
      ∧ task_history db'
        = task_history db0
          ++ [task_updated 1 10 [("title"%string, JStr "Fix pump")]]
      ∧ length (task_history db') ≠ length (task_history db0).
Proof.
  split; [reflexivity|]. split; [reflexivity|].
  rewrite run_update_task. do 2 eexists.
  split; [reflexivity|]. by vm_compute.
Qed.

(** What [update_task] appends, read from the request. *)
Lemma update_task_records_nil env id user_id title description assignee_id
    due_date status priority images t :
  update_task_records env id user_id title description assignee_id due_date
    status priority images t = []
  ↔ supplied_fields title description assignee_id due_date status priority
    = []
    ∧ images = [].
Proof.
  unfold update_task_records. destruct images as [|image rest]; cbn.
  - destruct (supplied_fields _ _ _ _ _ _); cbn; split; try done.
    by intros [? _].
  - split; [done|]. by intros [_ ?].
Qed.

(** C2, as amended.  An article update that attaches no image and whose
    supplied fields all equal the current values appends no history record.
    An accepted task update appends no history record exactly when it
    supplies no field and no image; when it supplies a field, whatever the
    value and whatever the current one, it appends one [TASK_UPDATED] record
    that holds the field, after the [IMAGE_ADDED] records of its images. *)
Theorem C2_silent_updates env db u :
  (∀ id title content,
     (∀ a, articles db !! id = Some a →
           ArticleRoutes.differs title (Article.title a) = false
           ∧ ArticleRoutes.differs content (Article.content a) = false) →
     article_history
       (run (ArticleRoutes.update_article env id title content [] u) db).2
     = article_history db)
  ∧ (∀ id title description assignee_id due_date status priority images t,
       tasks db !! id = Some t →
       from_option (assignee_active db) true assignee_id = true →
       let r := run (TaskRoutes.update_task env id title description
                       assignee_id due_date status priority images u) db in
       let fields :=
         supplied_fields title description assignee_id due_date status
           priority in
       (task_history r.2 = task_history db ↔ fields = [] ∧ images = [])
       ∧ (fields ≠ [] →
          ∃ changes,
            task_history r.2
            = task_history db
              ++ (image_added id (User.user_id u)
                    <$> task_file_names env id 0 images)
              ++ [task_updated id (User.user_id u) changes]
            ∧ fields `prefix_of` changes)).
Proof.
  split.
  - intros id title content Hsame. rewrite run_update_article.
    destruct (articles db !! id) as [a|] eqn:Ha; [|done].
    destruct (Hsame a eq_refl) as [Hti Hco].
    destruct (Article.is_deleted a); [done|].
    destruct (ArticleRoutes.lacks_rights u a); [done|].
    cbn. unfold update_article_records. rewrite Hti, Hco. cbn.
    by rewrite app_nil_r.
  - intros id title description assignee_id due_date status priority images t
      Ht Has r fields. subst r fields.
    rewrite run_update_task, Ht, Has. cbn [fst snd task_history
      with_task_history with_tasks]. split.
    + rewrite <- update_task_records_nil.
      split; [|by intros ->; rewrite app_nil_r].
      intros Heq. apply (app_inv_head (task_history db)).
      by rewrite app_nil_r.
    + intros Hsup. unfold update_task_records.
      destruct (nonempty images).
      * eexists. split; [reflexivity|]. by apply prefix_app_r.
      * destruct (supplied_fields _ _ _ _ _ _) eqn:Hs; [done|].
        cbn [nonempty]. eexists. split; [reflexivity|]. done.
Qed.

Lemma C2_silent_updates_witness :
  article_history
    (run (ArticleRoutes.update_article env0 1 (Some "Pump manual"%string) None
            [] author) db0).2
  = article_history db0
  ∧ ∃ changes,
      task_history
        (run (TaskRoutes.update_task env0 1 (Some (Task.title pump)) None None
                None None None [] author) db0).2
      = task_history db0
        ++ (image_added 1 (User.user_id author) <$> task_file_names env0 1 0 [])
        ++ [task_updated 1 (User.user_id author) changes]
      ∧ supplied_fields (Some (Task.title pump)) None None None None None
        `prefix_of` changes.
Proof.
  destruct (C2_silent_updates env0 db0 author) as [Harticle Htask]. split.
  - apply Harticle. intros a Ha. vm_compute in Ha. by simplify_eq.
  - apply (Htask 1 (Some (Task.title pump)) None None None None None [] pump);
      by vm_compute.
Defined.

(** C3, counterexample.  One field differs (the title), another is supplied
    with its current value (the description): the single [TASK_UPDATED]
    record carries both. *)
Lemma C3_unchanged_field_is_captured :
  tasks db0 !! 1 = Some pump
  ∧ Task.description pump = Some "Hall 2"%string
  ∧ Task.title pump ≠ "Fix pump urgently"%string
  ∧ ∃ t' db' changes,
      run (TaskRoutes.update_task env0 1 (Some "Fix pump urgently"%string)
             (Some "Hall 2"%string) None None None None [] author) db0
      = (Return t', db')
      ∧ task_history db' = task_history db0 ++ [task_updated 1 10 changes]
      ∧ keys changes = ["title"; "description"]%string.
Proof.
  split; [reflexivity|]. split; [reflexivity|]. split; [done|].
  rewrite run_update_task. do 3 eexists.
  split; [reflexivity|]. by vm_compute.
Qed.

(** C3, as amended.  An accepted article update in which at least one of
    title and content differs appends exactly one [UPDATE] record, with the
    old and the new value of each field that differs and nothing for a field
    that does not.  An accepted task update that supplies at least one field
    appends, after the records of its images, exactly one [TASK_UPDATED]
    record with the new value of every supplied field, changed or not, and,
    when images are attached, the image list that the task object then
    holds. *)
Theorem C3_one_update_record env db u :
  (∀ id title content images a,
     articles db !! id = Some a →
     Article.is_deleted a = false →
     ArticleRoutes.lacks_rights u a = false →
     forallb (allowed env) images = true →
     ArticleRoutes.differs title (Article.title a)
     || ArticleRoutes.differs content (Article.content a) = true →
     let dt := ArticleRoutes.differs title (Article.title a) in
     let dc := ArticleRoutes.differs content (Article.content a) in
     article_history
       (run (ArticleRoutes.update_article env id title content images u) db).2
     = article_history db
       ++ [article_event "UPDATE" id (User.user_id u)
             (if dt then Some (Article.title a) else None)
             (if dt then title else None)
             (if dc then Some (Article.content a) else None)
             (if dc then content else None)])
  ∧ (∀ id title description assignee_id due_date status priority images t,
       tasks db !! id = Some t →
       from_option (assignee_active db) true assignee_id = true →
       supplied_fields title description assignee_id due_date status priority
       ≠ [] →
       let names := task_file_names env id 0 images in
       task_history
         (run (TaskRoutes.update_task env id title description assignee_id
                 due_date status priority images u) db).2
       = task_history db
         ++ (image_added id (User.user_id u) <$> names)
         ++ [task_updated id (User.user_id u)
               (supplied_fields title description assignee_id due_date
                  status priority
                ++ if nonempty images
                   then [("image_paths"%string,
                          JList (current_paths t ++ names))]
                   else [])]).
Proof.
  split.
  - intros id title content images a Ha Hd Hr Hall Hdiff dt dc.
    rewrite run_update_article, Ha, Hd, Hr, Hall.
    unfold update_article_records. by rewrite Hdiff.
  - intros id title description assignee_id due_date status priority images t
      Ht Has Hsup names.
    rewrite run_update_task, Ht, Has. cbn. unfold update_task_records.
    fold names. destruct (nonempty images); [done|].
    rewrite app_nil_r.
    by destruct (supplied_fields _ _ _ _ _ _).
Qed.

Lemma C3_one_update_record_witness :
  article_history
    (run (ArticleRoutes.update_article env0 1 (Some "Pump handbook"%string)
            (Some "Open the valve."%string) [] author) db0).2
  = article_history db0
    ++ [article_event "UPDATE" 1 10 (Some "Pump manual"%string)
          (Some "Pump handbook"%string) None None]
  ∧ task_history
      (run (TaskRoutes.update_task env0 1 (Some "Fix pump urgently"%string)
              (Some "Hall 2"%string) None None None None
              [{| filename := "leak.JPG" |}] author) db0).2
    = task_history db0
      ++ [image_added 1 10 "task_1_c0ffee0.jpg"]
      ++ [task_updated 1 10
            [("title"%string, JStr "Fix pump urgently");
             ("description"%string, JStr "Hall 2");
             ("image_paths"%string, JList ["task_1_c0ffee0.jpg"%string])]].
Proof.
  destruct (C3_one_update_record env0 db0 author) as [Harticle Htask]. split.
  - apply (Harticle 1 (Some "Pump handbook"%string)
             (Some "Open the valve."%string) [] note); by vm_compute.
  - apply (Htask 1 (Some "Fix pump urgently"%string) (Some "Hall 2"%string)
             None None None None [{| filename := "leak.JPG" |}] pump);
      by vm_compute.
Defined.


(** ** Restoration *)

Lemma restorable_spec now is_deleted deleted_at :
  restorable now is_deleted deleted_at = true
  ↔ is_deleted = true
    ∧ ∃ d, deleted_at = Some d ∧ now - d ≤ timedelta 7.
Proof.
  unfold restorable. split.
  - intros [Hdel Hwin]%andb_prop. split; [done|].
    destruct deleted_at as [d|]; [|done].
    exists d. split; [done|]. apply Z.leb_le in Hwin. lia.
  - intros [-> (d & -> & Hwin)]. cbn. apply Z.leb_le. lia.
Qed.

(** [restore_task] succeeds exactly on a deleted task whose deletion is at
    most seven days old, for its author or an administrator. *)
Lemma restore_task_succeeds_iff env db id u :
  is_return (run (TaskRoutes.restore_task env id u) db).1 = true
  ↔ ∃ t, tasks db !! id = Some t
         ∧ Task.is_deleted t = true
         ∧ (∃ d, Task.deleted_at t = Some d ∧ utcnow env - d ≤ timedelta 7)
         ∧ TaskRoutes.lacks_rights u t = false.
Proof.
  rewrite run_restore_task. split.
  - destruct (tasks db !! id) as [t|]; [|done].
    destruct (restorable _ _ _) eqn:Hres; [|done].
    destruct (TaskRoutes.lacks_rights u t) eqn:Hr; [done|].
    intros _. exists t. apply restorable_spec in Hres as [? ?]. done.
  - intros (t & -> & Hdel & Hwin & ->).
    by rewrite (proj2 (restorable_spec _ _ _) (conj Hdel Hwin)).
Qed.

Lemma restore_article_succeeds_iff env db id u :
  is_return (run (ArticleRoutes.restore_article env id u) db).1 = true
  ↔ ∃ a, articles db !! id = Some a
         ∧ Article.is_deleted a = true
         ∧ (∃ d, Article.deleted_at a = Some d
                 ∧ utcnow env - d ≤ timedelta 7)
         ∧ ArticleRoutes.lacks_rights u a = false.
Proof.
  rewrite run_restore_article. split.
  - destruct (articles db !! id) as [a|]; [|done].
    destruct (restorable _ _ _) eqn:Hres; [|done].
    destruct (ArticleRoutes.lacks_rights u a) eqn:Hr; [done|].
    intros _. exists a. apply restorable_spec in Hres as [? ?]. done.
  - intros (a & -> & Hdel & Hwin & ->).
    by rewrite (proj2 (restorable_spec _ _ _) (conj Hdel Hwin)).
Qed.

(** What a successful restoration commits. *)
Lemma restore_task_commits env db id u t :
  tasks db !! id = Some t →
  restorable (utcnow env) (Task.is_deleted t) (Task.deleted_at t) = true →
  TaskRoutes.lacks_rights u t = false →
  ∃ t' db',
    run (TaskRoutes.restore_task env id u) db = (Return t', db')
    ∧ tasks db' !! id = Some t'
    ∧ Task.is_deleted t' = false ∧ Task.deleted_at t' = None
    ∧ task_history db'
      = task_history db
        ++ [task_event "TASK_RESTORED" id (User.user_id u) None
              (TaskRoutes.title_description t)].
Proof.
  intros Ht Hres Hr. rewrite run_restore_task, Ht, Hres, Hr.
  do 2 eexists. split; [reflexivity|]. cbn.
  by rewrite lookup_insert_eq.
Qed.

(** Every refusal of [restore_task] and [restore_article] reaches the caller
    with status 500 and leaves the store as it was. *)
Lemma restore_task_refused env db id u :
  is_return (run (TaskRoutes.restore_task env id u) db).1 = false →
  ∃ e, run (TaskRoutes.restore_task env id u) db = (Raise e, db)
       ∧ status_code e = 500.
Proof.
  rewrite run_restore_task.
  destruct (tasks db !! id) as [t|]; [|by eexists].
  destruct (restorable _ _ _); [|by eexists].
  destruct (TaskRoutes.lacks_rights u t); [by eexists|done].
Qed.

Lemma restore_article_refused env db id u :
  is_return (run (ArticleRoutes.restore_article env id u) db).1 = false →
  ∃ e, run (ArticleRoutes.restore_article env id u) db = (Raise e, db)
       ∧ status_code e = 500.
Proof.
  rewrite run_restore_article.
  destruct (articles db !! id) as [a|]; [|by eexists].
  destruct (restorable _ _ _); [|by eexists].
  destruct (ArticleRoutes.lacks_rights u a); [by eexists|done].
Qed.

(** C4 (the code departs from the claim).  The author asks to restore a task
    that does not exist, one that is not deleted, and one deleted eight days
    ago.  The three requests get the same response, and the store is
    untouched, but the response is a 500: the 404 raised in the [try] block
    is caught by [except Exception] and raised again as an internal error.
    The same holds for articles.  A task deleted exactly seven days ago is
    restored. *)
Theorem C4_restore_refusals_are_500 :
  let refusal :=
    internal_error "Ошибка при восстановлении задачи: " task_not_restorable in
  let refusal' :=
    internal_error "Ошибка при восстановлении статьи: "
      article_not_restorable in
  run (TaskRoutes.restore_task env0 7 author) db0 = (Raise refusal, db0)
  ∧ run (TaskRoutes.restore_task env0 1 author) db0 = (Raise refusal, db0)
  ∧ run (TaskRoutes.restore_task env0 1 author) (db_deleted (92 * day))
    = (Raise refusal, db_deleted (92 * day))
  ∧ status_code refusal = 500
  ∧ error_kind refusal = InternalError
  ∧ run (ArticleRoutes.restore_article env0 7 author) db0
    = (Raise refusal', db0)
  ∧ run (ArticleRoutes.restore_article env0 1 author) db0
    = (Raise refusal', db0)
  ∧ run (ArticleRoutes.restore_article env0 1 author)
      (db_deleted (92 * day))
    = (Raise refusal', db_deleted (92 * day))
  ∧ error_kind refusal' = InternalError
  ∧ is_return
      (run (TaskRoutes.restore_task env0 1 author) (db_deleted (93 * day))).1
    = true.
Proof.
  cbv zeta. rewrite !run_restore_task, !run_restore_article.
  repeat split; reflexivity.
Qed.

(** ** Deletion *)

(** What [delete_task] commits for an active task and an actor with rights:
    the flag and the timestamp together, and one [TASK_DELETED] record with
    the title and the description. *)
Lemma delete_task_commits env db id u t :
  tasks db !! id = Some t →
  Task.is_deleted t = false →
  TaskRoutes.lacks_rights u t = false →
  ∃ msg t' db',
    run (TaskRoutes.delete_task env id u) db = (Return msg, db')
    ∧ tasks db' !! id = Some t'
    ∧ Task.is_deleted t' = true
    ∧ Task.deleted_at t' = Some (utcnow env)
    ∧ task_history db'
      = task_history db
        ++ [task_event "TASK_DELETED" id (User.user_id u) None
              [("title"%string, JStr (Task.title t));
               ("description"%string,
                json_of_option_str (Task.description t))]].
Proof.
  intros Ht Hd Hr. rewrite run_delete_task, Ht, Hd, Hr.
  do 3 eexists. split; [reflexivity|]. cbn.
  by rewrite lookup_insert_eq.
Qed.

Lemma delete_article_commits env db id u a :
  articles db !! id = Some a →
  Article.is_deleted a = false →
  ArticleRoutes.lacks_rights u a = false →
  ∃ msg a' db',
    run (ArticleRoutes.delete_article env id u) db = (Return msg, db')
    ∧ articles db' !! id = Some a'
    ∧ Article.is_deleted a' = true
    ∧ Article.deleted_at a' = Some (utcnow env)
    ∧ article_history db'
      = article_history db
        ++ [article_event "DELETE" id (User.user_id u)
              (Some (Article.title a)) None (Some (Article.content a)) None].
Proof.
  intros Ha Hd Hr. rewrite run_delete_article, Ha, Hd, Hr.
  do 3 eexists. split; [reflexivity|]. cbn.
  by rewrite lookup_insert_eq.
Qed.

(** A deleted or absent task or article is refused without any change, and
    the refusal reaches the caller with status 500. *)
Lemma delete_task_refused env db id u :
  from_option Task.is_deleted true (tasks db !! id) = true →
  run (TaskRoutes.delete_task env id u) db
  = (Raise (internal_error "Ошибка при удалении задачи: " task_not_found), db).
Proof.
  rewrite run_delete_task. destruct (tasks db !! id) as [t|]; [|done].
  cbn. by intros ->.
Qed.

Lemma delete_article_refused env db id u :
  from_option Article.is_deleted true (articles db !! id) = true →
  run (ArticleRoutes.delete_article env id u) db
  = (Raise (internal_error "Ошибка при удалении статьи: " article_not_found),
     db).
Proof.
  rewrite run_delete_article. destruct (articles db !! id) as [a|]; [|done].
  cbn. by intros ->.
Qed.

(** C6 (the code departs from the claim).  The author deletes a task that is
    already deleted, and a task that does not exist: nothing changes, but
    the response is a 500 and not a 404, the [HTTPException] of the [try]
    block being caught by [except Exception].  The same holds for articles.
    Deleting the active task sets the flag and the timestamp and appends one
    [TASK_DELETED] record. *)
Theorem C6_delete_refusals_are_500 :
  let refusal :=
    internal_error "Ошибка при удалении задачи: " task_not_found in
  let refusal' :=
    internal_error "Ошибка при удалении статьи: " article_not_found in
  run (TaskRoutes.delete_task env0 1 author) (db_deleted (99 * day))
  = (Raise refusal, db_deleted (99 * day))
  ∧ run (TaskRoutes.delete_task env0 7 author) db0 = (Raise refusal, db0)
  ∧ status_code refusal = 500
  ∧ error_kind refusal = InternalError
  ∧ run (ArticleRoutes.delete_article env0 1 author) (db_deleted (99 * day))
    = (Raise refusal', db_deleted (99 * day))
  ∧ run (ArticleRoutes.delete_article env0 7 author) db0
    = (Raise refusal', db0)
  ∧ error_kind refusal' = InternalError
  ∧ ∃ msg db',
      run (TaskRoutes.delete_task env0 1 author) db0 = (Return msg, db')
      ∧ (Task.is_deleted <$> tasks db' !! 1) = Some true
      ∧ (Task.deleted_at <$> tasks db' !! 1) = Some (Some (100 * day))
      ∧ task_history db'
        = task_history db0
          ++ [task_event "TASK_DELETED" 1 10 None
                [("title"%string, JStr "Fix pump");
                 ("description"%string, JStr "Hall 2")]].
Proof.
  cbv zeta. rewrite !run_delete_task, !run_delete_article.
  repeat split; try reflexivity.
  do 2 eexists. split; [reflexivity|]. by vm_compute.
Qed.


(** ** The invariant of soft deletion *)

Lemma task_after_soft_delete env id title description assignee_id due_date
    status priority images t :
  Task.is_deleted
    (task_after env id title description assignee_id due_date status priority
       images t) = Task.is_deleted t
  ∧ Task.deleted_at
      (task_after env id title description assignee_id due_date status
         priority images t) = Task.deleted_at t.
Proof.
  unfold task_after.
  destruct title, description, assignee_id, due_date, status, priority,
    (nonempty images); cbn; try done;
    by destruct (Task.image_paths t) as [[|??]|].
Qed.

Lemma article_after_soft_delete title content a :
  Article.is_deleted (article_after title content a) = Article.is_deleted a
  ∧ Article.deleted_at (article_after title content a) = Article.deleted_at a.
Proof.
  unfold article_after, apply_opt.
  destruct title, content; cbn;
    repeat match goal with |- context [if ?b then _ else _] => destruct b end;
    done.
Qed.

Lemma consistent_insert_task db id t :
  db_consistent db →
  soft_delete_consistent (Task.is_deleted t) (Task.deleted_at t) →
  ∀ f, db_consistent (with_task_history f (with_tasks <[id := t]> db)).
Proof.
  intros [Htasks Harticles] Ht f. split; [|exact Harticles].
  by apply map_Forall_insert_2.
Qed.

Lemma consistent_insert_article db id a :
  db_consistent db →
  soft_delete_consistent (Article.is_deleted a) (Article.deleted_at a) →
  ∀ f g, db_consistent
           (with_article_history f
              (with_article_images g (with_articles <[id := a]> db))).
Proof.
  intros [Htasks Harticles] Ha f g. split; [exact Htasks|].
  by apply map_Forall_insert_2.
Qed.

Lemma consistent_insert_article' db id a :
  db_consistent db →
  soft_delete_consistent (Article.is_deleted a) (Article.deleted_at a) →
  ∀ f, db_consistent (with_article_history f (with_articles <[id := a]> db)).
Proof.
  intros [Htasks Harticles] Ha f. split; [exact Htasks|].
  by apply map_Forall_insert_2.
Qed.

Lemma consistent_task_lookup db id t :
  db_consistent db → tasks db !! id = Some t →
  soft_delete_consistent (Task.is_deleted t) (Task.deleted_at t).
Proof. intros [H _] Ht. exact (H id t Ht). Qed.

Lemma consistent_article_lookup db id a :
  db_consistent db → articles db !! id = Some a →
  soft_delete_consistent (Article.is_deleted a) (Article.deleted_at a).
Proof. intros [_ H] Ha. exact (H id a Ha). Qed.

Lemma empty_db_consistent : db_consistent empty_db.
Proof. split; apply map_Forall_empty. Qed.

(** Every lifecycle request, whoever sends it and whatever it answers, takes
    a store in which each task and each article has [is_deleted] set exactly
    when [deleted_at] is not null to a store of the same kind. *)
Lemma handle_keeps_consistent env u request db :
  db_consistent db → db_consistent (handle env u request db).2.
Proof.
  intros Hdb.
  destruct request; cbn [handle response snd].
  - rewrite run_create_task.
    destruct (assignee_active db assignee_id); [|done].
    cbn. by apply consistent_insert_task.
  - rewrite run_update_task.
    destruct (tasks db !! task_id) as [t|] eqn:Ht; [|done].
    destruct (from_option _ _ _); [|done].
    cbn. apply consistent_insert_task; [done|].
    destruct (task_after_soft_delete env task_id title description
                assignee_id due_date status priority images t) as [-> ->].
    by eapply consistent_task_lookup.
  - rewrite run_delete_task.
    destruct (tasks db !! task_id) as [t|] eqn:Ht; [|done].
    destruct (Task.is_deleted t); [done|].
    destruct (TaskRoutes.lacks_rights u t); [done|].
    cbn. by apply consistent_insert_task.
  - rewrite run_reassign_task.
    destruct (tasks db !! task_id) as [t|] eqn:Ht; [|done].
    destruct (Task.is_deleted t) eqn:Hd; [done|].
    destruct (TaskRoutes.lacks_rights u t); [done|].
    destruct (assignee_active _ _); [|done].
    cbn. apply consistent_insert_task; [done|].
    exact (consistent_task_lookup db task_id t Hdb Ht).
  - rewrite run_restore_task.
    destruct (tasks db !! task_id) as [t|] eqn:Ht; [|done].
    destruct (restorable _ _ _); [|done].
    destruct (TaskRoutes.lacks_rights u t); [done|].
    cbn. by apply consistent_insert_task.
  - rewrite run_create_article.
    destruct (forallb (allowed env) images); [|done].
    cbn. by apply consistent_insert_article.
  - rewrite run_update_article.
    destruct (articles db !! article_id) as [a|] eqn:Ha; [|done].
    destruct (Article.is_deleted a); [done|].
    destruct (ArticleRoutes.lacks_rights u a); [done|].
    destruct (forallb (allowed env) images); [|done].
    cbn. apply consistent_insert_article; [done|].
    destruct (article_after_soft_delete title content a) as [-> ->].
    by eapply consistent_article_lookup.
  - rewrite run_delete_article.
    destruct (articles db !! article_id) as [a|] eqn:Ha; [|done].
    destruct (Article.is_deleted a); [done|].
    destruct (ArticleRoutes.lacks_rights u a); [done|].
    cbn. by apply consistent_insert_article'.
  - rewrite run_restore_article.
    destruct (articles db !! article_id) as [a|] eqn:Ha; [|done].
    destruct (restorable _ _ _); [|done].
    destruct (ArticleRoutes.lacks_rights u a); [done|].
    cbn. by apply consistent_insert_article'.
Qed.

Lemma restore_article_commits env db id u a :
  articles db !! id = Some a →
  restorable (utcnow env) (Article.is_deleted a) (Article.deleted_at a)
  = true →
  ArticleRoutes.lacks_rights u a = false →
  ∃ a' db',
    run (ArticleRoutes.restore_article env id u) db = (Return a', db')
    ∧ articles db' !! id = Some a'
    ∧ Article.is_deleted a' = false ∧ Article.deleted_at a' = None
    ∧ article_history db'
      = article_history db
        ++ [article_event "RESTORE" id (User.user_id u) None
              (Some (Article.title a)) None (Some (Article.content a))].
Proof.
  intros Ha Hres Hr. rewrite run_restore_article, Ha, Hres, Hr.
  do 2 eexists. split; [reflexivity|]. cbn.
  by rewrite lookup_insert_eq.
Qed.

(** C5.  The flag and the timestamp go together.
    - Every lifecycle request (create, update, delete, restore, reassign; of
      a task or an article), whoever sends it and whatever it answers, takes
      a store in which every entity has [is_deleted = true] exactly when
      [deleted_at] is not null to a store of the same kind.
    - A deletion of an active entity by its author or an administrator
      stores the entity with the flag set and the timestamp at the clock of
      the request.
    - A restoration within the window stores the entity with the flag clear
      and the timestamp null.
    - A creation stores, under a key that was free, an entity with the flag
      clear and the timestamp null. *)
Theorem C5_soft_delete_invariant env u db :
  (db_consistent db →
   ∀ request, db_consistent (handle env u request db).2)
  ∧ (∀ id t,
       tasks db !! id = Some t → Task.is_deleted t = false →
       TaskRoutes.lacks_rights u t = false →
       ∃ t', tasks (run (TaskRoutes.delete_task env id u) db).2 !! id
             = Some t'
             ∧ Task.is_deleted t' = true
             ∧ Task.deleted_at t' = Some (utcnow env))
  ∧ (∀ id a,
       articles db !! id = Some a → Article.is_deleted a = false →
       ArticleRoutes.lacks_rights u a = false →
       ∃ a', articles (run (ArticleRoutes.delete_article env id u) db).2 !! id
             = Some a'
             ∧ Article.is_deleted a' = true
             ∧ Article.deleted_at a' = Some (utcnow env))
  ∧ (∀ id t,
       tasks db !! id = Some t →
       restorable (utcnow env) (Task.is_deleted t) (Task.deleted_at t)
       = true →
       TaskRoutes.lacks_rights u t = false →
       ∃ t', tasks (run (TaskRoutes.restore_task env id u) db).2 !! id
             = Some t'
             ∧ Task.is_deleted t' = false ∧ Task.deleted_at t' = None)
  ∧ (∀ id a,
       articles db !! id = Some a →
       restorable (utcnow env) (Article.is_deleted a) (Article.deleted_at a)
       = true →
       ArticleRoutes.lacks_rights u a = false →
       ∃ a', articles (run (ArticleRoutes.restore_article env id u) db).2
               !! id = Some a'
             ∧ Article.is_deleted a' = false ∧ Article.deleted_at a' = None)
  ∧ (∀ title description assignee_id due_date status priority images,
       assignee_active db assignee_id = true →
       ∃ id t,
         tasks db !! id = None
         ∧ tasks (run (TaskRoutes.create_task env title description
                         assignee_id due_date status priority images u)
                    db).2 !! id = Some t
         ∧ Task.is_deleted t = false ∧ Task.deleted_at t = None)
  ∧ (∀ title content images,
       forallb (allowed env) images = true →
       ∃ id a,
         articles db !! id = None
         ∧ articles (run (ArticleRoutes.create_article env title content
                            images u) db).2 !! id = Some a
         ∧ Article.is_deleted a = false ∧ Article.deleted_at a = None).
Proof.
  split; [intros Hdb request; by apply handle_keeps_consistent|].
  split.
  { intros id t Ht Hd Hr.
    destruct (delete_task_commits env db id u t Ht Hd Hr)
      as (msg & t' & db' & -> & Hrow & Hflag & Hat & _). by exists t'. }
  split.
  { intros id a Ha Hd Hr.
    destruct (delete_article_commits env db id u a Ha Hd Hr)
      as (msg & a' & db' & -> & Hrow & Hflag & Hat & _). by exists a'. }
  split.
  { intros id t Ht Hres Hr.
    destruct (restore_task_commits env db id u t Ht Hres Hr)
      as (t' & db' & -> & Hrow & Hflag & Hat & _). by exists t'. }
  split.
  { intros id a Ha Hres Hr.
    destruct (restore_article_commits env db id u a Ha Hres Hr)
      as (a' & db' & -> & Hrow & Hflag & Hat & _). by exists a'. }
  split.
  { intros title description assignee_id due_date status priority images Has.
    destruct (create_task_commits env db u title description assignee_id
                due_date status priority images Has)
      as (id & t & db' & -> & Hfree & Hrow & _ & Hflag & Hat & _).
    by exists id, t. }
  intros title content images Hall.
  destruct (create_article_commits env db u title content images Hall)
    as (id & a & db' & -> & Hfree & Hrow & _ & Hflag & Hat & _).
  by exists id, a.
Qed.

Lemma C5_soft_delete_invariant_witness :
  db_consistent (handle env0 author (DeleteTask 1) db0).2
  ∧ ∃ t', tasks (run (TaskRoutes.delete_task env0 1 author) db0).2 !! 1
          = Some t'
          ∧ Task.is_deleted t' = true
          ∧ Task.deleted_at t' = Some (utcnow env0).
Proof.
  destruct (C5_soft_delete_invariant env0 author db0)
    as (Hinv & Hdelete & _).
  split.
  - apply Hinv. split; apply map_Forall_singleton; split; done.
  - apply (Hdelete 1 pump); reflexivity.
Defined.

(** ** All or nothing *)










(** ** Images *)

Lemma task_file_names_length env id images : ∀ i,
  length (task_file_names env id i images) = length images.
Proof. induction images as [|? ? IH]; intros i; cbn; [done|]. by rewrite IH. Qed.

Lemma image_rows_length env id images : ∀ i,
  length (image_rows env id i images) = length images.
Proof. induction images as [|? ? IH]; intros i; cbn; [done|]. by rewrite IH. Qed.

Lemma count_image_added id user_id names :
  count_task_events "IMAGE_ADDED" (image_added id user_id <$> names)
  = length names.
Proof.
  unfold count_task_events.
  induction names as [|n names IH]; [done|].
  rewrite fmap_cons, filter_cons_True; [|done]. cbn. by rewrite IH.
Qed.

(** C8, counterexample.  The author attaches one image to the article: the
    image is stored as a row of [article_images], the request appends one
    [UPDATE] record, and no [IMAGE_ADDED] record exists. *)
Lemma C8_article_image_leaves_no_image_added :
  ∃ a' db',
    run (ArticleRoutes.update_article env0 1 None None
           [{| filename := "valve.png" |}] author) db0 = (Return a', db')
    ∧ article_images db'
      = [{| ArticleImage.article_id := 1;
            ArticleImage.image_path := "article_c0ffee0.png" |}]
    ∧ article_history db'
      = article_history db0
        ++ [article_event "UPDATE" 1 10 None None None None]
    ∧ count_article_events "IMAGE_ADDED" (article_history db') = 0%nat
    ∧ count_article_events "IMAGE_ADDED" (article_history db')
      ≠ length [{| filename := "valve.png" |}].
Proof.
  rewrite run_update_article. do 2 eexists.
  split; [reflexivity|]. by vm_compute.
Qed.

(** C8, as amended.  A task request that attaches [n] files and is accepted
    appends [n] [IMAGE_ADDED] records, one per file and in their order,
    before its own [TASK_UPDATED] or [TASK_CREATED] record; the names of the
    files become the image list of the task when the task is new, or when
    its image list was null or empty.  An article request that attaches [n]
    accepted files appends [n] rows to [article_images] and appends only its
    own [UPDATE] or [CREATE] record. *)
Theorem C8_images_recorded env db u images :
  nonempty images = true →
  (∀ task_id title description assignee_id due_date status priority t,
     tasks db !! task_id = Some t →
     from_option (assignee_active db) true assignee_id = true →
     let r := run (TaskRoutes.update_task env task_id title description
                     assignee_id due_date status priority images u) db in
     let names := task_file_names env task_id 0 images in
     length names = length images
     ∧ count_task_events "IMAGE_ADDED"
         (image_added task_id (User.user_id u) <$> names) = length images
     ∧ (∃ record,
          task_history r.2
          = task_history db
            ++ (image_added task_id (User.user_id u) <$> names) ++ [record]
          ∧ TaskHistory.event record = "TASK_UPDATED"%string)
     ∧ (current_paths t = [] →
        (Task.image_paths <$> tasks r.2 !! task_id) = Some (Some names)))
  ∧ (∀ title description assignee_id due_date status priority,
       assignee_active db assignee_id = true →
       let r := run (TaskRoutes.create_task env title description assignee_id
                       due_date status priority images u) db in
       let new_id := next_id (tasks db) in
       let names := task_file_names env new_id 0 images in
       length names = length images
       ∧ (Task.image_paths <$> tasks r.2 !! new_id) = Some (Some names)
       ∧ ∃ record,
           task_history r.2
           = task_history db
             ++ (image_added new_id (User.user_id u) <$> names) ++ [record]
           ∧ TaskHistory.event record = "TASK_CREATED"%string)
  ∧ (forallb (allowed env) images = true →
     (∀ article_id title content a,
        articles db !! article_id = Some a →
        Article.is_deleted a = false →
        ArticleRoutes.lacks_rights u a = false →
        let r := run (ArticleRoutes.update_article env article_id title
                        content images u) db in
        let rows := image_rows env article_id 0 images in
        length rows = length images
        ∧ article_images r.2 = article_images db ++ rows
        ∧ ∃ record,
            article_history r.2 = article_history db ++ [record]
            ∧ ArticleHistory.event record = "UPDATE"%string)
     ∧ (∀ title content,
          let r := run (ArticleRoutes.create_article env title content images
                          u) db in
          let rows := image_rows env (next_id (articles db)) 0 images in
          length rows = length images
          ∧ article_images r.2 = article_images db ++ rows
          ∧ ∃ record,
              article_history r.2 = article_history db ++ [record]
              ∧ ArticleHistory.event record = "CREATE"%string)).
Proof.
  intros Hne. split; [|split].
  - intros task_id title description assignee_id due_date status priority t
      Ht Has r names. subst r names.
    rewrite run_update_task, Ht, Has. cbn [fst snd].
    split; [apply task_file_names_length|].
    split; [by rewrite count_image_added, task_file_names_length|].
    split.
    + cbn. unfold update_task_records. rewrite Hne.
      eexists. split; reflexivity.
    + intros Hcur. cbn. rewrite lookup_insert_eq. cbn.
      unfold task_after. rewrite Hne.
      rewrite <- (current_paths_fields env title description assignee_id
                    due_date status priority t) in Hcur.
      unfold current_paths in Hcur.
      destruct (Task.image_paths _) as [[|p ps]|]; done.
  - intros title description assignee_id due_date status priority Has
      r new_id names. subst r new_id names.
    rewrite run_create_task, Has. cbn [fst snd].
    split; [apply task_file_names_length|].
    cbn. rewrite lookup_insert_eq. cbn. split; [done|].
    eexists. split; reflexivity.
  - intros Hall. split.
    + intros article_id title content a Ha Hd Hr r rows. subst r rows.
      rewrite run_update_article, Ha, Hd, Hr, Hall. cbn [fst snd].
      split; [apply image_rows_length|].
      cbn. unfold update_article_records. rewrite Hne, !orb_true_r.
      split; [done|]. eexists. split; reflexivity.
    + intros title content r rows. subst r rows.
      rewrite run_create_article, Hall. cbn [fst snd].
      split; [apply image_rows_length|]. cbn. split; [done|].
      eexists. split; reflexivity.
Qed.

Lemma C8_images_recorded_witness :
  (Task.image_paths
     <$> tasks
           (run (TaskRoutes.update_task env0 1 None None None None None None
                   [{| filename := "leak.JPG" |};
                    {| filename := "pump.v2.png" |}] author) db0).2 !! 1)
  = Some (Some (task_file_names env0 1 0
                  [{| filename := "leak.JPG" |};
                   {| filename := "pump.v2.png" |}])).
Proof.
  destruct (C8_images_recorded env0 db0 author
              [{| filename := "leak.JPG" |}; {| filename := "pump.v2.png" |}]
              eq_refl) as [Hupdate _].
  apply (Hupdate 1 None None None None None None pump); reflexivity.
Defined.

(** ** Updates of deleted entities *)

(** What [update_task] stores of the fields of the request. *)
Lemma task_after_fields env id title description assignee_id due_date status
    priority images t :
  let t' := task_after env id title description assignee_id due_date status
              priority images t in
  from_option (λ v, Task.title t' = v) True title
  ∧ from_option (λ v, Task.description t' = Some v) True description
  ∧ from_option (λ v, Task.assignee_id t' = v) True assignee_id
  ∧ from_option
      (λ v, Task.due_date t'
            = Some {| wall := wall v
                              - default (local_utcoffset env) (utcoffset v);
                      utcoffset := None |}) True due_date
  ∧ from_option (λ v, Task.status t' = v) True status
  ∧ from_option (λ v, Task.priority t' = v) True priority.
Proof.
  unfold task_after.
  destruct title, description, assignee_id, due_date, status, priority,
    (nonempty images); cbn; try done;
    by destruct (Task.image_paths t) as [[|??]|].
Qed.

(** C9, counterexample.  A soft-deleted task is updated with an assignee who
    does not exist: [update_task] answers the 404 of [verify_assignee], a
    refusal of kind [NotFound]. *)
Lemma C9_unknown_assignee_is_not_found :
  (Task.is_deleted <$> tasks (db_deleted (99 * day)) !! 1) = Some true
  ∧ run (TaskRoutes.update_task env0 1 (Some "Fix pump today"%string) None
           (Some 99) None None None [] author) (db_deleted (99 * day))
    = (Raise assignee_not_found, db_deleted (99 * day))
  ∧ error_kind assignee_not_found = NotFound.
Proof.
  split; [reflexivity|]. split; [|reflexivity].
  rewrite run_update_task. reflexivity.
Qed.

(** C9, as amended.  [update_task] looks the task up by its key alone.  On a
    soft-deleted task it never answers "Task not found"; it is refused only
    for an assignee who is absent or deleted, with the 404 of that check and
    nothing stored.  With no assignee in the request, or an active one, it
    succeeds: it stores and returns the task with the supplied fields
    applied, still deleted, and, when a field or an image is supplied,
    appends a [TASK_UPDATED] record as the last record.  [update_article]
    filters on [is_deleted]: on a soft-deleted article it is refused and
    nothing changes. *)
Theorem C9_update_reaches_deleted_task env db u :
  (∀ id t title description assignee_id due_date status priority images,
     tasks db !! id = Some t →
     Task.is_deleted t = true →
     let r := run (TaskRoutes.update_task env id title description
                     assignee_id due_date status priority images u) db in
     r.1 ≠ Raise {| status_code := 404; detail := "Task not found" |}
     ∧ (from_option (assignee_active db) true assignee_id = false →
        r = (Raise assignee_not_found, db))
     ∧ (from_option (assignee_active db) true assignee_id = true →
        ∃ t',
          r.1 = Return t'
          ∧ tasks r.2 !! id = Some t'
          ∧ Task.is_deleted t' = true
          ∧ Task.deleted_at t' = Task.deleted_at t
          ∧ (from_option (λ v, Task.title t' = v) True title
             ∧ from_option (λ v, Task.description t' = Some v) True
                 description
             ∧ from_option (λ v, Task.assignee_id t' = v) True assignee_id
             ∧ from_option
                 (λ v, Task.due_date t'
                       = Some {| wall := wall v
                                         - default (local_utcoffset env)
                                             (utcoffset v);
                                 utcoffset := None |}) True due_date
             ∧ from_option (λ v, Task.status t' = v) True status
             ∧ from_option (λ v, Task.priority t' = v) True priority)
          ∧ (supplied_fields title description assignee_id due_date status
               priority ≠ [] ∨ images ≠ [] →
             ∃ changes,
               last (task_history r.2)
               = Some (task_updated id (User.user_id u) changes))))
  ∧ (∀ id a title content images,
       articles db !! id = Some a →
       Article.is_deleted a = true →
       let r := run (ArticleRoutes.update_article env id title content images
                       u) db in
       is_return r.1 = false ∧ r.2 = db).
Proof.
  split.
  - intros id t title description assignee_id due_date status priority images
      Ht Hd r. subst r. rewrite run_update_task, Ht.
    destruct (from_option (assignee_active db) true assignee_id) eqn:Has;
      cbn [fst snd].
    2: { split; [done|]. split; [done|]. done. }
    split; [done|]. split; [done|]. intros _.
    eexists. split; [reflexivity|].
    split; [cbn; by rewrite lookup_insert_eq|].
    destruct (task_after_soft_delete env id title description assignee_id
                due_date status priority images t) as [-> ->].
    split; [done|]. split; [done|].
    split; [apply task_after_fields|].
    intros Hsup. cbn. unfold update_task_records. rewrite !app_assoc.
    destruct images as [|image rest]; cbn [nonempty].
    + destruct Hsup as [Hsup|Hsup]; [|done].
      destruct (supplied_fields _ _ _ _ _ _) eqn:Hs; [done|].
      cbn [nonempty]. eexists. by rewrite last_snoc.
    + eexists. by rewrite last_snoc.
  - intros id a title content images Ha Hd r. subst r.
    by rewrite run_update_article, Ha, Hd.
Qed.

Lemma C9_update_reaches_deleted_task_witness :
  ∃ t',
    (run (TaskRoutes.update_task env0 1 (Some "Fix pump today"%string) None
            None None None None [] stranger) (db_deleted (99 * day))).1
    = Return t'
    ∧ tasks (run (TaskRoutes.update_task env0 1
                    (Some "Fix pump today"%string) None None None None None
                    [] stranger) (db_deleted (99 * day))).2 !! 1 = Some t'
    ∧ Task.is_deleted t' = true
    ∧ Task.deleted_at t' = Some (99 * day)
    ∧ Task.title t' = "Fix pump today"%string.
Proof.
  destruct (C9_update_reaches_deleted_task env0 (db_deleted (99 * day))
              stranger) as [Htask _].
  destruct (Htask 1 (Task.set_deleted_at (Some (99 * day))
                       (Task.set_is_deleted true pump))
              (Some "Fix pump today"%string) None None None None None []
              eq_refl eq_refl)
    as (_ & _ & Hok).
  destruct (Hok eq_refl) as (t' & Hret & Hrow & Hdel & Hat & (Htitle & _) & _).
  exists t'. repeat split; done.
Defined.

(** C10.  An accepted article update that attaches images and changes
    neither the title nor the content appends exactly one [UPDATE] record,
    whose four value columns are null; the images become rows of
    [article_images], one per file. *)
Theorem C10_images_only_update env db u id a title content images :
  articles db !! id = Some a →
  Article.is_deleted a = false →
  ArticleRoutes.lacks_rights u a = false →
  nonempty images = true →
  forallb (allowed env) images = true →
  ArticleRoutes.differs title (Article.title a) = false →
  ArticleRoutes.differs content (Article.content a) = false →
  let r := run (ArticleRoutes.update_article env id title content images u)
             db in
  r.1 = Return a
  ∧ articles r.2 = articles db
  ∧ article_history r.2
    = article_history db
      ++ [{| ArticleHistory.article_id := id;
             ArticleHistory.user_id := User.user_id u;
             ArticleHistory.event := "UPDATE";
             ArticleHistory.old_title := None;
             ArticleHistory.new_title := None;
             ArticleHistory.old_content := None;
             ArticleHistory.new_content := None |}]
  ∧ article_images r.2 = article_images db ++ image_rows env id 0 images
  ∧ length (image_rows env id 0 images) = length images.
Proof.
  intros Ha Hd Hr Hne Hall Hti Hco r. subst r.
  rewrite run_update_article, Ha, Hd, Hr, Hall. cbn [fst snd].
  unfold article_after, update_article_records, article_updated.
  rewrite Hti. cbn zeta. rewrite Hco, Hne. cbn.
  rewrite (insert_id _ _ _ Ha).
  repeat split. apply image_rows_length.
Qed.

Lemma C10_images_only_update_witness :
  article_history
    (run (ArticleRoutes.update_article env0 1 (Some "Pump manual"%string) None
            [{| filename := "valve.png" |}; {| filename := "PUMP.JPEG" |}]
            author) db0).2
  = article_history db0
    ++ [{| ArticleHistory.article_id := 1;
           ArticleHistory.user_id := 10;
           ArticleHistory.event := "UPDATE";
           ArticleHistory.old_title := None;
           ArticleHistory.new_title := None;
           ArticleHistory.old_content := None;
           ArticleHistory.new_content := None |}].
Proof.
  apply (C10_images_only_update env0 db0 author 1 note
           (Some "Pump manual"%string) None
           [{| filename := "valve.png" |}; {| filename := "PUMP.JPEG" |}]);
    by vm_compute.
Defined.

(** The rollback at work: an update that names an unknown assignee has
    already changed the title in the open transaction when the lookup of the
    assignee fails; the session is dropped and the store keeps the old
    title. *)
Example update_task_failure_discards_pending :
  ∃ s,
    TaskRoutes.update_task env0 1 (Some "Fix pump today"%string) None (Some 99)
      None None None [] author {| committed := db0; pending := db0 |}
    = (Raise assignee_not_found, s)
    ∧ (Task.title <$> tasks (pending s) !! 1) = Some "Fix pump today"%string
    ∧ committed s = db0
    ∧ run (TaskRoutes.update_task env0 1 (Some "Fix pump today"%string) None
             (Some 99) None None None [] author) db0
      = (Raise assignee_not_found, db0).
Proof. eexists. split; [reflexivity|]. by vm_compute. Qed.

(** ** Reassignment *)

(** [reassign_task] on an active task, by its author or an administrator, to
    a user who exists and is not deleted: the assignee changes, nothing else
    in the row does, and one [TASK_REASSIGNED] record keeps the old and the
    new assignee and the comment of the request. *)
Theorem reassign_task_commits request id u db t :
  tasks db !! id = Some t →
  Task.is_deleted t = false →
  TaskRoutes.lacks_rights u t = false →
  assignee_active db (TaskRoutes.new_assignee_id request) = true →
  let t' := Task.set_assignee_id (TaskRoutes.new_assignee_id request) t in
  let r := run (TaskRoutes.reassign_task request id u) db in
  r.1 = Return t'
  ∧ tasks r.2 = <[id := t']> (tasks db)
  ∧ task_history r.2
    = task_history db
      ++ [{| TaskHistory.task_id := id;
             TaskHistory.user_id := User.user_id u;
             TaskHistory.event := "TASK_REASSIGNED";
             TaskHistory.comment := TaskRoutes.comment request;
             TaskHistory.changes :=
               Some [("assignee_id"%string,
                      JDict [("old"%string, JInt (Task.assignee_id t));
                             ("new"%string,
                              JInt (TaskRoutes.new_assignee_id request))])] |}]
  ∧ users r.2 = users db ∧ articles r.2 = articles db.
Proof.
  intros Ht Hd Hr Has t' r. subst r t'.
  by rewrite run_reassign_task, Ht, Hd, Hr, Has.
Qed.

Lemma reassign_task_commits_witness :
  (run (TaskRoutes.reassign_task
          {| TaskRoutes.new_assignee_id := 30;
             TaskRoutes.comment := Some "night shift"%string |} 1 author)
     db0).1
  = Return (Task.set_assignee_id 30 pump).
Proof.
  apply (reassign_task_commits
           {| TaskRoutes.new_assignee_id := 30;
              TaskRoutes.comment := Some "night shift"%string |}
           1 author db0 pump); by vm_compute.
Defined.

(** The refusals of [reassign_task], which has no [try] block: they reach
    the caller as they are raised.  It answers 404 exactly when the task is
    absent or deleted, 403 exactly when the task is active and the actor is
    neither its author nor an administrator, and the 404 of the assignee
    exactly when those two checks pass and the new assignee is absent or
    deleted.  A refusal leaves the store as it was. *)
Theorem reassign_task_refusals request id u db :
  let r := run (TaskRoutes.reassign_task request id u) db in
  (r.1 = Raise task_not_found
   ↔ from_option Task.is_deleted true (tasks db !! id) = true)
  ∧ (r.1 = Raise task_forbidden
     ↔ ∃ t, tasks db !! id = Some t ∧ Task.is_deleted t = false
            ∧ TaskRoutes.lacks_rights u t = true)
  ∧ (r.1 = Raise assignee_not_found
     ↔ ∃ t, tasks db !! id = Some t ∧ Task.is_deleted t = false
            ∧ TaskRoutes.lacks_rights u t = false
            ∧ assignee_active db (TaskRoutes.new_assignee_id request) = false)
  ∧ (is_return r.1 = false → r.2 = db)
  ∧ (error_kind task_not_found = NotFound
     ∧ error_kind task_forbidden = Forbidden
     ∧ error_kind assignee_not_found = NotFound).
Proof.
  cbv zeta. rewrite run_reassign_task.
  destruct (tasks db !! id) as [t|] eqn:Ht; cbn.
  2: { repeat split; try done; intros (t & ? & _); done. }
  destruct (Task.is_deleted t) eqn:Hd; cbn.
  { repeat split; try done; intros (t0 & [= <-] & ? & _); congruence. }
  destruct (TaskRoutes.lacks_rights u t) eqn:Hr; cbn.
  { repeat split; try done.
    - by exists t.
    - intros (t0 & [= <-] & ? & ? & _); congruence. }
  destruct (assignee_active db _) eqn:Has; cbn.
  - repeat split; try done.
    + intros (t0 & [= <-] & ? & ?); congruence.
    + intros (t0 & [= <-] & ? & ? & ?); congruence.
  - repeat split; try done.
    + intros (t0 & [= <-] & ? & ?); congruence.
    + by exists t.
Qed.

(** ** Delete and restore, composed *)

(** A task that is active (flag clear, no timestamp) is deleted and then
    restored, by actors with rights, the second request arriving [later]
    microseconds after the first.  The restoration succeeds exactly when
    [later] is at most seven days; it then gives back the row as it was,
    and the history has gained [TASK_DELETED] and [TASK_RESTORED], in that
    order, both with the title and description of the task. *)
Theorem delete_restore_task env env' id u u' db t :
  tasks db !! id = Some t →
  Task.is_deleted t = false →
  Task.deleted_at t = None →
  TaskRoutes.lacks_rights u t = false →
  TaskRoutes.lacks_rights u' t = false →
  let db1 := (run (TaskRoutes.delete_task env id u) db).2 in
  let r := run (TaskRoutes.restore_task env' id u') db1 in
  (is_return r.1 = true ↔ utcnow env' - utcnow env ≤ timedelta 7)
  ∧ (utcnow env' - utcnow env ≤ timedelta 7 →
     r.1 = Return t
     ∧ tasks r.2 = tasks db
     ∧ task_history r.2
       = task_history db
         ++ [task_event "TASK_DELETED" id (User.user_id u) None
               (TaskRoutes.title_description t);
             task_event "TASK_RESTORED" id (User.user_id u') None
               (TaskRoutes.title_description t)])
  ∧ (timedelta 7 < utcnow env' - utcnow env → r.2 = db1).
Proof.
  intros Ht Hd Hat Hr Hr' db1 r. subst r db1.
  rewrite run_delete_task, Ht, Hd, Hr. cbn [snd].
  rewrite run_restore_task. cbn [tasks with_task_history with_tasks].
  rewrite lookup_insert_eq.
  assert (Hl : TaskRoutes.lacks_rights u' (deleted_task env t) = false)
    by exact Hr'.
  rewrite Hl. cbn [Task.is_deleted Task.deleted_at deleted_task
                   Task.set_deleted_at Task.set_is_deleted restorable andb].
  destruct (Z.leb_spec (utcnow env' - timedelta 7) (utcnow env)) as [Hw|Hw].
  - split; [split; [intros _; lia|done]|]. split; [|intros; lia].
    intros _.
    assert (Hrt : restored_task (deleted_task env t) = t)
      by (destruct t; cbn in *; by subst).
    rewrite Hrt. cbn.
    by rewrite insert_insert_eq, (insert_id _ _ _ Ht), <- app_assoc.
  - split; [split; [done|intros; lia]|]. split; [intros; lia|done].
Qed.

Lemma delete_restore_task_witness :
  tasks
    (run (TaskRoutes.restore_task
            {| utcnow := 107 * day; local_utcoffset := 0;
               rand_hex := rand_hex env0;
              str_lower := ascii_lower |} 1 admin)
       (run (TaskRoutes.delete_task env0 1 author) db0).2).2
  = tasks db0.
Proof.
  apply (delete_restore_task env0
           {| utcnow := 107 * day; local_utcoffset := 0;
              rand_hex := rand_hex env0;
              str_lower := ascii_lower |} 1 author admin db0 pump);
    by vm_compute.
Defined.

(** The same for an article. *)
Theorem delete_restore_article env env' id u u' db a :
  articles db !! id = Some a →
  Article.is_deleted a = false →
  Article.deleted_at a = None →
  ArticleRoutes.lacks_rights u a = false →
  ArticleRoutes.lacks_rights u' a = false →
  let db1 := (run (ArticleRoutes.delete_article env id u) db).2 in
  let r := run (ArticleRoutes.restore_article env' id u') db1 in
  (is_return r.1 = true ↔ utcnow env' - utcnow env ≤ timedelta 7)
  ∧ (utcnow env' - utcnow env ≤ timedelta 7 →
     r.1 = Return a
     ∧ articles r.2 = articles db
     ∧ article_history r.2
       = article_history db
         ++ [article_event "DELETE" id (User.user_id u)
               (Some (Article.title a)) None (Some (Article.content a)) None;
             article_event "RESTORE" id (User.user_id u')
               None (Some (Article.title a)) None (Some (Article.content a))])
  ∧ (timedelta 7 < utcnow env' - utcnow env → r.2 = db1).
Proof.
  intros Ha Hd Hat Hr Hr' db1 r. subst r db1.
  rewrite run_delete_article, Ha, Hd, Hr. cbn [snd].
  rewrite run_restore_article.
  cbn [articles with_article_history with_articles].
  rewrite lookup_insert_eq.
  assert (Hl : ArticleRoutes.lacks_rights u' (deleted_article env a) = false)
    by exact Hr'.
  rewrite Hl. cbn [Article.is_deleted Article.deleted_at deleted_article
                   Article.set_deleted_at Article.set_is_deleted restorable
                   andb].
  destruct (Z.leb_spec (utcnow env' - timedelta 7) (utcnow env)) as [Hw|Hw].
  - split; [split; [intros _; lia|done]|]. split; [|intros; lia].
    intros _.
    assert (Hrt : restored_article (deleted_article env a) = a)
      by (destruct a; cbn in *; by subst).
    rewrite Hrt. cbn.
    by rewrite insert_insert_eq, (insert_id _ _ _ Ha), <- app_assoc.
  - split; [split; [done|intros; lia]|]. split; [intros; lia|done].
Qed.

Lemma delete_restore_article_witness :
  articles
    (run (ArticleRoutes.restore_article
            {| utcnow := 107 * day; local_utcoffset := 0;
               rand_hex := rand_hex env0;
              str_lower := ascii_lower |} 1 admin)
       (run (ArticleRoutes.delete_article env0 1 author) db0).2).2
  = articles db0.
Proof.
  apply (delete_restore_article env0
           {| utcnow := 107 * day; local_utcoffset := 0;
              rand_hex := rand_hex env0;
              str_lower := ascii_lower |} 1 author admin db0 note);
    by vm_compute.
Defined.

(** Once a task is deleted, deleting it again, at any time and by anyone,
    is refused and changes nothing; neither does a reassignment, while an
    update still goes through (the lookup of [update_task] does not look at
    the flag). *)
Theorem deleted_task_is_closed env env' id u u' db request title :
  is_return (run (TaskRoutes.delete_task env id u) db).1 = true →
  let db1 := (run (TaskRoutes.delete_task env id u) db).2 in
  run (TaskRoutes.delete_task env' id u') db1
  = (Raise (internal_error "Ошибка при удалении задачи: " task_not_found),
     db1)
  ∧ run (TaskRoutes.reassign_task request id u') db1
    = (Raise task_not_found, db1)
  ∧ is_return
      (run (TaskRoutes.update_task env' id (Some title) None None None None
              None [] u') db1).1 = true.
Proof.
  rewrite run_delete_task.
  destruct (tasks db !! id) as [t|] eqn:Ht; [|done].
  destruct (Task.is_deleted t) eqn:Hd; [done|].
  destruct (TaskRoutes.lacks_rights u t) eqn:Hr; [done|].
  intros _ db1. subst db1. cbn [snd].
  rewrite run_delete_task, run_reassign_task, run_update_task.
  cbn [tasks with_task_history with_tasks].
  by rewrite lookup_insert_eq.
Qed.

Lemma deleted_task_is_closed_witness :
  run (TaskRoutes.delete_task env0 1 admin)
    (run (TaskRoutes.delete_task env0 1 author) db0).2
  = (Raise (internal_error "Ошибка при удалении задачи: " task_not_found),
     (run (TaskRoutes.delete_task env0 1 author) db0).2).
Proof.
  apply (deleted_task_is_closed env0 env0 1 author admin db0
           {| TaskRoutes.new_assignee_id := 30; TaskRoutes.comment := None |}
           "Fix pump"%string).
  by vm_compute.
Defined.

(** ** What no request does *)

(** The ownership gate.  A user who is neither the author of a task nor an
    administrator cannot delete, restore or reassign it, and one who is
    neither the author of an article nor an administrator cannot update,
    delete or restore it: each of these requests is answered with an error
    and leaves the store as it was.  (The update of a task is not on the
    list: it has no such check.) *)
Theorem rights_gate env u db :
  (∀ id t request r,
     tasks db !! id = Some t →
     TaskRoutes.lacks_rights u t = true →
     r ∈ [DeleteTask id; RestoreTask id; ReassignTask request id] →
     is_Some (handle env u r db).1 ∧ (handle env u r db).2 = db)
  ∧ (∀ id a title content images r,
       articles db !! id = Some a →
       ArticleRoutes.lacks_rights u a = true →
       r ∈ [UpdateArticle id title content images; DeleteArticle id;
            RestoreArticle id] →
       is_Some (handle env u r db).1 ∧ (handle env u r db).2 = db).
Proof.
  split.
  - intros id t request r Ht Hr Hin.
    repeat (apply elem_of_cons in Hin as [->|Hin]);
      [| | |by apply elem_of_nil in Hin];
      cbn [handle]; unfold response.
    + rewrite run_delete_task, Ht, Hr. by destruct (Task.is_deleted t).
    + rewrite run_restore_task, Ht, Hr. by destruct (restorable _ _ _).
    + rewrite run_reassign_task, Ht, Hr. by destruct (Task.is_deleted t).
  - intros id a title content images r Ha Hr Hin.
    repeat (apply elem_of_cons in Hin as [->|Hin]);
      [| | |by apply elem_of_nil in Hin];
      cbn [handle]; unfold response.
    + rewrite run_update_article, Ha, Hr. by destruct (Article.is_deleted a).
    + rewrite run_delete_article, Ha, Hr. by destruct (Article.is_deleted a).
    + rewrite run_restore_article, Ha, Hr. by destruct (restorable _ _ _).
Qed.

Lemma rights_gate_witness :
  (is_Some (handle env0 stranger (DeleteTask 1) db0).1
   ∧ (handle env0 stranger (DeleteTask 1) db0).2 = db0)
  ∧ (is_Some (handle env0 stranger (DeleteArticle 1) db0).1
     ∧ (handle env0 stranger (DeleteArticle 1) db0).2 = db0).
Proof.
  destruct (rights_gate env0 stranger db0) as [Htask Harticle]. split.
  - apply (Htask 1 pump
             {| TaskRoutes.new_assignee_id := 20;
                TaskRoutes.comment := None |});
      [reflexivity | reflexivity | apply list_elem_of_here].
  - apply (Harticle 1 note None None []);
      [reflexivity | reflexivity
      | apply list_elem_of_further, list_elem_of_here].
Defined.

(** The histories and the image table only grow at the end: whatever the
    request, what was recorded before it is a prefix of what is recorded
    after it, and the table of users is not written. *)
Theorem history_append_only env u request db :
  let db' := (handle env u request db).2 in
  task_history db `prefix_of` task_history db'
  ∧ article_history db `prefix_of` article_history db'
  ∧ article_images db `prefix_of` article_images db'
  ∧ users db' = users db.
Proof.
  cbv zeta.
  destruct request; cbn [handle]; unfold response; cbn [snd].
  - rewrite run_create_task.
    destruct (assignee_active db assignee_id); cbn; [|done].
    split; [by apply prefix_app_r|done].
  - rewrite run_update_task.
    destruct (tasks db !! task_id) as [t|]; [|done].
    destruct (from_option _ _ _); cbn; [|done].
    split; [by apply prefix_app_r|done].
  - rewrite run_delete_task.
    destruct (tasks db !! task_id) as [t|]; [|done].
    destruct (Task.is_deleted t); [done|].
    destruct (TaskRoutes.lacks_rights u t); cbn; [done|].
    split; [by apply prefix_app_r|done].
  - rewrite run_reassign_task.
    destruct (tasks db !! task_id) as [t|]; [|done].
    destruct (Task.is_deleted t); [done|].
    destruct (TaskRoutes.lacks_rights u t); [done|].
    destruct (assignee_active _ _); cbn; [|done].
    split; [by apply prefix_app_r|done].
  - rewrite run_restore_task.
    destruct (tasks db !! task_id) as [t|]; [|done].
    destruct (restorable _ _ _); [|done].
    destruct (TaskRoutes.lacks_rights u t); cbn; [done|].
    split; [by apply prefix_app_r|done].
  - rewrite run_create_article.
    destruct (forallb (allowed env) images); cbn; [|done].
    split; [done|]. split; [by apply prefix_app_r|].
    split; [by apply prefix_app_r|done].
  - rewrite run_update_article.
    destruct (articles db !! article_id) as [a|]; [|done].
    destruct (Article.is_deleted a); [done|].
    destruct (ArticleRoutes.lacks_rights u a); [done|].
    destruct (forallb (allowed env) images); cbn; [|done].
    split; [done|]. split; [by apply prefix_app_r|].
    split; [by apply prefix_app_r|done].
  - rewrite run_delete_article.
    destruct (articles db !! article_id) as [a|]; [|done].
    destruct (Article.is_deleted a); [done|].
    destruct (ArticleRoutes.lacks_rights u a); cbn; [done|].
    split; [done|]. split; [by apply prefix_app_r|done].
  - rewrite run_restore_article.
    destruct (articles db !! article_id) as [a|]; [|done].
    destruct (restorable _ _ _); [|done].
    destruct (ArticleRoutes.lacks_rights u a); cbn; [done|].
    split; [done|]. split; [by apply prefix_app_r|done].
Qed.

Lemma task_after_author env id title description assignee_id due_date status
    priority images t :
  Task.author_id
    (task_after env id title description assignee_id due_date status priority
       images t) = Task.author_id t.
Proof.
  unfold task_after.
  destruct title, description, assignee_id, due_date, status, priority,
    (nonempty images); cbn; try done;
    by destruct (Task.image_paths t) as [[|??]|].
Qed.

Lemma article_after_author title content a :
  Article.author_id (article_after title content a) = Article.author_id a.
Proof.
  unfold article_after, apply_opt.
  destruct title, content; cbn;
    repeat match goal with |- context [if ?b then _ else _] => destruct b end;
    done.
Qed.

Lemma tasks_stay_with_their_author env u request db id t :
  tasks db !! id = Some t →
  ∃ t', tasks (handle env u request db).2 !! id = Some t'
        ∧ Task.author_id t' = Task.author_id t.
Proof.
  intros Ht.
  assert (Hsame : ∃ t', tasks db !! id = Some t'
                        ∧ Task.author_id t' = Task.author_id t)
    by (by exists t).
  assert (Hins : ∀ j x f,
    (j = id → Task.author_id x = Task.author_id t) →
    ∃ t', tasks (with_task_history f (with_tasks <[j := x]> db)) !! id
          = Some t'
          ∧ Task.author_id t' = Task.author_id t).
  { intros j x f Hx. cbn. destruct (decide (j = id)) as [->|Hne].
    - rewrite lookup_insert_eq. exists x. split; [done|]. by apply Hx.
    - rewrite lookup_insert_ne by done. by exists t. }
  destruct request; cbn [handle]; unfold response; cbn [snd].
  - rewrite run_create_task.
    destruct (assignee_active db assignee_id); [|done].
    apply Hins. intros <-. by rewrite next_id_fresh in Ht.
  - rewrite run_update_task.
    destruct (tasks db !! task_id) as [t0|] eqn:Ht0; [|done].
    destruct (from_option _ _ _); [|done].
    apply Hins. intros ->. rewrite task_after_author. congruence.
  - rewrite run_delete_task.
    destruct (tasks db !! task_id) as [t0|] eqn:Ht0; [|done].
    destruct (Task.is_deleted t0); [done|].
    destruct (TaskRoutes.lacks_rights u t0); [done|].
    apply Hins. intros ->. cbn. congruence.
  - rewrite run_reassign_task.
    destruct (tasks db !! task_id) as [t0|] eqn:Ht0; [|done].
    destruct (Task.is_deleted t0); [done|].
    destruct (TaskRoutes.lacks_rights u t0); [done|].
    destruct (assignee_active _ _); [|done].
    apply Hins. intros ->. cbn. congruence.
  - rewrite run_restore_task.
    destruct (tasks db !! task_id) as [t0|] eqn:Ht0; [|done].
    destruct (restorable _ _ _); [|done].
    destruct (TaskRoutes.lacks_rights u t0); [done|].
    apply Hins. intros ->. cbn. congruence.
  - rewrite run_create_article. by destruct (forallb (allowed env) images).
  - rewrite run_update_article.
    destruct (articles db !! article_id) as [a|]; [|done].
    destruct (Article.is_deleted a); [done|].
    destruct (ArticleRoutes.lacks_rights u a); [done|].
    by destruct (forallb (allowed env) images).
  - rewrite run_delete_article.
    destruct (articles db !! article_id) as [a|]; [|done].
    destruct (Article.is_deleted a); [done|].
    by destruct (ArticleRoutes.lacks_rights u a).
  - rewrite run_restore_article.
    destruct (articles db !! article_id) as [a|]; [|done].
    destruct (restorable _ _ _); [|done].
    by destruct (ArticleRoutes.lacks_rights u a).
Qed.

Lemma articles_stay_with_their_author env u request db id a :
  articles db !! id = Some a →
  ∃ a', articles (handle env u request db).2 !! id = Some a'
        ∧ Article.author_id a' = Article.author_id a.
Proof.
  intros Ha.
  assert (Hsame : ∃ a', articles db !! id = Some a'
                        ∧ Article.author_id a' = Article.author_id a)
    by (by exists a).
  assert (Hins : ∀ j x f g,
    (j = id → Article.author_id x = Article.author_id a) →
    ∃ a', articles (with_article_history f
                      (with_article_images g (with_articles <[j := x]> db)))
            !! id = Some a'
          ∧ Article.author_id a' = Article.author_id a).
  { intros j x f g Hx. cbn. destruct (decide (j = id)) as [->|Hne].
    - rewrite lookup_insert_eq. exists x. split; [done|]. by apply Hx.
    - rewrite lookup_insert_ne by done. by exists a. }
  assert (Hins' : ∀ j x f,
    (j = id → Article.author_id x = Article.author_id a) →
    ∃ a', articles (with_article_history f (with_articles <[j := x]> db))
            !! id = Some a'
          ∧ Article.author_id a' = Article.author_id a).
  { intros j x f Hx. exact (Hins j x f (λ l, l) Hx). }
  destruct request; cbn [handle]; unfold response; cbn [snd].
  - rewrite run_create_task. by destruct (assignee_active db assignee_id).
  - rewrite run_update_task.
    destruct (tasks db !! task_id) as [t0|]; [|done].
    by destruct (from_option _ _ _).
  - rewrite run_delete_task.
    destruct (tasks db !! task_id) as [t0|]; [|done].
    destruct (Task.is_deleted t0); [done|].
    by destruct (TaskRoutes.lacks_rights u t0).
  - rewrite run_reassign_task.
    destruct (tasks db !! task_id) as [t0|]; [|done].
    destruct (Task.is_deleted t0); [done|].
    destruct (TaskRoutes.lacks_rights u t0); [done|].
    by destruct (assignee_active _ _).
  - rewrite run_restore_task.
    destruct (tasks db !! task_id) as [t0|]; [|done].
    destruct (restorable _ _ _); [|done].
    by destruct (TaskRoutes.lacks_rights u t0).
  - rewrite run_create_article.
    destruct (forallb (allowed env) images); [|done].
    apply Hins. intros <-. by rewrite next_id_fresh in Ha.
  - rewrite run_update_article.
    destruct (articles db !! article_id) as [a0|] eqn:Ha0; [|done].
    destruct (Article.is_deleted a0); [done|].
    destruct (ArticleRoutes.lacks_rights u a0); [done|].
    destruct (forallb (allowed env) images); [|done].
    apply Hins. intros ->. rewrite article_after_author. congruence.
  - rewrite run_delete_article.
    destruct (articles db !! article_id) as [a0|] eqn:Ha0; [|done].
    destruct (Article.is_deleted a0); [done|].
    destruct (ArticleRoutes.lacks_rights u a0); [done|].
    apply Hins'. intros ->. cbn. congruence.
  - rewrite run_restore_article.
    destruct (articles db !! article_id) as [a0|] eqn:Ha0; [|done].
    destruct (restorable _ _ _); [|done].
    destruct (ArticleRoutes.lacks_rights u a0); [done|].
    apply Hins'. intros ->. cbn. congruence.
Qed.

(** No request removes a row or hands it to another author: a task or an
    article of the store is still there after any request, with the same
    [author_id] (a creation takes a key that is not in use). *)
Theorem rows_stay_with_their_author env u request db id :
  let db' := (handle env u request db).2 in
  (∀ t, tasks db !! id = Some t →
        ∃ t', tasks db' !! id = Some t'
              ∧ Task.author_id t' = Task.author_id t)
  ∧ (∀ a, articles db !! id = Some a →
          ∃ a', articles db' !! id = Some a'
                ∧ Article.author_id a' = Article.author_id a).
Proof.
  split.
  - intros t. apply tasks_stay_with_their_author.
  - intros a. apply articles_stay_with_their_author.
Qed.

(** A request works on one row: every task other than the one it names (or
    creates) is the same after it, and so is every article. *)
Theorem other_rows_untouched env u request db j :
  let db' := (handle env u request db).2 in
  (touched_task db request ≠ Some j → tasks db' !! j = tasks db !! j)
  ∧ (touched_article db request ≠ Some j →
     articles db' !! j = articles db !! j).
Proof.
  cbv zeta.
  destruct request; cbn [handle touched_task touched_article];
    unfold response; cbn [snd].
  - rewrite run_create_task.
    destruct (assignee_active db assignee_id); [|done].
    cbn. split; [|done]. intros Hne. apply lookup_insert_ne. congruence.
  - rewrite run_update_task.
    destruct (tasks db !! task_id) as [t0|]; [|done].
    destruct (from_option _ _ _); [|done].
    cbn. split; [|done]. intros Hne. apply lookup_insert_ne. congruence.
  - rewrite run_delete_task.
    destruct (tasks db !! task_id) as [t0|]; [|done].
    destruct (Task.is_deleted t0); [done|].
    destruct (TaskRoutes.lacks_rights u t0); [done|].
    cbn. split; [|done]. intros Hne. apply lookup_insert_ne. congruence.
  - rewrite run_reassign_task.
    destruct (tasks db !! task_id) as [t0|]; [|done].
    destruct (Task.is_deleted t0); [done|].
    destruct (TaskRoutes.lacks_rights u t0); [done|].
    destruct (assignee_active _ _); [|done].
    cbn. split; [|done]. intros Hne. apply lookup_insert_ne. congruence.
  - rewrite run_restore_task.
    destruct (tasks db !! task_id) as [t0|]; [|done].
    destruct (restorable _ _ _); [|done].
    destruct (TaskRoutes.lacks_rights u t0); [done|].
    cbn. split; [|done]. intros Hne. apply lookup_insert_ne. congruence.
  - rewrite run_create_article.
    destruct (forallb (allowed env) images); [|done].
    cbn. split; [done|]. intros Hne. apply lookup_insert_ne. congruence.
  - rewrite run_update_article.
    destruct (articles db !! article_id) as [a0|]; [|done].
    destruct (Article.is_deleted a0); [done|].
    destruct (ArticleRoutes.lacks_rights u a0); [done|].
    destruct (forallb (allowed env) images); [|done].
    cbn. split; [done|]. intros Hne. apply lookup_insert_ne. congruence.
  - rewrite run_delete_article.
    destruct (articles db !! article_id) as [a0|]; [|done].
    destruct (Article.is_deleted a0); [done|].
    destruct (ArticleRoutes.lacks_rights u a0); [done|].
    cbn. split; [done|]. intros Hne. apply lookup_insert_ne. congruence.
  - rewrite run_restore_article.
    destruct (articles db !! article_id) as [a0|]; [|done].
    destruct (restorable _ _ _); [|done].
    destruct (ArticleRoutes.lacks_rights u a0); [done|].
    cbn. split; [done|]. intros Hne. apply lookup_insert_ne. congruence.
Qed.

(** ** What the task rows hold and what the records say *)

(** The due date that is stored is the one of the request converted to UTC,
    with its zone dropped: the offset of the date is subtracted, and for a
    naive date the offset of the server's local zone.  The [TASK_CREATED]
    record holds the converted date, the [TASK_UPDATED] record the date as
    the request sent it.  When [update_task] attaches images to a task whose
    image list is not empty, the row keeps the list it had and is returned
    with it, while the [IMAGE_ADDED] records and the [TASK_UPDATED] record
    name the new files. *)
Theorem task_rows_and_records env db u :
  (∀ title description assignee_id d status priority images,
     assignee_active db assignee_id = true →
     let r := run (TaskRoutes.create_task env title description assignee_id
                     (Some d) status priority images u) db in
     let utc := {| wall := wall d - default (local_utcoffset env) (utcoffset d);
                   utcoffset := None |} in
     (Task.due_date <$> tasks r.2 !! next_id (tasks db)) = Some (Some utc)
     ∧ ∃ record,
         last (task_history r.2) = Some record
         ∧ TaskHistory.event record = "TASK_CREATED"%string
         ∧ (TaskHistory.changes record ≫= dict_get "due_date")
           = Some (JIsoformat utc))
  ∧ (∀ id t title description assignee_id d status priority images,
       tasks db !! id = Some t →
       from_option (assignee_active db) true assignee_id = true →
       let r := run (TaskRoutes.update_task env id title description
                       assignee_id (Some d) status priority images u) db in
       let utc :=
         {| wall := wall d - default (local_utcoffset env) (utcoffset d);
            utcoffset := None |} in
       (Task.due_date <$> tasks r.2 !! id) = Some (Some utc)
       ∧ ∃ record,
           last (task_history r.2) = Some record
           ∧ TaskHistory.event record = "TASK_UPDATED"%string
           ∧ (TaskHistory.changes record ≫= dict_get "due_date")
             = Some (JIsoformat d))
  ∧ (∀ id t p ps title description assignee_id due_date status priority
       images,
       tasks db !! id = Some t →
       Task.image_paths t = Some (p :: ps) →
       images ≠ [] →
       from_option (assignee_active db) true assignee_id = true →
       let r := run (TaskRoutes.update_task env id title description
                       assignee_id due_date status priority images u) db in
       let names := task_file_names env id 0 images in
       (Task.image_paths <$> tasks r.2 !! id) = Some (Some (p :: ps))
       ∧ (∃ t', r.1 = Return t' ∧ Task.image_paths t' = Some (p :: ps))
       ∧ names ≠ []
       ∧ ∃ record,
           task_history r.2
           = task_history db
             ++ (image_added id (User.user_id u) <$> names) ++ [record]
           ∧ TaskHistory.event record = "TASK_UPDATED"%string
           ∧ (TaskHistory.changes record ≫= dict_get "image_paths")
             = Some (JList ((p :: ps) ++ names))).
Proof.
  split; [|split].
  - intros title description assignee_id d status priority images Has r utc.
    subst r utc. rewrite run_create_task, Has. cbn [fst snd].
    split; [cbn; by rewrite lookup_insert_eq|].
    eexists. split; [cbn; by rewrite app_assoc, last_snoc|].
    split; reflexivity.
  - intros id t title description assignee_id d status priority images Ht Has
      r utc. subst r utc. rewrite run_update_task, Ht, Has. cbn [fst snd].
    split.
    + cbn. rewrite lookup_insert_eq. cbn.
      by destruct (task_after_fields env id title description assignee_id
                     (Some d) status priority images t)
        as (_ & _ & _ & -> & _).
    + cbn. unfold update_task_records.
      assert (Hf : nonempty (supplied_fields title description assignee_id
                               (Some d) status priority) = true)
        by by destruct title, description, assignee_id.
      destruct (nonempty images); rewrite ?Hf, app_assoc, last_snoc;
        eexists; (split; [reflexivity|]); (split; [reflexivity|]); cbn;
        by destruct title, description, assignee_id, status, priority.
  - intros id t p ps title description assignee_id due_date status priority
      images Ht Hp Hne Has r names. subst r names.
    assert (Himg : nonempty images = true) by by destruct images.
    assert (Hstored : Task.image_paths
                        (task_after env id title description assignee_id
                           due_date status priority images t)
                      = Some (p :: ps)).
    { unfold task_after. rewrite Himg.
      destruct title, description, assignee_id, due_date, status, priority;
        cbn; by rewrite Hp. }
    rewrite run_update_task, Ht, Has. cbn [fst snd].
    split; [cbn; by rewrite lookup_insert_eq; cbn; rewrite Hstored|].
    split; [by eexists|].
    split.
    { destruct images; [done|]. done. }
    cbn. unfold update_task_records. rewrite Himg.
    eexists. split; [reflexivity|]. split; [reflexivity|].
    unfold current_paths. rewrite Hp. cbn.
    by destruct title, description, assignee_id, due_date, status, priority.
Qed.

Lemma task_rows_and_records_witness :
  (Task.image_paths
     <$> tasks
           (run (TaskRoutes.update_task env0 1 None None None None None None
                   [{| filename := "leak.JPG" |}] author) db_with_image).2
         !! 1)
  = Some (Some ["task_1_old.png"%string]).
Proof.
  destruct (task_rows_and_records env0 db_with_image author)
    as (_ & _ & Himages).
  apply (Himages 1 (Task.set_image_paths (Some ["task_1_old.png"%string]) pump)
           "task_1_old.png"%string [] None None None None None None
           [{| filename := "leak.JPG" |}]); done.
Defined.

(** ** Assignees *)

(** A request that names as assignee a user who is absent or soft-deleted
    stores nothing, whatever else it holds.  [create_task] checks the
    assignee first and its [except Exception] turns the 404 of
    [verify_assignee] into a 500; [update_task] of a task that exists has
    assigned the title and the description when it looks the assignee up,
    has no [try] block, and answers the 404 as it is, with none of its
    assignments committed. *)
Theorem unknown_assignee_is_refused env u db assignee_id :
  assignee_active db assignee_id = false →
  (∀ title description due_date status priority images,
     run (TaskRoutes.create_task env title description assignee_id due_date
            status priority images u) db
     = (Raise {| status_code := 500;
                 detail := "Ошибка при создании задачи: 404: Исполнитель не найден" |},
        db))
  ∧ (∀ id t title description due_date status priority images,
       tasks db !! id = Some t →
       run (TaskRoutes.update_task env id title description
              (Some assignee_id) due_date status priority images u) db
       = (Raise {| status_code := 404; detail := "Исполнитель не найден" |},
          db)).
Proof.
  intros Has. split.
  - intros title description due_date status priority images.
    by rewrite run_create_task, Has.
  - intros id t title description due_date status priority images Ht.
    rewrite run_update_task, Ht. cbn. by rewrite Has.
Qed.

Lemma unknown_assignee_is_refused_witness :
  run (TaskRoutes.update_task env0 1 (Some "Fix pump today"%string) None
         (Some 99) None None None [] author) db0
  = (Raise {| status_code := 404; detail := "Исполнитель не найден" |}, db0).
Proof.
  destruct (unknown_assignee_is_refused env0 author db0 99 eq_refl)
    as [_ Hupdate].
  apply (Hupdate 1 pump). reflexivity.
Defined.

(** The snapshot of [TASK_CREATED] is taken from [task_data], whose
    [image_paths] is the empty list the task was built with: when images are
    attached, the task gets their names and the creation record still says
    that the task has no image. *)
Theorem create_task_snapshot_has_no_image env title description assignee_id
    due_date status priority images u db :
  assignee_active db assignee_id = true →
  images ≠ [] →
  ∃ task_id t db' r,
    run (TaskRoutes.create_task env title description assignee_id due_date
           status priority images u) db = (Return (task_id, t), db')
    ∧ Task.image_paths t = Some (task_file_names env task_id 0 images)
    ∧ task_file_names env task_id 0 images ≠ []
    ∧ last (task_history db') = Some r
    ∧ TaskHistory.event r = "TASK_CREATED"%string
    ∧ (TaskHistory.changes r ≫= dict_get "image_paths") = Some (JList []).
Proof.
  intros Has Hne. rewrite run_create_task, Has.
  do 4 eexists. split; [reflexivity|]. split; [reflexivity|].
  split; [by destruct images|]. cbn.
  rewrite !app_assoc, last_snoc. split; [reflexivity|]. split; [done|].
  by destruct due_date.
Qed.

Lemma create_task_snapshot_has_no_image_witness :
  ∃ task_id t db' r,
    run (TaskRoutes.create_task env0 "Check valve" None 20 None
           {| status_value := "active" |} {| priority_value := "high" |}
           [{| filename := "valve.png" |}] author) db0
    = (Return (task_id, t), db')
    ∧ Task.image_paths t
      = Some (task_file_names env0 task_id 0 [{| filename := "valve.png" |}])
    ∧ task_file_names env0 task_id 0 [{| filename := "valve.png" |}] ≠ []
    ∧ last (task_history db') = Some r
    ∧ TaskHistory.event r = "TASK_CREATED"%string
    ∧ (TaskHistory.changes r ≫= dict_get "image_paths") = Some (JList []).
Proof.
  apply (create_task_snapshot_has_no_image env0 "Check valve" None 20 None
           {| status_value := "active" |} {| priority_value := "high" |}
           [{| filename := "valve.png" |}] author db0); done.
Defined.

(** ** The restoration window *)

(** [restore_task] and [restore_article] succeed exactly on an entity that
    is flagged as deleted, whose [deleted_at] is set and at most seven days
    before the request, for its author or an administrator. *)
Theorem restore_succeeds_exactly env db id u :
  (is_return (run (TaskRoutes.restore_task env id u) db).1 = true
   ↔ ∃ t, tasks db !! id = Some t
          ∧ Task.is_deleted t = true
          ∧ (∃ d, Task.deleted_at t = Some d ∧ utcnow env - d ≤ timedelta 7)
          ∧ TaskRoutes.lacks_rights u t = false)
  ∧ (is_return (run (ArticleRoutes.restore_article env id u) db).1 = true
     ↔ ∃ a, articles db !! id = Some a
            ∧ Article.is_deleted a = true
            ∧ (∃ d, Article.deleted_at a = Some d
                    ∧ utcnow env - d ≤ timedelta 7)
            ∧ ArticleRoutes.lacks_rights u a = false).
Proof.
  split; [apply restore_task_succeeds_iff|apply restore_article_succeeds_iff].
Qed.

(** ** Reading *)

Lemma page_length {A} offset limit (rows : list A) :
  (length (page offset limit rows) ≤ limit)%nat.
Proof. unfold page. rewrite length_take. lia. Qed.

Lemma page_elem_of {A} offset limit (rows : list A) x :
  x ∈ page offset limit rows → x ∈ rows.
Proof.
  unfold page. intros Hx. by apply (subseteq_drop offset), (subseteq_take limit).
Qed.

Lemma page_all {A} limit (rows : list A) :
  (length rows ≤ limit)%nat → page 0 limit rows = rows.
Proof. intros Hlen. unfold page. rewrite drop_0. by apply take_ge. Qed.

Lemma run_get_task_history order id offset limit u db :
  run (get_task_history order id offset limit u) db =
  (match tasks db !! id with
   | Some t =>
       if TaskRoutes.lacks_rights u t then
         Raise (internal_error "Ошибка при получении истории задачи: "
                  task_forbidden)
       else
         Return (page offset limit
                   (order (filter (λ h, TaskHistory.task_id h = id)
                             (task_history db))))
   | None =>
       Raise (internal_error "Ошибка при получении истории задачи: "
                task_not_found)
   end, db).
Proof.
  unfold get_task_history. session_step.
  destruct (tasks db !! id) as [t|]; cbn; [|reflexivity].
  by destruct (TaskRoutes.lacks_rights u t).
Qed.

Lemma run_get_article_history order id offset limit u db :
  run (get_article_history order id offset limit u) db =
  (match articles db !! id with
   | Some a =>
       if ArticleRoutes.lacks_rights u a then
         Raise (internal_error "Ошибка при получении истории статьи: "
                  article_forbidden)
       else
         Return (page offset limit
                   (order (filter (λ h, ArticleHistory.article_id h = id)
                             (article_history db))))
   | None =>
       Raise (internal_error "Ошибка при получении истории статьи: "
                article_not_found)
   end, db).
Proof.
  unfold get_article_history. session_step.
  destruct (articles db !! id) as [a|]; cbn; [|reflexivity].
  by destruct (ArticleRoutes.lacks_rights u a).
Qed.

(** A page of [get_task_history]. *)
Lemma get_task_history_page order id offset limit u db t :
  (∀ l, order l ≡ₚ l) →
  tasks db !! id = Some t →
  TaskRoutes.lacks_rights u t = false →
  let mine := filter (λ h, TaskHistory.task_id h = id) (task_history db) in
  ∃ records,
    run (get_task_history order id offset limit u) db = (Return records, db)
    ∧ (length records ≤ limit)%nat
    ∧ (∀ h, h ∈ records → h ∈ task_history db ∧ TaskHistory.task_id h = id)
    ∧ (offset = 0%nat → (length mine ≤ limit)%nat → records ≡ₚ mine).
Proof.
  intros Hperm Ht Hr mine. rewrite run_get_task_history, Ht, Hr.
  eexists. split; [reflexivity|]. split; [apply page_length|]. split.
  - intros h Hh%page_elem_of. rewrite Hperm in Hh.
    by apply list_elem_of_filter in Hh as [? ?].
  - intros -> Hlen. rewrite page_all; [apply Hperm|].
    by rewrite Hperm.
Qed.

(** The refusals of the two history routes: an absent entity and an actor
    without rights are both answered with status 500, the 404 and the 403
    of the [try] block being caught by [except Exception]. *)
Theorem history_refusals_are_500 order order' id offset limit u db :
  let r := run (get_task_history order id offset limit u) db in
  let r' := run (get_article_history order' id offset limit u) db in
  (is_return r.1 = false
   ↔ from_option (TaskRoutes.lacks_rights u) true (tasks db !! id) = true)
  ∧ (is_return r'.1 = false
     ↔ from_option (ArticleRoutes.lacks_rights u) true (articles db !! id)
       = true)
  ∧ (∀ e, r.1 = Raise e ∨ r'.1 = Raise e → status_code e = 500)
  ∧ r.2 = db ∧ r'.2 = db.
Proof.
  cbv zeta. rewrite run_get_task_history, run_get_article_history. cbn.
  destruct (tasks db !! id) as [t|]; cbn;
    [destruct (TaskRoutes.lacks_rights u t)|];
    (destruct (articles db !! id) as [a|]; cbn;
     [destruct (ArticleRoutes.lacks_rights u a)|]);
    repeat split; try done; intros e [[= <-]|[= <-]]; done.
Qed.

(** A page of [get_article_history]. *)
Lemma get_article_history_page order id offset limit u db a :
  (∀ l, order l ≡ₚ l) →
  articles db !! id = Some a →
  ArticleRoutes.lacks_rights u a = false →
  let mine := filter (λ h, ArticleHistory.article_id h = id)
                (article_history db) in
  ∃ records,
    run (get_article_history order id offset limit u) db = (Return records, db)
    ∧ (length records ≤ limit)%nat
    ∧ (∀ h, h ∈ records →
            h ∈ article_history db ∧ ArticleHistory.article_id h = id)
    ∧ (offset = 0%nat → (length mine ≤ limit)%nat → records ≡ₚ mine).
Proof.
  intros Hperm Ha Hr mine. rewrite run_get_article_history, Ha, Hr.
  eexists. split; [reflexivity|]. split; [apply page_length|]. split.
  - intros h Hh%page_elem_of. rewrite Hperm in Hh.
    by apply list_elem_of_filter in Hh as [? ?].
  - intros -> Hlen. rewrite page_all; [apply Hperm|].
    by rewrite Hperm.
Qed.

(** [get_task_history] and [get_article_history] answer the author of the
    entity and an administrator, whether the entity is deleted or not.  A
    page holds at most [limit] records, each a record of the history of
    that entity; from offset 0 and with a limit that this history does not
    exceed, it holds all of them.  Nothing is written. *)
Theorem history_pages offset limit u db :
  (∀ order id t,
     (∀ l, order l ≡ₚ l) →
     tasks db !! id = Some t →
     TaskRoutes.lacks_rights u t = false →
     let of_task :=
       filter (λ h, TaskHistory.task_id h = id) (task_history db) in
     ∃ records,
       run (get_task_history order id offset limit u) db
       = (Return records, db)
       ∧ (length records ≤ limit)%nat
       ∧ (∀ h, h ∈ records →
               h ∈ task_history db ∧ TaskHistory.task_id h = id)
       ∧ (offset = 0%nat → (length of_task ≤ limit)%nat →
          records ≡ₚ of_task))
  ∧ (∀ order id a,
       (∀ l, order l ≡ₚ l) →
       articles db !! id = Some a →
       ArticleRoutes.lacks_rights u a = false →
       let of_article :=
         filter (λ h, ArticleHistory.article_id h = id)
           (article_history db) in
       ∃ records,
         run (get_article_history order id offset limit u) db
         = (Return records, db)
         ∧ (length records ≤ limit)%nat
         ∧ (∀ h, h ∈ records →
                 h ∈ article_history db ∧ ArticleHistory.article_id h = id)
         ∧ (offset = 0%nat → (length of_article ≤ limit)%nat →
            records ≡ₚ of_article)).
Proof.
  split.
  - intros order id t Hperm Ht Hr.
    by apply (get_task_history_page order id offset limit u db t).
  - intros order id a Hperm Ha Hr.
    by apply (get_article_history_page order id offset limit u db a).
Qed.

Lemma history_pages_witness :
  let db1 := (run (TaskRoutes.delete_task env0 1 author) db0).2 in
  ∃ records,
    run (get_task_history reverse 1 0 10 admin) db1 = (Return records, db1)
    ∧ (length records ≤ 10)%nat
    ∧ (∀ h, h ∈ records → h ∈ task_history db1 ∧ TaskHistory.task_id h = 1)
    ∧ (0%nat = 0%nat →
       (length (filter (λ h, TaskHistory.task_id h = 1%Z) (task_history db1))
        ≤ 10)%nat →
       records ≡ₚ filter (λ h, TaskHistory.task_id h = 1) (task_history db1)).
Proof.
  cbv zeta.
  destruct (history_pages 0 10 admin
              (run (TaskRoutes.delete_task env0 1 author) db0).2)
    as [Htask _].
  apply (Htask reverse 1 (deleted_task env0 pump)).
  - intros l. apply reverse_Permutation.
  - reflexivity.
  - reflexivity.
Defined.

Lemma elem_of_select {V} (order : list (Z * V) → list (Z * V))
    (P : Z * V → bool) (m : gmap Z V) id x :
  (∀ l, order l ≡ₚ l) →
  (id, x) ∈ order (filter (λ row, P row = true) (map_to_list m))
  ↔ m !! id = Some x ∧ P (id, x) = true.
Proof.
  intros Hperm. rewrite Hperm, list_elem_of_filter, elem_of_map_to_list.
  tauto.
Qed.

Lemma truthy_spec s : truthy s = true ↔ s ≠ ""%string.
Proof.
  unfold truthy. rewrite negb_true_iff.
  destruct (String.eqb_spec s ""); split; congruence.
Qed.

(** The rows of [get_my_tasks], as a condition on the table of tasks. *)
Lemma get_my_tasks_rows truth order status_filter priority u db :
  (∀ l, order l ≡ₚ l) →
  ∃ rows,
    run (get_my_tasks truth order status_filter priority u) db = (Return rows, db)
    ∧ NoDup rows
    ∧ ∀ id t,
        (id, t) ∈ rows
        ↔ tasks db !! id = Some t
          ∧ Task.is_deleted t = false
          ∧ (Task.author_id t = User.user_id u
             ∨ Task.assignee_id t = User.user_id u)
          ∧ status_matches truth status_filter t
          ∧ priority_matches truth priority t.
Proof.
  intros Hperm. unfold get_my_tasks. session_step.
  eexists. split; [reflexivity|]. split.
  { rewrite Hperm. apply NoDup_filter, NoDup_map_to_list. }
  intros id t. rewrite (elem_of_select order _ _ _ _ Hperm).
  unfold status_matches, priority_matches.
  unfold status_matches, priority_matches.
  assert (Hbase :
    negb (Task.is_deleted t)
    && ((Task.author_id t =? User.user_id u)
        || (Task.assignee_id t =? User.user_id u)) = true
    ↔ Task.is_deleted t = false
      ∧ (Task.author_id t = User.user_id u
         ∨ Task.assignee_id t = User.user_id u)).
  { rewrite andb_true_iff, negb_true_iff, orb_true_iff, !Z.eqb_eq. done. }
  unfold status_matches, priority_matches.
  destruct status_filter as [s|];
    [destruct (truth (status_value s)) eqn:Hts|].
  all: destruct priority as [p|];
    [destruct (truth (priority_value p)) eqn:Htp|].
  all: cbn; rewrite ?andb_true_iff, ?negb_true_iff, ?orb_true_iff, ?Z.eqb_eq,
    ?String.eqb_eq.
  all: split;
    [intros; destruct_and!; repeat split; try done;
     intros ? ? ?; simplify_eq; (done || congruence)
    |intros (? & ? & ? & Hs & Hp); repeat split; try done; eauto].
Qed.

(** [get_my_tasks] lists exactly the tasks that are not deleted, that the
    caller wrote or is assigned to, and that pass the filters of the
    request; each of them once.  Nothing is written. *)
Theorem get_my_tasks_lists truth order status_filter priority u db :
  (∀ l, order l ≡ₚ l) →
  ∃ rows,
    run (get_my_tasks truth order status_filter priority u) db = (Return rows, db)
    ∧ NoDup rows
    ∧ ∀ id t,
        (id, t) ∈ rows
        ↔ tasks db !! id = Some t
          ∧ Task.is_deleted t = false
          ∧ (Task.author_id t = User.user_id u
             ∨ Task.assignee_id t = User.user_id u)
          ∧ status_matches truth status_filter t
          ∧ priority_matches truth priority t.
Proof. apply get_my_tasks_rows. Qed.

Lemma get_my_tasks_lists_witness :
  ∃ rows,
    run (get_my_tasks truthy reverse None None stranger) db0 = (Return rows, db0)
    ∧ NoDup rows
    ∧ ∀ id t,
        (id, t) ∈ rows
        ↔ tasks db0 !! id = Some t
          ∧ Task.is_deleted t = false
          ∧ (Task.author_id t = User.user_id stranger
             ∨ Task.assignee_id t = User.user_id stranger)
          ∧ status_matches truthy None t
          ∧ priority_matches truthy None t.
Proof.
  apply (get_my_tasks_lists truthy reverse None None stranger db0).
  intros l. apply reverse_Permutation.
Defined.

(** The soft-delete gate of the task list.  The author sees an active task
    of theirs in [get_my_tasks]; once the task is deleted nobody's list
    shows it, whatever the filters; once it is restored, within seven days,
    the author's list shows the same row again. *)
Theorem my_tasks_follow_soft_delete truth order env env' id u u' db t me :
  (∀ l, order l ≡ₚ l) →
  tasks db !! id = Some t →
  Task.is_deleted t = false →
  Task.deleted_at t = None →
  TaskRoutes.lacks_rights u t = false →
  TaskRoutes.lacks_rights u' t = false →
  Task.author_id t = User.user_id me →
  utcnow env' - utcnow env ≤ timedelta 7 →
  let db1 := (run (TaskRoutes.delete_task env id u) db).2 in
  let db2 := (run (TaskRoutes.restore_task env' id u') db1).2 in
  listed_in_my_tasks truth order me None None db (id, t)
  ∧ (∀ who s p x, ¬ listed_in_my_tasks truth order who s p db1 (id, x))
  ∧ listed_in_my_tasks truth order me None None db2 (id, t).
Proof.
  intros Hperm Ht Hd Hat Hr Hr' Hme Hwin db1 db2.
  assert (Hrt : restored_task (deleted_task env t) = t)
    by (destruct t; cbn in *; by subst).
  assert (Hdb1 : tasks db1 !! id = Some (deleted_task env t)).
  { subst db1. rewrite run_delete_task, Ht, Hd, Hr. cbn.
    by rewrite lookup_insert_eq. }
  assert (Hdb2 : tasks db2 !! id = Some t).
  { subst db2. rewrite run_restore_task, Hdb1.
    assert (Hl : TaskRoutes.lacks_rights u' (deleted_task env t) = false)
      by exact Hr'.
    rewrite Hl.
    assert (Hres : restorable (utcnow env') (Task.is_deleted (deleted_task env t))
                     (Task.deleted_at (deleted_task env t)) = true).
    { cbn. apply Z.leb_le. lia. }
    rewrite Hres. cbn. by rewrite lookup_insert_eq, Hrt. }
  assert (Hlist : ∀ who s p d row,
    listed_in_my_tasks truth order who s p d row
    ↔ tasks d !! row.1 = Some row.2
      ∧ Task.is_deleted row.2 = false
      ∧ (Task.author_id row.2 = User.user_id who
         ∨ Task.assignee_id row.2 = User.user_id who)
      ∧ status_matches truth s row.2 ∧ priority_matches truth p row.2).
  { intros who s p d [i x]. unfold listed_in_my_tasks.
    destruct (get_my_tasks_rows truth order s p who d Hperm) as (rows & Hrun & _ & Hin).
    rewrite Hrun. cbn. rewrite <- Hin. split.
    - by intros (rows' & [= <-] & ?).
    - intros ?. by exists rows. }
  split; [|split].
  - apply Hlist. cbn. repeat split; try done; [by left|..]; by intros ? [=].
  - intros who s p x [Hx [Hdel _]]%Hlist. cbn in Hx, Hdel.
    rewrite Hdb1 in Hx. by simplify_eq.
  - apply Hlist. cbn. repeat split; try done; [by left|..]; by intros ? [=].
Qed.

Lemma my_tasks_follow_soft_delete_witness :
  listed_in_my_tasks truthy reverse author None None db0 (1, pump).
Proof.
  apply (my_tasks_follow_soft_delete truthy reverse env0
           {| utcnow := 103 * day; local_utcoffset := 0;
              rand_hex := rand_hex env0;
              str_lower := ascii_lower |} 1 author admin db0 pump author);
    try reflexivity.
  - intros l. apply reverse_Permutation.
  - by vm_compute.
Defined.

(** The rows of a page of [get_articles]. *)
Lemma get_articles_rows ilike order title author_id offset limit u db :
  (∀ l, order l ≡ₚ l) →
  ∃ rows,
    run (get_articles ilike order title author_id offset limit u) db
    = (Return rows, db)
    ∧ (length rows ≤ limit)%nat
    ∧ NoDup rows
    ∧ ∀ id a,
        (id, a) ∈ rows →
        articles db !! id = Some a
        ∧ Article.is_deleted a = false
        ∧ (∀ w, author_id = Some w → w ≠ 0 → Article.author_id a = w)
        ∧ (∀ s, title = Some s → s ≠ ""%string →
                ilike (Article.title a) ("%" +:+ s +:+ "%") = true).
Proof.
  intros Hperm. unfold get_articles. session_step.
  eexists. split; [reflexivity|]. split; [apply page_length|]. split.
  { unfold page.
    eapply sublist_NoDup; [|apply sublist_take].
    eapply sublist_NoDup; [|apply sublist_drop].
    rewrite Hperm. apply NoDup_filter, NoDup_map_to_list. }
  intros id a Hin%page_elem_of.
  apply (elem_of_select order _ _ _ _ Hperm) in Hin as [Ha Hw].
  split; [done|]. revert Hw.
  destruct title as [s|];
    [destruct (truthy s) eqn:Hts;
     [apply truthy_spec in Hts
     |apply not_true_iff_false in Hts; rewrite truthy_spec in Hts]|].
  all: destruct author_id as [w|];
    [destruct (w =? 0) eqn:Hw0;
     [apply Z.eqb_eq in Hw0|apply Z.eqb_neq in Hw0]|].
  all: cbn; rewrite ?andb_true_iff, ?negb_true_iff, ?Z.eqb_eq.
  all: intros; destruct_and?; repeat split; try done;
    intros ? ? ?; simplify_eq; done.
Qed.

(** [get_articles] never lists a deleted article.  Each row of a page is an
    article of the store that is not deleted, written by [author_id] when
    the request names a non-zero one, and matching the pattern [%title%]
    when the request has a non-empty title; a page has at most [limit]
    rows, all different.  Nothing is written. *)
Theorem get_articles_lists ilike order title author_id offset limit u db :
  (∀ l, order l ≡ₚ l) →
  ∃ rows,
    run (get_articles ilike order title author_id offset limit u) db
    = (Return rows, db)
    ∧ (length rows ≤ limit)%nat
    ∧ NoDup rows
    ∧ ∀ id a,
        (id, a) ∈ rows →
        articles db !! id = Some a
        ∧ Article.is_deleted a = false
        ∧ (∀ w, author_id = Some w → w ≠ 0 → Article.author_id a = w)
        ∧ (∀ s, title = Some s → s ≠ ""%string →
                ilike (Article.title a) ("%" +:+ s +:+ "%") = true).
Proof. apply get_articles_rows. Qed.

Lemma get_articles_lists_witness :
  ∃ rows,
    run (get_articles (λ _ _, true) reverse (Some "pump"%string) (Some 10)
           0 10 stranger) db0 = (Return rows, db0)
    ∧ (length rows ≤ 10)%nat
    ∧ NoDup rows
    ∧ ∀ id a,
        (id, a) ∈ rows →
        articles db0 !! id = Some a
        ∧ Article.is_deleted a = false
        ∧ (∀ w, Some 10 = Some w → w ≠ 0 → Article.author_id a = w)
        ∧ (∀ s, Some "pump"%string = Some s → s ≠ ""%string →
                (λ _ _ : string, true) (Article.title a) ("%" +:+ s +:+ "%")
                = true).
Proof.
  apply (get_articles_lists (λ _ _, true) reverse (Some "pump"%string)
           (Some 10) 0 10 stranger db0).
  intros l. apply reverse_Permutation.
Defined.

(** After [delete_article] has succeeded, no page of [get_articles] shows
    the article, whoever asks and whatever the filters and the page. *)
Theorem deleted_article_is_not_listed ilike order env id u db :
  (∀ l, order l ≡ₚ l) →
  is_return (run (ArticleRoutes.delete_article env id u) db).1 = true →
  let db1 := (run (ArticleRoutes.delete_article env id u) db).2 in
  ∀ who title author_id offset limit a,
    ¬ listed_in_articles ilike order who title author_id offset limit db1
        (id, a).
Proof.
  intros Hperm Hdel db1 who title author_id offset limit a (rows & Hrun & Hin).
  destruct (get_articles_rows ilike order title author_id offset limit who
              db1 Hperm) as (rows' & Hrun' & _ & _ & Hrows).
  rewrite Hrun' in Hrun. cbn in Hrun. simplify_eq.
  destruct (Hrows id a Hin) as (Ha & Hd & _).
  subst db1. revert Hdel Ha. rewrite run_delete_article.
  destruct (articles db !! id) as [a0|]; [|done].
  destruct (Article.is_deleted a0); [done|].
  destruct (ArticleRoutes.lacks_rights u a0); [done|].
  cbn. rewrite lookup_insert_eq. intros _ [= <-]. done.
Qed.

Lemma deleted_article_is_not_listed_witness :
  ¬ listed_in_articles (λ _ _, true) reverse stranger None None 0 10
      (run (ArticleRoutes.delete_article env0 1 author) db0).2 (1, note).
Proof.
  apply (deleted_article_is_not_listed (λ _ _, true) reverse env0 1 author
           db0).
  - intros l. apply reverse_Permutation.
  - reflexivity.
Defined.

(** ** The accounts *)

Ltac work_step :=
  unfold run_work, authenticated, setattr_user, http_error;
  unfold try_except_work, mbind, work_bind, mret, work_ret, select, write,
    throw, commit_work;
  cbn.

Lemma elem_of_rows_where cond tbl id a :
  (id, a) ∈ rows_where cond tbl ↔ tbl !! id = Some a ∧ cond (id, a) = true.
Proof.
  unfold rows_where. rewrite list_elem_of_filter, elem_of_map_to_list. tauto.
Qed.

Lemma rows_where_nil cond tbl :
  rows_where cond tbl = [] →
  ∀ id a, tbl !! id = Some a → cond (id, a) = false.
Proof.
  intros Hnil id a Ha. destruct (cond (id, a)) eqn:Hc; [|done].
  assert (Hin : (id, a) ∈ rows_where cond tbl)
    by by apply elem_of_rows_where.
  rewrite Hnil in Hin. by apply elem_of_nil in Hin.
Qed.

Lemma NoDup_rows_where cond tbl : NoDup (rows_where cond tbl).
Proof. apply NoDup_filter, NoDup_map_to_list. Qed.

(** Two rows of a query are two different rows of the table. *)
Lemma rows_where_two cond tbl r1 r2 rest :
  rows_where cond tbl = r1 :: r2 :: rest →
  r1.1 ≠ r2.1
  ∧ tbl !! r1.1 = Some r1.2 ∧ cond r1 = true
  ∧ tbl !! r2.1 = Some r2.2 ∧ cond r2 = true.
Proof.
  intros Hrows.
  assert (H1 : r1 ∈ rows_where cond tbl) by (rewrite Hrows; set_solver).
  assert (H2 : r2 ∈ rows_where cond tbl) by (rewrite Hrows; set_solver).
  pose proof (NoDup_rows_where cond tbl) as Hnd. rewrite Hrows in Hnd.
  destruct r1 as [i a], r2 as [j b].
  apply elem_of_rows_where in H1 as [H1 H1'].
  apply elem_of_rows_where in H2 as [H2 H2'].
  repeat split; try done. cbn. intros ->.
  apply NoDup_cons in Hnd as [Hnot _]. apply Hnot.
  assert (a = b) as -> by congruence. set_solver.
Qed.

Lemma rows_where_one cond tbl r :
  rows_where cond tbl = [r] → tbl !! r.1 = Some r.2 ∧ cond r = true.
Proof.
  intros Hrows.
  assert (H1 : r ∈ rows_where cond tbl) by (rewrite Hrows; set_solver).
  destruct r. by apply elem_of_rows_where in H1.
Qed.

(** With unique names, a query on the name gives at most one row. *)
Lemma rows_where_username tbl name :
  unique_names tbl →
  rows_where (λ row, String.eqb (Account.username row.2) name) tbl = []
  ∨ ∃ r, rows_where (λ row, String.eqb (Account.username row.2) name) tbl
         = [r].
Proof.
  intros Hu.
  destruct (rows_where _ tbl) as [|r1 [|r2 rest]] eqn:Hrows; eauto.
  apply rows_where_two in Hrows as (Hne & H1 & Hc1 & H2 & Hc2).
  cbn in Hc1, Hc2. apply String.eqb_eq in Hc1, Hc2.
  destruct Hne. eapply Hu; eauto. left. congruence.
Qed.

(** [get_current_user] reads, and what it returns is a row of the table. *)
Lemma get_current_user_run lib token s :
  ∃ r, AuthRoutes.get_current_user lib token s = (r, s)
       ∧ ∀ u, r = Ok u → loaded s !! u.1 = Some u.2.
Proof.
  unfold AuthRoutes.get_current_user.
  destruct token as [token|]; [|by eexists].
  destruct (truthy token); [|by eexists].
  destruct (jwt_sub lib token) as [[name|]|]; try by eexists.
  work_step.
  destruct (rows_where _ (loaded s)) as [|r1 [|r2 rest]] eqn:Hrows; cbn;
    try by eexists.
  eexists; split; [done|]. intros u [= <-].
  by apply rows_where_one in Hrows as [? _].
Qed.

(** A route behind the dependency: an error of the dependency writes
    nothing, and otherwise the route runs on a row of the table. *)
Lemma run_authenticated {A} lib token (route : UserObject → Work A) tbl :
  (∃ e, run_work (authenticated lib token route) tbl = (Err e, tbl))
  ∨ (∃ u, tbl !! u.1 = Some u.2
          ∧ run_work (AuthRoutes.get_current_user lib token) tbl = (Ok u, tbl)
          ∧ run_work (authenticated lib token route) tbl
            = run_work (route u) tbl).
Proof.
  unfold run_work, authenticated, mbind, work_bind.
  destruct (get_current_user_run lib token
              {| stored := tbl; loaded := tbl |}) as (r & Hr & Hrow).
  rewrite Hr. destruct r as [u|e].
  - right. exists u. split; [by apply Hrow|]. done.
  - left. by exists e.
Qed.

(** *** Steps on one row *)

Lemma keeps_identity_refl tbl id a : keeps_identity tbl id a a.
Proof. repeat split; by left. Qed.

Lemma keeps_identity_trans tbl id a b c :
  keeps_identity tbl id a b → keeps_identity tbl id b c →
  keeps_identity tbl id a c.
Proof.
  intros (Hr & Hn & He) (Hr' & Hn' & He'). split; [congruence|]. split.
  - destruct Hn' as [Hn'|Hn']; [|by right].
    destruct Hn as [Hn|Hn]; [left; congruence|right].
    intros j b0 ? ?. rewrite Hn'. by eapply Hn.
  - destruct He' as [He'|He']; [|by right].
    destruct He as [He|He]; [left; congruence|right].
    intros j b0 ? ?. rewrite He'. by eapply He.
Qed.

Lemma profile_update_refl tbl id a : profile_update tbl id a a.
Proof. split; [apply keeps_identity_refl|done]. Qed.

Lemma profile_update_trans tbl id a b c :
  profile_update tbl id a b → profile_update tbl id b c →
  profile_update tbl id a c.
Proof.
  intros (Hk & ? & ? & ?) (Hk' & ? & ? & ?).
  split; [by eapply keeps_identity_trans|]. repeat split; congruence.
Qed.

Lemma row_step_bind tbl id (R : Account.t → Account.t → Prop) a m f :
  (∀ x y z, R x y → R y z → R x z) →
  row_step tbl id R a m →
  (∀ a', R a a' → row_route tbl id R a' (f (id, a'))) →
  row_route tbl id R a (m ≫= f).
Proof.
  intros Htrans [[e He]|(a' & Hm & HR)] Hf; unfold row_route; cbv zeta;
    unfold mbind, work_bind; rewrite ?He, ?Hm; cbn.
  - left. by exists e.
  - destruct (Hf a' HR) as [(e & He & Hs)|(a'' & Ha & Hs & HR')].
    + left. by exists e.
    + right. exists a''. eauto.
Qed.

Lemma row_route_commit tbl id (R : Account.t → Account.t → Prop) a :
  R a a → row_route tbl id R a (commit_work;; mret (id, a)).
Proof. intros HR. right. by exists a. Qed.

Lemma row_step_ret tbl id (R : Account.t → Account.t → Prop) a :
  R a a → row_step tbl id R a (mret (id, a)).
Proof. intros HR. right. by exists a. Qed.

Lemma row_step_setattr tbl id (R : Account.t → Account.t → Prop) a f :
  R a (f a) → row_step tbl id R a (setattr_user (id, a) f).
Proof.
  intros HR. right. exists (f a). split; [|done].
  work_step. by rewrite insert_insert_eq.
Qed.

(** A route on a row of the table, from outside. *)
Lemma row_route_run tbl id (R : Account.t → Account.t → Prop) a m :
  tbl !! id = Some a →
  row_route tbl id R a m →
  (∃ e, run_work m tbl = (Err e, tbl))
  ∨ (∃ a', run_work m tbl = (Ok (id, a'), <[id := a']> tbl) ∧ R a a').
Proof.
  intros Ha. unfold row_route, run_work. cbv zeta.
  rewrite (insert_id _ _ _ Ha).
  destruct (m _) as [o s]. cbn.
  intros [(e & -> & ->)|(a' & -> & -> & HR)]; [left|right]; eauto.
Qed.

(** The check of [update_profile] before it takes a name or an address:
    no row of the session has it. *)
Lemma unique_then_set_step tbl id (R : Account.t → Account.t → Prop) a
    (column : Account.t → string) (set : string → Account.t → Account.t)
    v message :
  ((∀ j b, j ≠ id → tbl !! j = Some b → column b ≠ v) → R a (set v a)) →
  row_step tbl id R a
    (rows ← select (rows_where (λ row, String.eqb (column row.2) v));
     existing_user ← scalar_one_or_none rows;
     match existing_user with
     | Some _ => http_error 400 message
     | None => setattr_user (id, a) (set v)
     end).
Proof.
  intros HR. unfold row_step. cbv zeta. work_step.
  destruct (rows_where _ (<[id:=a]> tbl)) as [|r1 [|r2 rest]] eqn:Hrows; cbn.
  - right. exists (set v a). rewrite insert_insert_eq. split; [done|].
    apply HR. intros j b Hj Hb Heq.
    pose proof (rows_where_nil _ _ Hrows j b) as Hnil. cbn in Hnil.
    rewrite lookup_insert_ne in Hnil by done.
    specialize (Hnil Hb). by apply String.eqb_neq in Hnil.
  - left. by eexists.
  - left. by eexists.
Qed.

(** The check of [admin_update_user]: no other row has it. *)
Lemma unique_then_set_step_admin tbl id (R : Account.t → Account.t → Prop) a
    (column : Account.t → string) (set : string → Account.t → Account.t)
    v message :
  ((∀ j b, j ≠ id → tbl !! j = Some b → column b ≠ v) → R a (set v a)) →
  row_step tbl id R a
    (existing ← select (rows_where (λ row,
                  String.eqb (column row.2) v && negb (row.1 =? id)));
     if nonempty existing
     then http_error 400 message
     else setattr_user (id, a) (set v)).
Proof.
  intros HR. unfold row_step. cbv zeta. work_step.
  destruct (rows_where _ (<[id:=a]> tbl)) as [|r1 rest] eqn:Hrows; cbn.
  - right. exists (set v a). rewrite insert_insert_eq. split; [done|].
    apply HR. intros j b Hj Hb Heq.
    pose proof (rows_where_nil _ _ Hrows j b) as Hnil. cbn in Hnil.
    rewrite lookup_insert_ne in Hnil by done.
    specialize (Hnil Hb). apply andb_false_iff in Hnil as [Hnil|Hnil].
    + by apply String.eqb_neq in Hnil.
    + apply negb_false_iff, Z.eqb_eq in Hnil. done.
  - left. by eexists.
Qed.

Lemma photo_step (lower : string → string) tbl id
    (R : Account.t → Account.t → Prop) a
    (photo : option Photo) (name : string → string) too_large failed
    unsupported :
  (∀ v, R a (Account.set_avatar_url v a)) → R a a →
  row_step tbl id R a
    (match photo with
     | Some (photo, size) =>
         let file_ext := lower (splitext_ext (filename photo)) in
         if bool_decide (file_ext ∈ avatar_extensions) then
           try_except_work
             (if MAX_PHOTO_SIZE <? size
              then http_error 400 too_large
              else mret ())
             (λ _, http_error 500 failed);;
           setattr_user (id, a) (Account.set_avatar_url (Some (name file_ext)))
         else http_error 400 unsupported
     | None => mret (id, a)
     end).
Proof.
  intros HR Hrefl. destruct photo as [[photo size]|];
    [|by apply row_step_ret].
  cbv zeta. destruct (bool_decide _); [|left; by eexists].
  unfold row_step. cbv zeta. work_step.
  destruct (MAX_PHOTO_SIZE <? size); cbn; [left; by eexists|].
  right. eexists. rewrite insert_insert_eq. split; [done|]. apply HR.
Qed.

Lemma profile_update_set_username tbl id a v :
  (∀ j b, j ≠ id → tbl !! j = Some b → Account.username b ≠ v) →
  profile_update tbl id a (Account.set_username v a).
Proof. intros H. repeat split; try done; [by right|by left]. Qed.

Lemma profile_update_set_email tbl id a v :
  (∀ j b, j ≠ id → tbl !! j = Some b → Account.email b ≠ v) →
  profile_update tbl id a (Account.set_email v a).
Proof. intros H. repeat split; try done; [by left|by right]. Qed.

Lemma profile_update_set_other tbl id a a' :
  Account.username a' = Account.username a →
  Account.email a' = Account.email a →
  Account.role_id a' = Account.role_id a →
  Account.hashed_password a' = Account.hashed_password a →
  Account.is_deleted a' = Account.is_deleted a →
  Account.deleted_at a' = Account.deleted_at a →
  profile_update tbl id a a'.
Proof. intros. repeat split; try done; by left. Qed.

Lemma update_profile_route lower uuid4 user_update photo tbl id a :
  row_route tbl id (profile_update tbl id) a
    (UserRoutes.update_profile lower uuid4 user_update photo (id, a)).
Proof.
  unfold UserRoutes.update_profile.
  apply row_step_bind; [apply profile_update_trans|..].
  { destruct (UserUpdate.username user_update) as [v|];
      [|apply row_step_ret, profile_update_refl].
    destruct (_ && _); [|apply row_step_ret, profile_update_refl].
    apply unique_then_set_step, profile_update_set_username. }
  intros a1 _. apply row_step_bind; [apply profile_update_trans|..].
  { destruct (UserUpdate.email user_update) as [v|];
      [|apply row_step_ret, profile_update_refl].
    destruct (_ && _); [|apply row_step_ret, profile_update_refl].
    apply unique_then_set_step, profile_update_set_email. }
  intros a2 _. apply row_step_bind; [apply profile_update_trans|..].
  { destruct (UserUpdate.full_name user_update) as [v|];
      [|apply row_step_ret, profile_update_refl].
    by apply row_step_setattr, profile_update_set_other. }
  intros a3 _. apply row_step_bind; [apply profile_update_trans|..].
  { destruct (UserUpdate.shift user_update) as [v|];
      [|apply row_step_ret, profile_update_refl].
    by apply row_step_setattr, profile_update_set_other. }
  intros a4 _. apply row_step_bind; [apply profile_update_trans|..].
  { apply (photo_step lower tbl id _ a4 photo
             (λ ext, "avatar_" +:+ pretty id +:+ "_" +:+ uuid4 +:+ ext)).
    - intros v. by apply profile_update_set_other.
    - apply profile_update_refl. }
  intros a5 _. apply row_route_commit, profile_update_refl.
Qed.

Lemma run_work_select_bind {A B} (f : Accounts → A) (g : A → Work B) tbl :
  run_work (select f ≫= g) tbl = run_work (g (f tbl)) tbl.
Proof. done. Qed.

Lemma admin_update_user_route lower uuid4 username full_name email shift photo
    tbl id a :
  row_route tbl id (profile_update tbl id) a
    (let target_user : UserObject := (id, a) in
     target_user ←
       match username with
       | Some username =>
           if truthy username
              && negb (String.eqb username (Account.username target_user.2))
           then
             existing ← select (rows_where (λ row,
                          String.eqb (Account.username row.2) username
                          && negb (row.1 =? id)));
             if nonempty existing
             then http_error 400 "Username занят"
             else setattr_user target_user (Account.set_username username)
           else mret target_user
       | None => mret target_user
       end;
     target_user ←
       match email with
       | Some email =>
           if truthy email
              && negb (String.eqb email (Account.email target_user.2))
           then
             existing ← select (rows_where (λ row,
                          String.eqb (Account.email row.2) email
                          && negb (row.1 =? id)));
             if nonempty existing
             then http_error 400 "Email занят"
             else setattr_user target_user (Account.set_email email)
           else mret target_user
       | None => mret target_user
       end;
     target_user ←
       match full_name with
       | Some full_name =>
           setattr_user target_user (Account.set_full_name full_name)
       | None => mret target_user
       end;
     target_user ←
       match shift with
       | Some shift => setattr_user target_user (Account.set_shift shift)
       | None => mret target_user
       end;
     target_user ←
       match photo with
       | Some (photo, size) =>
           let file_ext := lower (splitext_ext (filename photo)) in
           if bool_decide (file_ext ∈ avatar_extensions) then
             let filename :=
               "avatar_" +:+ pretty target_user.1 +:+ "_" +:+ uuid4
               +:+ file_ext in
             try_except_work
               (if MAX_PHOTO_SIZE <? size
                then http_error 400 "File too large. Max size: 5MB"
                else mret ())
               (λ _, http_error 500 "Failed to upload file");;
             setattr_user target_user
               (Account.set_avatar_url (Some ("/uploads/" +:+ filename)))
           else
             http_error 400
               "Unsupported file format. Allowed: jpg, jpeg, png, gif"
       | None => mret target_user
       end;
     commit_work;;
     mret target_user).
Proof.
  cbv zeta.
  apply row_step_bind; [apply profile_update_trans|..].
  { destruct username as [v|]; [|apply row_step_ret, profile_update_refl].
    destruct (_ && _); [|apply row_step_ret, profile_update_refl].
    apply unique_then_set_step_admin, profile_update_set_username. }
  intros a1 _. apply row_step_bind; [apply profile_update_trans|..].
  { destruct email as [v|]; [|apply row_step_ret, profile_update_refl].
    destruct (_ && _); [|apply row_step_ret, profile_update_refl].
    apply unique_then_set_step_admin, profile_update_set_email. }
  intros a2 _. apply row_step_bind; [apply profile_update_trans|..].
  { destruct full_name as [v|]; [|apply row_step_ret, profile_update_refl].
    by apply row_step_setattr, profile_update_set_other. }
  intros a3 _. apply row_step_bind; [apply profile_update_trans|..].
  { destruct shift as [v|]; [|apply row_step_ret, profile_update_refl].
    by apply row_step_setattr, profile_update_set_other. }
  intros a4 _. apply row_step_bind; [apply profile_update_trans|..].
  { apply (photo_step lower tbl id _ a4 photo
             (λ ext, "/uploads/"
                     +:+ ("avatar_" +:+ pretty id +:+ "_" +:+ uuid4 +:+ ext))).
    - intros v. by apply profile_update_set_other.
    - apply profile_update_refl. }
  intros a5 _. apply row_route_commit, profile_update_refl.
Qed.

(** [update_profile], from outside: an error and nothing stored, or the
    row of the caller rewritten. *)
Lemma run_update_profile lower uuid4 user_update photo tbl u :
  tbl !! u.1 = Some u.2 →
  (∃ e, run_work (UserRoutes.update_profile lower uuid4 user_update photo u) tbl
        = (Err e, tbl))
  ∨ (∃ a', run_work (UserRoutes.update_profile lower uuid4 user_update photo u) tbl
           = (Ok (u.1, a'), <[u.1 := a']> tbl)
           ∧ profile_update tbl u.1 u.2 a').
Proof.
  destruct u as [id a]. intros Ha.
  eapply row_route_run; [done|]. apply update_profile_route.
Qed.

(** [admin_update_user], from outside. *)
Lemma run_admin_update_user lower uuid4 id username full_name email shift photo
    tbl u :
  let r := run_work (AdminRoutes.admin_update_user lower uuid4 id username
                       full_name email shift photo u) tbl in
  (∃ e, r = (Err e, tbl))
  ∨ (∃ a a', Account.role_id u.2 = 2 ∧ tbl !! id = Some a
             ∧ r = (Ok (id, a'), <[id := a']> tbl)
             ∧ profile_update tbl id a a').
Proof.
  cbv zeta. unfold AdminRoutes.admin_update_user.
  destruct (Z.eqb_spec (Account.role_id u.2) 2) as [Hrole|Hrole]; cbn [negb];
    [|left; by eexists].
  rewrite run_work_select_bind.
  destruct (tbl !! id) as [a|] eqn:Ha; [|left; by eexists].
  destruct (row_route_run tbl id (profile_update tbl id) a _ Ha
              (admin_update_user_route lower uuid4 username full_name email shift
                 photo tbl id a)) as [(e & He)|(a' & Ha' & HR)].
  - left. exists e. exact He.
  - right. exists a, a'. split; [done|]. split; [done|].
    split; [exact Ha'|exact HR].
Qed.

(** *** The routes as equations *)

Lemma active_user_run id s :
  AdminRoutes.active_user id s
  = (Ok match loaded s !! id with
        | Some a => if Account.is_deleted a then None else Some (id, a)
        | None => None
        end, s).
Proof.
  unfold AdminRoutes.active_user. work_step.
  destruct (rows_where _ (loaded s)) as [|r1 [|r2 rest]] eqn:Hrows; cbn.
  - destruct (loaded s !! id) as [a|] eqn:Ha; [|done].
    pose proof (rows_where_nil _ _ Hrows id a Ha) as Hnil. cbn in Hnil.
    rewrite Z.eqb_refl in Hnil. cbn in Hnil.
    apply negb_false_iff in Hnil. by rewrite Hnil.
  - apply rows_where_one in Hrows as [Hr Hc]. destruct r1 as [j b].
    cbn in Hr, Hc. apply andb_true_iff in Hc as [->%Z.eqb_eq Hd].
    apply negb_true_iff in Hd. by rewrite Hr, Hd.
  - apply rows_where_two in Hrows as (Hne & _ & Hc1 & _ & Hc2).
    apply andb_true_iff in Hc1 as [Hc1%Z.eqb_eq _].
    apply andb_true_iff in Hc2 as [Hc2%Z.eqb_eq _]. congruence.
Qed.

Lemma run_delete_user now id u tbl :
  run_work (AdminRoutes.delete_user now id u) tbl
  = if negb (Account.role_id u.2 =? 2)
    then (Err (HTTP {| status_code := 403; detail := "Не авторизовано" |}),
          tbl)
    else
      match tbl !! id with
      | Some a =>
          if Account.is_deleted a
          then (Err (HTTP {| status_code := 404;
                             detail := "Пользователь не найден" |}), tbl)
          else (Ok "Пользователь помечен как удаленный"%string,
                <[id := deleted_account now a]> tbl)
      | None =>
          (Err (HTTP {| status_code := 404;
                        detail := "Пользователь не найден" |}), tbl)
      end.
Proof.
  unfold AdminRoutes.delete_user.
  destruct (negb _); [done|].
  unfold run_work, mbind, work_bind. rewrite active_user_run. cbn.
  destruct (tbl !! id) as [a|]; [|done].
  destruct (Account.is_deleted a); [done|].
  work_step. by rewrite insert_insert_eq.
Qed.

Lemma run_update_user_password lib id new_password u tbl :
  run_work (AdminRoutes.update_user_password lib id new_password u) tbl
  = if negb (Account.role_id u.2 =? 2)
    then (Err (HTTP {| status_code := 403; detail := "Не авторизовано" |}),
          tbl)
    else
      match tbl !! id with
      | Some a =>
          if Account.is_deleted a
          then (Err (HTTP {| status_code := 404;
                             detail := "Пользователь не найден" |}), tbl)
          else (Ok "Пароль обновлен"%string,
                <[id := Account.set_hashed_password
                          (hash_password lib new_password) a]> tbl)
      | None =>
          (Err (HTTP {| status_code := 404;
                        detail := "Пользователь не найден" |}), tbl)
      end.
Proof.
  unfold AdminRoutes.update_user_password.
  destruct (negb _); [done|].
  unfold run_work, mbind, work_bind. rewrite active_user_run. cbn.
  destruct (tbl !! id) as [a|]; [|done].
  by destruct (Account.is_deleted a).
Qed.

Lemma run_register lib user tbl :
  run_work (AuthRoutes.register lib user) tbl
  = match rows_where (λ row,
            String.eqb (Account.email row.2) (UserCreate.email user)
            || String.eqb (Account.username row.2) (UserCreate.username user))
            tbl with
    | [] => (Ok (next_id tbl, AuthRoutes.new_user lib user),
             <[next_id tbl := AuthRoutes.new_user lib user]> tbl)
    | [_] =>
        (Err (HTTP {| status_code := 400;
                      detail := "Электронная почта или имя пользователя уже зарегистрированы" |}),
         tbl)
    | _ => (Err MultipleResultsFound, tbl)
    end.
Proof.
  unfold AuthRoutes.register. work_step.
  by destruct (rows_where _ tbl) as [|r1 [|r2 rest]].
Qed.

Lemma run_login lib user tbl :
  run_work (AuthRoutes.login lib user) tbl
  = (match rows_where (λ row,
             String.eqb (Account.username row.2) (UserLogin.username user))
             tbl with
     | [db_user] =>
         if verify_password lib (UserLogin.password user)
              (Account.hashed_password db_user.2)
         then Ok (create_access_token lib (UserLogin.username user))
         else Err server_error_at_login
     | _ => Err server_error_at_login
     end, tbl).
Proof.
  unfold AuthRoutes.login. work_step.
  destruct (rows_where _ tbl) as [|r1 [|r2 rest]]; cbn; try done.
  by destruct (verify_password _ _ _).
Qed.

Lemma run_get_user_profile id u tbl :
  run_work (UserRoutes.get_user_profile id u) tbl
  = (match tbl !! id with
     | Some a =>
         if Account.is_deleted a
         then Err (HTTP {| status_code := 404; detail := "User not found" |})
         else Ok (id, a)
     | None => Err (HTTP {| status_code := 404; detail := "User not found" |})
     end, tbl).
Proof.
  unfold UserRoutes.get_user_profile. work_step.
  destruct (tbl !! id) as [a|]; [|done]. by destruct (Account.is_deleted a).
Qed.

(** *** What a request does to the table of users *)

(** A request leaves the table as it was, or adds one row under a new key
    (a registration), or rewrites one row, for a caller who is that user or
    an administrator. *)
Lemma handle_account_effect lib lower now r tbl :
  let tbl' := (handle_account lib lower now r tbl).2 in
  tbl' = tbl
  ∨ (∃ user, r = Register user
       ∧ tbl' = <[next_id tbl := AuthRoutes.new_user lib user]> tbl
       ∧ ∀ j b, tbl !! j = Some b →
           Account.username b ≠ UserCreate.username user
           ∧ Account.email b ≠ UserCreate.email user)
  ∨ (∃ u id a a',
       caller lib r tbl = Some u
       ∧ tbl !! id = Some a
       ∧ tbl' = <[id := a']> tbl
       ∧ keeps_identity tbl id a a'
       ∧ (Account.role_id u.2 = 2
          ∨ u.1 = id
            ∧ Account.hashed_password a' = Account.hashed_password a
            ∧ Account.is_deleted a' = Account.is_deleted a
            ∧ Account.deleted_at a' = Account.deleted_at a)).
Proof.
  cbv zeta. destruct r as [user|token uuid4 upd photo|token id pw|token id
                           |token uuid4 id username full_name email shift photo];
    cbn [handle_account]; unfold answer; cbn [snd].
  - rewrite run_register.
    destruct (rows_where _ tbl) as [|r1 [|r2 rest]] eqn:Hrows; cbn;
      [|by left..].
    right; left. exists user. split; [done|]. split; [done|].
    intros j b Hb. pose proof (rows_where_nil _ _ Hrows j b Hb) as Hnil.
    cbn in Hnil. apply orb_false_iff in Hnil as [He Hn].
    apply String.eqb_neq in He, Hn. done.
  - destruct (run_authenticated lib token
                (UserRoutes.update_profile lower uuid4 upd photo) tbl)
      as [(e & ->)|(u & Hu & Hcur & ->)]; [by left|].
    destruct (run_update_profile lower uuid4 upd photo tbl u Hu)
      as [(e & ->)|(a' & -> & Hk & Hrest)]; [by left|].
    right; right. exists u, u.1, u.2, a'. unfold caller. cbn. rewrite Hcur.
    split; [done|]. split; [done|]. split; [done|]. split; [done|].
    by right.
  - destruct (run_authenticated lib token
                (AdminRoutes.update_user_password lib id pw) tbl)
      as [(e & ->)|(u & Hu & Hcur & ->)]; [by left|].
    rewrite run_update_user_password.
    destruct (Z.eqb_spec (Account.role_id u.2) 2) as [Hrole|]; cbn [negb];
      [|by left].
    destruct (tbl !! id) as [a|] eqn:Ha; [|by left].
    destruct (Account.is_deleted a); [by left|].
    right; right. exists u, id, a. eexists. unfold caller. cbn. rewrite Hcur.
    split; [done|]. split; [done|]. split; [done|].
    split; [repeat split; by left|by left].
  - destruct (run_authenticated lib token
                (AdminRoutes.delete_user now id) tbl)
      as [(e & ->)|(u & Hu & Hcur & ->)]; [by left|].
    rewrite run_delete_user.
    destruct (Z.eqb_spec (Account.role_id u.2) 2) as [Hrole|]; cbn [negb];
      [|by left].
    destruct (tbl !! id) as [a|] eqn:Ha; [|by left].
    destruct (Account.is_deleted a); [by left|].
    right; right. exists u, id, a. eexists. unfold caller. cbn. rewrite Hcur.
    split; [done|]. split; [done|]. split; [done|].
    split; [repeat split; by left|by left].
  - destruct (run_authenticated lib token
                (AdminRoutes.admin_update_user lower uuid4 id username full_name
                   email shift photo) tbl)
      as [(e & ->)|(u & Hu & Hcur & ->)]; [by left|].
    destruct (run_admin_update_user lower uuid4 id username full_name email shift
                photo tbl u) as [(e & ->)|(a & a' & Hrole & Ha & -> & Hk & _)];
      [by left|].
    right; right. exists u, id, a, a'. unfold caller. cbn. rewrite Hcur.
    split; [done|]. split; [done|]. split; [done|]. split; [done|by left].
Qed.

Lemma unique_names_accounts0 : unique_names accounts0.
Proof.
  intros i j a b Hi Hj Heq. unfold accounts0 in *.
  rewrite !lookup_insert_Some, lookup_singleton_Some in Hi, Hj.
  repeat (destruct_or! || destruct_and!); subst; try done;
    vm_compute in Heq; discriminate.
Qed.

(** The two [unique] columns are kept by the routes themselves: if no two
    rows share a user name or an address, then whatever the request
    (registration, profile form, form of the administrator, new password,
    deletion) and whoever sends it, no two rows do afterwards. *)
Theorem accounts_stay_unique lib lower now r tbl :
  unique_names tbl → unique_names (handle_account lib lower now r tbl).2.
Proof.
  intros Hu.
  destruct (handle_account_effect lib lower now r tbl)
    as [->|[(user & _ & -> & Hfresh)
           |(u & id & a & a' & _ & Ha & -> & (_ & Hn & He) & _)]]; [done|..].
  - pose proof (next_id_fresh tbl) as Hnew.
    intros i j x y Hi Hj Heq.
    apply lookup_insert_Some in Hi as [[<- <-]|[Hni Hi]];
      apply lookup_insert_Some in Hj as [[<- <-]|[Hnj Hj]]; [done|..].
    + destruct (Hfresh j y Hj) as [? ?]. cbn in Heq.
      destruct Heq; congruence.
    + destruct (Hfresh i x Hi) as [? ?]. cbn in Heq.
      destruct Heq; congruence.
    + by eapply Hu.
  - intros i j x y Hi Hj Heq.
    apply lookup_insert_Some in Hi as [[<- <-]|[Hni Hi]];
      apply lookup_insert_Some in Hj as [[<- <-]|[Hnj Hj]]; [done|..].
    + destruct Heq as [Heq|Heq].
      * destruct Hn as [Hn|Hn]; [|by destruct (Hn j y)].
        eapply Hu; [exact Ha|exact Hj|]. left. congruence.
      * destruct He as [He|He]; [|by destruct (He j y)].
        eapply Hu; [exact Ha|exact Hj|]. right. congruence.
    + destruct Heq as [Heq|Heq].
      * destruct Hn as [Hn|Hn]; [|by destruct (Hn i x)].
        eapply Hu; [exact Hi|exact Ha|]. left. congruence.
      * destruct He as [He|He]; [|by destruct (He i x)].
        eapply Hu; [exact Hi|exact Ha|]. right. congruence.
    + by eapply Hu.
Qed.

Lemma accounts_stay_unique_witness :
  unique_names
    (handle_account lib0 ascii_lower 0
       (UpdateProfile (Some "jwt:anna"%string) "0f"
          {| UserUpdate.username := Some "anya"%string;
             UserUpdate.full_name := None;
             UserUpdate.email := Some "anna@example.com"%string;
             UserUpdate.shift := None |} None) accounts0).2.
Proof.
  apply (accounts_stay_unique lib0 ascii_lower 0
           (UpdateProfile (Some "jwt:anna"%string) "0f"
              {| UserUpdate.username := Some "anya"%string;
                 UserUpdate.full_name := None;
                 UserUpdate.email := Some "anna@example.com"%string;
                 UserUpdate.shift := None |} None) accounts0).
  exact unique_names_accounts0.
Defined.

(** No request changes a role, removes a row, or makes an administrator:
    every row is still there afterwards with the role it had, and a row
    that is new has role 1. *)
Theorem roles_are_fixed lib lower now r tbl :
  let tbl' := (handle_account lib lower now r tbl).2 in
  (∀ id a, tbl !! id = Some a →
           ∃ a', tbl' !! id = Some a'
                 ∧ Account.role_id a' = Account.role_id a)
  ∧ (∀ id a', tbl' !! id = Some a' → tbl !! id = None →
              Account.role_id a' = 1).
Proof.
  cbv zeta.
  destruct (handle_account_effect lib lower now r tbl)
    as [->|[(user & _ & -> & _)
           |(u & id & a & a' & _ & Ha & -> & (Hrole & _) & _)]].
  - split; [by eauto|]. intros; congruence.
  - pose proof (next_id_fresh tbl) as Hnew. split.
    + intros id a Ha. exists a. split; [|done].
      rewrite lookup_insert_ne; [done|congruence].
    + intros id a' [[<- <-]|[_ Hi]]%lookup_insert_Some Hnone;
        [done|congruence].
  - split.
    + intros j b Hb. destruct (decide (id = j)) as [<-|Hne].
      * exists a'. rewrite lookup_insert_eq. split; [done|congruence].
      * exists b. by rewrite lookup_insert_ne.
    + intros j b [[<- <-]|[_ Hi]]%lookup_insert_Some Hnone; congruence.
Qed.

(** A row changes only for its own user or for an administrator, and only
    an administrator changes a password hash or a deletion mark: when a
    request has changed the row [id], its caller is authenticated and is
    that user or has role 2, and in the first case the hash and the mark of
    the row are as they were. *)
Theorem rows_change_for_self_or_admin lib lower now r tbl id a :
  tbl !! id = Some a →
  (handle_account lib lower now r tbl).2 !! id ≠ Some a →
  ∃ u a',
    caller lib r tbl = Some u
    ∧ (handle_account lib lower now r tbl).2 !! id = Some a'
    ∧ (Account.role_id u.2 = 2
       ∨ u.1 = id
         ∧ Account.hashed_password a' = Account.hashed_password a
         ∧ Account.is_deleted a' = Account.is_deleted a
         ∧ Account.deleted_at a' = Account.deleted_at a).
Proof.
  intros Ha.
  destruct (handle_account_effect lib lower now r tbl)
    as [->|[(user & _ & -> & _)
           |(u & id0 & a0 & a' & Hcaller & Ha0 & -> & _ & Hwho)]].
  - done.
  - pose proof (next_id_fresh tbl) as Hnew.
    rewrite lookup_insert_ne; [done|congruence].
  - destruct (decide (id0 = id)) as [->|Hne].
    + intros _. exists u, a'. rewrite lookup_insert_eq.
      split; [done|]. split; [done|]. by simplify_eq.
    + by rewrite lookup_insert_ne.
Qed.

Lemma rows_change_for_self_or_admin_witness :
  ∃ u a',
    caller lib0 (DeleteUser (Some "jwt:root"%string) 20) accounts0 = Some u
    ∧ (handle_account lib0 ascii_lower 7 (DeleteUser (Some "jwt:root"%string) 20)
         accounts0).2 !! 20 = Some a'
    ∧ (Account.role_id u.2 = 2
       ∨ u.1 = 20
         ∧ Account.hashed_password a' = Account.hashed_password boris
         ∧ Account.is_deleted a' = Account.is_deleted boris
         ∧ Account.deleted_at a' = Account.deleted_at boris).
Proof.
  apply (rows_change_for_self_or_admin lib0 ascii_lower 7
           (DeleteUser (Some "jwt:root"%string) 20) accounts0 20 boris).
  - reflexivity.
  - by vm_compute.
Defined.

(** *** Registration and login *)

Lemma taken_spec user (row : UserObject) :
  String.eqb (Account.email row.2) (UserCreate.email user)
  || String.eqb (Account.username row.2) (UserCreate.username user) = true
  ↔ taken user row.2.
Proof. unfold taken. by rewrite orb_true_iff, !String.eqb_eq. Qed.

(** [register] has three outcomes.  When no row has the address or the user
    name, it stores a new row under a new key, with role 1 and not deleted.
    When exactly one row has one of them (or both), it answers 400.  When
    the address belongs to one row and the user name to another, the
    [scalar_one_or_none] of its check raises [MultipleResultsFound], which
    the route does not handle.  The two refusals store nothing. *)
Theorem register_outcomes lib user tbl :
  let r := run_work (AuthRoutes.register lib user) tbl in
  ((∀ i a, tbl !! i = Some a → ¬ taken user a) →
   r = (Ok (next_id tbl, AuthRoutes.new_user lib user),
        <[next_id tbl := AuthRoutes.new_user lib user]> tbl)
   ∧ tbl !! next_id tbl = None
   ∧ Account.role_id (AuthRoutes.new_user lib user) = 1
   ∧ Account.is_deleted (AuthRoutes.new_user lib user) = false)
  ∧ (∀ i a, tbl !! i = Some a → taken user a →
            (∀ j b, tbl !! j = Some b → taken user b → j = i) →
            r = (Err (HTTP {| status_code := 400;
                              detail := "Электронная почта или имя пользователя уже зарегистрированы" |}),
                 tbl))
  ∧ (∀ i j a b, i ≠ j → tbl !! i = Some a → tbl !! j = Some b →
                taken user a → taken user b →
                r = (Err MultipleResultsFound, tbl)).
Proof.
  cbv zeta. rewrite run_register.
  destruct (rows_where _ tbl) as [|r1 [|r2 rest]] eqn:Hrows.
  - split; [intros _; split; [done|]; split; [apply next_id_fresh|done]|].
    split.
    + intros i a Ha Ht _.
      pose proof (rows_where_nil _ _ Hrows i a Ha) as Hnil.
      apply (taken_spec user (i, a)) in Ht. congruence.
    + intros i j a b _ Ha _ Ht _.
      pose proof (rows_where_nil _ _ Hrows i a Ha) as Hnil.
      apply (taken_spec user (i, a)) in Ht. congruence.
  - apply rows_where_one in Hrows as Hone. destruct Hone as [H1 Hc1].
    apply taken_spec in Hc1. split; [|split; [done|]].
    + intros Hnone. by destruct (Hnone _ _ H1).
    + intros i j a b Hne Ha Hb Hta Htb.
      assert (Hi : (i, a) ∈ rows_where
                (λ row, String.eqb (Account.email row.2) (UserCreate.email user)
                        || String.eqb (Account.username row.2)
                             (UserCreate.username user)) tbl)
        by (apply elem_of_rows_where; split; [done|by apply taken_spec]).
      assert (Hj : (j, b) ∈ rows_where
                (λ row, String.eqb (Account.email row.2) (UserCreate.email user)
                        || String.eqb (Account.username row.2)
                             (UserCreate.username user)) tbl)
        by (apply elem_of_rows_where; split; [done|by apply taken_spec]).
      rewrite Hrows in Hi, Hj.
      apply list_elem_of_singleton in Hi, Hj. congruence.
  - apply rows_where_two in Hrows as (Hne & H1 & Hc1 & H2 & Hc2).
    apply taken_spec in Hc1, Hc2. split; [|split; [|done]].
    + intros Hnone. by destruct (Hnone _ _ H1).
    + intros i a Ha Ht Honly. destruct Hne.
      rewrite (Honly _ _ H1 Hc1), (Honly _ _ H2 Hc2). done.
Qed.

(** With unique names, the query of [login] and of [get_current_user]
    finds the row that has the name. *)
Lemma rows_where_username_of tbl id a :
  unique_names tbl → tbl !! id = Some a →
  rows_where (λ row, String.eqb (Account.username row.2) (Account.username a))
    tbl = [(id, a)].
Proof.
  intros Hu Ha.
  assert (Hin : (id, a) ∈ rows_where
            (λ row, String.eqb (Account.username row.2) (Account.username a))
            tbl).
  { apply elem_of_rows_where. split; [done|]. cbn. apply String.eqb_refl. }
  destruct (rows_where_username tbl (Account.username a) Hu)
    as [Hnil|[r Hr]]; rewrite ?Hnil, ?Hr in Hin |- *.
  - by apply elem_of_nil in Hin.
  - apply list_elem_of_singleton in Hin. by subst.
Qed.

(** [login] answers with the cookie or with status 500, never with the 401
    that it raises: its [except Exception] catches it.  It succeeds exactly
    when a row has the user name and the password matches the hash of that
    row; the deletion mark is not looked at.  Nothing is written. *)
Theorem login_outcomes lib user tbl :
  unique_names tbl →
  let r := run_work (AuthRoutes.login lib user) tbl in
  r.2 = tbl
  ∧ (r.1 = Ok (create_access_token lib (UserLogin.username user))
     ∨ r.1 = Err server_error_at_login)
  ∧ (is_ok r.1 = true
     ↔ ∃ id a, tbl !! id = Some a
               ∧ Account.username a = UserLogin.username user
               ∧ verify_password lib (UserLogin.password user)
                   (Account.hashed_password a) = true).
Proof.
  intros Hu. cbv zeta. rewrite run_login. cbn [fst snd]. split; [done|].
  destruct (rows_where_username tbl (UserLogin.username user) Hu)
    as [Hnil|[[id a] Hr]]; rewrite ?Hnil, ?Hr.
  - split; [by right|]. split; [done|].
    intros (id & a & Ha & Hn & _).
    pose proof (rows_where_nil _ _ Hnil id a Ha) as Hnone. cbn in Hnone.
    apply String.eqb_neq in Hnone. done.
  - apply rows_where_one in Hr as Hone. destruct Hone as [Ha Hn].
    cbn in Ha, Hn. apply String.eqb_eq in Hn. cbn [snd].
    destruct (verify_password lib _ (Account.hashed_password a)) eqn:Hv.
    + split; [by left|]. split; [|done]. intros _. by exists id, a.
    + split; [by right|]. split; [done|].
      intros (j & b & Hb & Hnb & Hvb).
      assert (j = id) as -> by (eapply Hu; eauto; left; congruence).
      simplify_eq. congruence.
Qed.

Lemma login_outcomes_witness :
  (run_work (AuthRoutes.login lib0
               {| UserLogin.username := "anna";
                  UserLogin.password := "secret" |}) accounts0).1
  = Ok "jwt:anna"%string
  ∨ (run_work (AuthRoutes.login lib0
                 {| UserLogin.username := "anna";
                    UserLogin.password := "secret" |}) accounts0).1
    = Err server_error_at_login.
Proof.
  apply (login_outcomes lib0
           {| UserLogin.username := "anna"; UserLogin.password := "secret" |}
           accounts0).
  exact unique_names_accounts0.
Defined.

(** *** Deleted users *)

Lemma unique_names_deleted now tbl id a :
  unique_names tbl → tbl !! id = Some a →
  unique_names (<[id := deleted_account now a]> tbl).
Proof.
  intros Hu Ha i j x y Hi Hj Heq.
  apply lookup_insert_Some in Hi as [[<- <-]|[Hni Hi]];
    apply lookup_insert_Some in Hj as [[<- <-]|[Hnj Hj]]; [done|..];
    by eapply Hu.
Qed.

Lemma get_current_user_finds lib token tbl id a :
  unique_names tbl → tbl !! id = Some a →
  truthy token = true →
  jwt_sub lib token = Some (Some (Account.username a)) →
  run_work (AuthRoutes.get_current_user lib (Some token)) tbl
  = (Ok (id, a), tbl).
Proof.
  intros Hu Ha Ht Hsub. unfold AuthRoutes.get_current_user.
  rewrite Ht, Hsub. work_step. by rewrite (rows_where_username_of tbl id a).
Qed.

(** A user whom an administrator has deleted is hidden and still signs in.
    After [delete_user], [get_user_profile] answers 404 for the user, while
    [login] with the password of the user gives a cookie, and
    [get_current_user] accepts that cookie and returns the deleted row:
    neither looks at the deletion mark.  (The password matches the hash, and
    the token that [login] issues decodes to its subject.) *)
Theorem deleted_user_still_signs_in lib now id admin tbl a password viewer :
  unique_names tbl →
  tbl !! id = Some a →
  Account.is_deleted a = false →
  Account.role_id admin.2 = 2 →
  verify_password lib password (Account.hashed_password a) = true →
  truthy (create_access_token lib (Account.username a)) = true →
  jwt_sub lib (create_access_token lib (Account.username a))
  = Some (Some (Account.username a)) →
  let tbl' := (run_work (AdminRoutes.delete_user now id admin) tbl).2 in
  tbl' = <[id := deleted_account now a]> tbl
  ∧ run_work (UserRoutes.get_user_profile id viewer) tbl'
    = (Err (HTTP {| status_code := 404; detail := "User not found" |}), tbl')
  ∧ run_work (AuthRoutes.login lib
                {| UserLogin.username := Account.username a;
                   UserLogin.password := password |}) tbl'
    = (Ok (create_access_token lib (Account.username a)), tbl')
  ∧ run_work (AuthRoutes.get_current_user lib
                (Some (create_access_token lib (Account.username a)))) tbl'
    = (Ok (id, deleted_account now a), tbl').
Proof.
  intros Hu Ha Hd Hrole Hv Ht Hsub tbl'. subst tbl'.
  rewrite run_delete_user, Hrole, Ha, Hd.
  change (negb (2 =? 2)) with false. cbn [snd].
  assert (Hrow : <[id := deleted_account now a]> tbl !! id
                 = Some (deleted_account now a)) by apply lookup_insert_eq.
  pose proof (unique_names_deleted now tbl id a Hu Ha) as Hu'.
  split; [done|]. split; [|split].
  - by rewrite run_get_user_profile, Hrow.
  - rewrite run_login. cbn [UserLogin.username UserLogin.password].
    change (Account.username a)
      with (Account.username (deleted_account now a)) at 1.
    rewrite (rows_where_username_of _ id _ Hu' Hrow). cbn. by rewrite Hv.
  - by apply get_current_user_finds.
Qed.

Lemma deleted_user_still_signs_in_witness :
  run_work (AuthRoutes.login lib0
              {| UserLogin.username := Account.username boris;
                 UserLogin.password := "hunter2" |})
    (run_work (AdminRoutes.delete_user 7 20 (30, root)) accounts0).2
  = (Ok (create_access_token lib0 (Account.username boris)),
     (run_work (AdminRoutes.delete_user 7 20 (30, root)) accounts0).2).
Proof.
  apply (deleted_user_still_signs_in lib0 7 20 (30, root) accounts0
           boris "hunter2" (10, anna) unique_names_accounts0);
    reflexivity.
Defined.

Lemma users_of_lookup tbl id :
  users_of tbl !! id = (λ a, user_of (id, a)) <$> tbl !! id.
Proof.
  unfold users_of. rewrite map_lookup_imap.
  by destruct (tbl !! id).
Qed.

(** A deleted user cannot be given a task.  Once [delete_user] has marked
    the user, [reassign_task] to that user is refused whoever asks and
    whatever the task, and [create_task] for that user is answered with
    status 500; neither stores anything. *)
Theorem deleted_user_gets_no_task now id admin tbl db env request task_id u
    title description due_date status priority images :
  is_ok (run_work (AdminRoutes.delete_user now id admin) tbl).1 = true →
  TaskRoutes.new_assignee_id request = id →
  let db' :=
    with_accounts (run_work (AdminRoutes.delete_user now id admin) tbl).2 db in
  is_return (run (TaskRoutes.reassign_task request task_id u) db').1 = false
  ∧ (run (TaskRoutes.reassign_task request task_id u) db').2 = db'
  ∧ run (TaskRoutes.create_task env title description id due_date status
           priority images u) db'
    = (Raise {| status_code := 500;
                detail := "Ошибка при создании задачи: 404: Исполнитель не найден" |},
       db').
Proof.
  rewrite run_delete_user.
  destruct (negb _); [done|].
  destruct (tbl !! id) as [a|] eqn:Ha; [|done].
  destruct (Account.is_deleted a); [done|].
  intros _ Hreq db'. subst db'. cbn [snd].
  assert (Has : assignee_active
                  (with_accounts (<[id := deleted_account now a]> tbl) db) id
                = false).
  { unfold assignee_active, with_accounts. cbn [users].
    by rewrite users_of_lookup, lookup_insert_eq. }
  rewrite run_reassign_task, run_create_task, Hreq, Has.
  split; [|split; [|done]].
  - destruct (tasks _ !! task_id) as [t|]; [|done].
    destruct (Task.is_deleted t); [done|].
    by destruct (TaskRoutes.lacks_rights u t).
  - destruct (tasks _ !! task_id) as [t|]; [|done].
    destruct (Task.is_deleted t); [done|].
    by destruct (TaskRoutes.lacks_rights u t).
Qed.

Lemma deleted_user_gets_no_task_witness :
  is_return
    (run (TaskRoutes.reassign_task
            {| TaskRoutes.new_assignee_id := 20; TaskRoutes.comment := None |}
            1 author)
       (with_accounts
          (run_work (AdminRoutes.delete_user 7 20 (30, root)) accounts0).2
          db0)).1
  = false.
Proof.
  apply (deleted_user_gets_no_task 7 20 (30, root) accounts0 db0 env0
           {| TaskRoutes.new_assignee_id := 20; TaskRoutes.comment := None |}
           1 author "Check valve" None None {| status_value := "active" |}
           {| priority_value := "high" |} []); reflexivity.
Defined.

(** *** The photo of a profile *)

(** A profile form with a photo (and no new user name or address).  A
    photo whose extension is not one of [.jpg .jpeg .png .gif] is answered
    400.  A photo of more than 5 MiB is answered 500, not 400: the 400 is
    raised inside the [try] around the upload and caught by its [except
    Exception].  Both store nothing, the name and the shift of the same form
    included.  Otherwise the row gets the name of the stored file, which
    [update_profile] records bare and [admin_update_user] under
    [/uploads/]. *)
Theorem photo_outcomes lower uuid4 full_name shift photo size u user_id admin tbl :
  let file_ext := lower (splitext_ext (filename photo)) in
  let form := {| UserUpdate.username := None;
                 UserUpdate.full_name := full_name;
                 UserUpdate.email := None; UserUpdate.shift := shift |} in
  let r := run_work (UserRoutes.update_profile lower uuid4 form
                       (Some (photo, size)) u) tbl in
  let r' := run_work (AdminRoutes.admin_update_user lower uuid4 user_id None
                        full_name None shift (Some (photo, size)) admin)
              tbl in
  (file_ext ∉ avatar_extensions →
   r = (Err (HTTP {| status_code := 400;
                     detail := "Неподдерживаемый формат файла. Разрешено: jpg, jpeg, png, gif" |}),
        tbl)
   ∧ is_ok r'.1 = false ∧ r'.2 = tbl)
  ∧ (file_ext ∈ avatar_extensions → MAX_PHOTO_SIZE < size →
     r = (Err (HTTP {| status_code := 500;
                       detail := "Не удалось загрузить файл" |}), tbl)
     ∧ is_ok r'.1 = false ∧ r'.2 = tbl
     ∧ (Account.role_id admin.2 = 2 → is_Some (tbl !! user_id) →
        r'.1 = Err (HTTP {| status_code := 500;
                            detail := "Failed to upload file" |})))
  ∧ (file_ext ∈ avatar_extensions → size ≤ MAX_PHOTO_SIZE →
     let name := "avatar_" +:+ pretty u.1 +:+ "_" +:+ uuid4 +:+ file_ext in
     let name' := "avatar_" +:+ pretty user_id +:+ "_" +:+ uuid4
                  +:+ file_ext in
     is_ok r.1 = true
     ∧ Account.avatar_url <$> r.2 !! u.1 = Some (Some name)
     ∧ (Account.role_id admin.2 = 2 → is_Some (tbl !! user_id) →
        is_ok r'.1 = true
        ∧ Account.avatar_url <$> r'.2 !! user_id
          = Some (Some ("/uploads/" +:+ name')))).
Proof.
  cbv zeta. unfold UserRoutes.update_profile, AdminRoutes.admin_update_user.
  cbn [UserUpdate.username UserUpdate.email UserUpdate.full_name
       UserUpdate.shift].
  destruct (Z.eqb_spec (Account.role_id admin.2) 2) as [Hrole|Hrole];
    cbn [negb].
  all: destruct (tbl !! user_id) as [a|] eqn:Ha.
  all: destruct full_name as [fn|], shift as [sh|].
  all: work_step; rewrite ?Ha; cbn.
  all: case_bool_decide as Hext; cbn.
  all: destruct (Z.ltb_spec MAX_PHOTO_SIZE size) as [Hsz|Hsz]; cbn.
  all: repeat split; try done; try lia.
  all: try (intros _ _; rewrite ?lookup_insert_eq; done).
  all: try (intros _ [? [=]]).
  all: try (intros; rewrite ?lookup_insert_eq; done).
Qed.

(** *** The lists of users *)

Lemma and_ilike_implies ilike column x where_ (row : UserObject) :
  UserRoutes.and_ilike ilike column x where_ row = true → where_ row = true.
Proof.
  unfold UserRoutes.and_ilike. destruct x as [x|]; [|done].
  destruct (truthy x); [|done]. by intros [? _]%andb_true_iff.
Qed.

Lemma and_role_implies role where_ (row : UserObject) :
  UserRoutes.and_role role where_ row = true →
  where_ row = true
  ∧ ∀ w, role = Some w → w ≠ 0 → Account.role_id row.2 = w.
Proof.
  unfold UserRoutes.and_role. destruct role as [w|]; [|done].
  destruct (Z.eqb_spec w 0) as [->|Hw]; cbn.
  - intros ?. split; [done|]. by intros ? [= <-].
  - intros [? ->%Z.eqb_eq]%andb_true_iff. split; [done|]. by intros ? [= <-].
Qed.

(** [search_users], and [get_users] for an administrator, show users who
    are not deleted, and none else: every row of their answer is a row of
    the table whose deletion mark is clear, with the role that the request
    names when it names one other than 0; the answer has at most [limit]
    rows.  Nothing is written. *)
Theorem user_lists_show_active_users ilike order any_order username full_name
    email role_id role limit limit' u admin tbl :
  (∀ l, order l ≡ₚ l) →
  (∀ l, any_order l ≡ₚ l) →
  Account.role_id admin.2 = 2 →
  ∃ found listed,
    run_work (UserRoutes.search_users ilike order username full_name email
                role_id limit u) tbl = (Ok found, tbl)
    ∧ run_work (AdminRoutes.get_users any_order role limit' admin) tbl
      = (Ok listed, tbl)
    ∧ (length found ≤ limit)%nat ∧ (length listed ≤ limit')%nat
    ∧ (∀ id a, (id, a) ∈ found →
         tbl !! id = Some a ∧ Account.is_deleted a = false
         ∧ ∀ w, role_id = Some w → w ≠ 0 → Account.role_id a = w)
    ∧ (∀ id a, (id, a) ∈ listed →
         tbl !! id = Some a ∧ Account.is_deleted a = false
         ∧ ∀ w, role = Some w → w ≠ 0 → Account.role_id a = w).
Proof.
  intros Hperm Hperm' Hrole.
  unfold UserRoutes.search_users, AdminRoutes.get_users.
  rewrite Hrole. change (negb (2 =? 2)) with false. cbv iota.
  work_step. eexists _, _. split; [reflexivity|]. split; [reflexivity|].
  split; [rewrite length_take; lia|]. split; [rewrite length_take; lia|].
  split.
  - intros id a Hin%subseteq_take. rewrite Hperm in Hin.
    apply elem_of_rows_where in Hin as [Ha Hw].
    apply and_role_implies in Hw as [Hw Hr].
    do 3 apply and_ilike_implies in Hw. cbn in Hw.
    apply negb_true_iff in Hw. done.
  - intros id a Hin%subseteq_take. rewrite Hperm' in Hin.
    apply elem_of_rows_where in Hin as [Ha Hw].
    apply and_role_implies in Hw as [Hw Hr]. cbn in Hw.
    apply negb_true_iff in Hw. done.
Qed.

Lemma user_lists_show_active_users_witness :
  ∃ found listed,
    run_work (UserRoutes.search_users (λ _ _, true) reverse
                (Some "an"%string) None None None 10 (10, anna))
      accounts1 = (Ok found, accounts1)
    ∧ run_work (AdminRoutes.get_users reverse (Some 1) 10 (30, root))
        accounts1 = (Ok listed, accounts1)
    ∧ (length found ≤ 10)%nat ∧ (length listed ≤ 10)%nat
    ∧ (∀ id a, (id, a) ∈ found →
         accounts1 !! id = Some a
         ∧ Account.is_deleted a = false
         ∧ ∀ w, None = Some w → w ≠ 0 → Account.role_id a = w)
    ∧ (∀ id a, (id, a) ∈ listed →
         accounts1 !! id = Some a
         ∧ Account.is_deleted a = false
         ∧ ∀ w, Some 1 = Some w → w ≠ 0 → Account.role_id a = w).
Proof.
  apply (user_lists_show_active_users (λ _ _, true) reverse reverse
           (Some "an"%string) None None None (Some 1) 10 10 (10, anna)
           (30, root) accounts1).
  - intros l. apply reverse_Permutation.
  - intros l. apply reverse_Permutation.
  - reflexivity.
Defined.

(** *** The tasks of a shift *)

(** [get_shift_tasks] asks the caller for a shift of their own and then
    does not use it: for any caller whose shift is not empty it lists the
    tasks that are not deleted, whose assignee is on the shift named in the
    request, and whose status is not [COMPLETED]; each of them once.  A
    caller whose shift is empty is answered 400.  Nothing is written. *)
Theorem get_shift_tasks_lists COMPLETED order accounts shift u me db :
  (∀ l, order l ≡ₚ l) →
  accounts !! User.user_id u = Some me →
  (Account.shift me = ""%string →
   run (get_shift_tasks COMPLETED order accounts shift u) db
   = (Raise {| status_code := 400;
               detail := "Смена пользователя не определена" |}, db))
  ∧ (Account.shift me ≠ ""%string →
     ∃ rows,
       run (get_shift_tasks COMPLETED order accounts shift u) db
       = (Return rows, db)
       ∧ NoDup rows
       ∧ ∀ id t,
           (id, t) ∈ rows
           ↔ tasks db !! id = Some t
             ∧ Task.is_deleted t = false
             ∧ (∃ assignee, accounts !! Task.assignee_id t = Some assignee
                            ∧ Account.shift assignee = shift)
             ∧ status_value (Task.status t) ≠ status_value COMPLETED).
Proof.
  intros Hperm Hme. unfold get_shift_tasks. rewrite Hme. cbn [fmap option_fmap
    option_map from_option].
  split.
  - intros ->. done.
  - intros Hshift. apply truthy_spec in Hshift. rewrite Hshift.
    session_step. eexists. split; [reflexivity|]. split.
    { rewrite Hperm. apply NoDup_filter, NoDup_map_to_list. }
    intros id t. rewrite Hperm, list_elem_of_filter, elem_of_map_to_list.
    cbn [snd].
    destruct (accounts !! Task.assignee_id t) as [assignee|].
    + rewrite !andb_true_iff, !negb_true_iff, String.eqb_eq, String.eqb_neq.
      split.
      * intros [[[? ?] ?] ?]. repeat split; try done. by exists assignee.
      * intros (? & ? & (? & [= <-] & ?) & ?). done.
    + split; [by intros [? ?]|]. by intros (_ & _ & (? & ? & _) & _).
Qed.

Lemma get_shift_tasks_lists_witness :
  run (get_shift_tasks {| status_value := "completed" |} reverse
         (<[10 := Account.set_shift "" anna]> accounts0) "night" author) db0
  = (Raise {| status_code := 400;
              detail := "Смена пользователя не определена" |}, db0).
Proof.
  apply (get_shift_tasks_lists {| status_value := "completed" |} reverse
           (<[10 := Account.set_shift "" anna]> accounts0) "night" author
           (Account.set_shift "" anna) db0).
  - intros l. apply reverse_Permutation.
  - reflexivity.
  - reflexivity.
Defined.

(** ** Serving an image *)

Lemma contains_tail sub c s :
  contains sub (String c s) = false → contains sub s = false.
Proof. cbn [contains]. by intros [_ ?]%orb_false_iff. Qed.

Lemma contains_lstrip sub c s :
  contains sub s = false → contains sub (lstrip c s) = false.
Proof.
  induction s as [|c' s IH]; [done|]. intros Hs. cbn [lstrip].
  destruct (Ascii.eqb c' c); [|done]. by eapply IH, contains_tail.
Qed.

Lemma contains_string_drop sub n s :
  contains sub s = false → contains sub (string_drop n s) = false.
Proof.
  revert s. induction n as [|n IH]; intros [|c s]; try done.
  intros Hs. cbn [string_drop]. by eapply IH, contains_tail.
Qed.

Lemma isabs_lstrip s : isabs (lstrip "/" s) = false.
Proof.
  induction s as [|c s IH]; [done|]. cbn [lstrip].
  destruct (Ascii.eqb_spec c "/") as [->|Hc]; [done|].
  unfold isabs. cbn [String.prefix].
  destruct (Ascii.ascii_dec "/" c); [congruence|done].
Qed.

(** [get_image] serves files of the upload directory only: when it answers
    with a file, the path of that file is the upload directory followed by
    a relative path in which [..] does not occur, and the path names a
    regular file.  This holds whatever [strip] and [normpath] make of the
    request. *)
Theorem get_image_stays_in_upload_dir strip normpath fs UPLOAD_DIR file
    image_path :
  get_image strip normpath fs UPLOAD_DIR file = Return image_path →
  ∃ relative,
    contains ".." relative = false
    ∧ isabs relative = false
    ∧ image_path = join UPLOAD_DIR relative
    ∧ (image_path = UPLOAD_DIR +:+ relative
       ∨ image_path = UPLOAD_DIR +:+ "/" +:+ relative)
    ∧ isfile fs image_path = true.
Proof.
  unfold get_image. cbv zeta.
  set (cleaned := lstrip "/" (replace_sep_sep (normpath (strip file)))).
  destruct (contains ".." cleaned) eqn:Hdots; [done|].
  rewrite orb_false_l.
  destruct (isabs cleaned) eqn:Habs; [done|].
  set (relative := if String.prefix "uploads/" cleaned
                   then lstrip "/" (string_drop (String.length "uploads/")
                                      cleaned)
                   else cleaned).
  assert (Hrel : contains ".." relative = false ∧ isabs relative = false).
  { subst relative. destruct (String.prefix "uploads/" cleaned); [|done].
    split; [by apply contains_lstrip, contains_string_drop
           |apply isabs_lstrip]. }
  destruct Hrel as [Hrd Hra].
  destruct (path_exists fs _); [|done].
  destruct (isfile fs (join UPLOAD_DIR relative)) eqn:Hfile; [|done].
  cbn. intros [= <-]. exists relative. repeat split; try done.
  unfold join. rewrite Hra. destruct (_ || _); [by left|by right].
Qed.

Lemma get_image_stays_in_upload_dir_witness :
  ∃ relative,
    contains ".." relative = false
    ∧ isabs relative = false
    ∧ "uploads/avatar_10.png"%string = join "uploads" relative
    ∧ ("uploads/avatar_10.png"%string = ("uploads" +:+ relative)%string
       ∨ "uploads/avatar_10.png"%string
         = ("uploads" +:+ "/" +:+ relative)%string)
    ∧ String.eqb "uploads/avatar_10.png" "uploads/avatar_10.png" = true.
Proof.
  apply (get_image_stays_in_upload_dir id id
           {| path_exists := String.eqb "uploads/avatar_10.png";
              isfile := String.eqb "uploads/avatar_10.png" |}
           "uploads" "//uploads//avatar_10.png" "uploads/avatar_10.png").
  reflexivity.
Defined.
